(** * The control server of CLIProxyAPI-Plus: supervision and self-update

    A shallow embedding of [scripts/gui-server.py]: the process locator,
    the start/stop/restart supervisor, the version store, the update check,
    the installer and the request loop of the control surface.

    The operating system, the network and the file system are an explicit
    [Env] (what the outside will answer during the run) and a [State] (what
    the program can change).  Every function of the source becomes a
    computation in a small reader/state/exception monad, so that a [try]
    block that swallows an error, and one that lets it through, are told
    apart.  Each effect is also appended to a trace, which is what the
    ordering properties are stated on. *)

From stdpp Require Import base option list strings gmap pretty.
From Stdlib Require Import NArith ZArith Ascii String Lia.

Local Open Scope N_scope.
Set Warnings "-register-all".

(* ===================================================================== *)
(** * Python strings *)

Module Py.

(** [needle in hay] on two [str]. *)
Fixpoint str_contains (needle hay : string) : bool :=
  if String.prefix needle hay then true
  else match hay with
       | EmptyString => false
       | String _ rest => str_contains needle rest
       end.

(** The ASCII part of [str.isspace]. *)
Definition is_space (c : ascii) : bool :=
  let n := N_of_ascii c in
  ((9 <=? n) && (n <=? 13)) || ((28 <=? n) && (n <=? 32)).

Fixpoint lstrip (s : string) : string :=
  match s with
  | String c rest => if is_space c then lstrip rest else s
  | EmptyString => EmptyString
  end.

Fixpoint rstrip (s : string) : string :=
  match s with
  | EmptyString => EmptyString
  | String c rest =>
      match rstrip rest with
      | EmptyString => if is_space c then EmptyString else String c EmptyString
      | r => String c r
      end
  end.

(** [s.strip()] *)
Definition strip (s : string) : string := rstrip (lstrip s).

(** [s.split('\n')[0]] *)
Fixpoint first_line (s : string) : string :=
  match s with
  | EmptyString => EmptyString
  | String c rest =>
      if Ascii.eqb c "010"%char then EmptyString else String c (first_line rest)
  end.

(** [s[:n]] *)
Definition take (n : nat) (s : string) : string := String.substring 0 n s.

(** Truthiness of a [str]. *)
Definition truthy (s : string) : bool :=
  match s with EmptyString => false | _ => true end.

End Py.

(* ===================================================================== *)
(** * JSON values and Python dictionaries *)

(** What [json.loads] returns.  A dictionary keeps its insertion order, as
    a Python [dict] does.  No arithmetic is done on numbers, a float is
    kept as its literal. *)
Inductive json : Type :=
| JNull
| JBool (b : bool)
| JInt (n : Z)
| JFloat (literal : string)
| JStr (s : string)
| JList (items : list json)
| JDict (fields : list (string * json)).

Definition pydict := list (string * json).

Fixpoint dict_get (k : string) (d : pydict) : option json :=
  match d with
  | [] => None
  | (k', v) :: rest => if String.eqb k k' then Some v else dict_get k rest
  end.

(** [k in d] *)
Definition dict_has (k : string) (d : pydict) : bool :=
  match dict_get k d with Some _ => true | None => false end.

(** [d[k] = v]: an existing key keeps its place, a new one goes last. *)
Fixpoint dict_set (k : string) (v : json) (d : pydict) : pydict :=
  match d with
  | [] => [(k, v)]
  | (k', v') :: rest =>
      if String.eqb k k' then (k, v) :: rest else (k', v') :: dict_set k v rest
  end.

(** [v == s] for a [str] [s]: only a string can be equal to a string. *)
Definition json_eq_str (v : json) (s : string) : bool :=
  match v with
  | JStr t => String.eqb t s
  | _ => false
  end.

Definition json_of_option (o : option string) : json :=
  match o with Some s => JStr s | None => JNull end.

(* ===================================================================== *)
(** * Exceptions *)

(** The exceptions that reach a handler of the modelled code.  [OSError]
    stands for any failure of the environment and carries its [str()]. *)
Inductive exn : Type :=
| KeyError (key : string)
| TypeError (msg : string)
| OSError (msg : string).

(** [str(e)] *)
Definition str_exn (e : exn) : string :=
  match e with
  | KeyError k => "'" +:+ k +:+ "'"
  | TypeError m => m
  | OSError m => m
  end.

Inductive outcome (A : Type) : Type :=
| Ret (a : A)
| Raise (e : exn).
Arguments Ret {A} a.
Arguments Raise {A} e.

(* ===================================================================== *)
(** * The outside world *)

(** What a process does with SIGTERM. *)
Inductive term_reaction : Type :=
| TermExits (delay_ms : N)      (* gone [delay_ms] after the signal *)
| TermIgnored                   (* keeps running *)
| TermRaises (msg : string).    (* [os.kill] itself fails *)

Record process : Type := {
  pid : N;
  pname : string;                     (* [proc.info['name']] *)
  cmdline : string;                   (* what [pgrep -f] matches on *)
  telemetry : option (N * N);         (* rss in bytes, creation time; None: the query raises *)
  on_term : term_reaction;
  term_at : option N                  (* exit time once SIGTERM was received *)
}.

(** How processes are found: [psutil] can be imported, or only [pgrep] is
    there, or neither. *)
Inductive locator_mode : Type := Psutil | Pgrep | NoLocator.

(** A node of the extracted archive. *)
Inductive node : Type :=
| File (content : string) (mode : N)
| Dir (entries : list (string * node)).

(** What the download and the extraction will do: the entries found in the
    temporary directory after [extractall], next to [update.zip]. *)
Inductive download_outcome : Type :=
| DownloadRaises (msg : string)
| ExtractRaises (msg : string)
| Extracted (entries : list (string * node)).

(** What the request to the commits endpoint will do.  [FetchFail] is any
    exception raised inside the [try] of the check, after [latestCommit]
    and [latestCommitDate] were assigned or not. *)
Inductive fetch_outcome : Type :=
| FetchOk (sha date message : string)
| FetchFail (sha : option string) (date : option string) (msg : string).

(** What [Popen] and the half second after it will do. *)
Inductive launch_outcome : Type :=
| LaunchRaises (msg : string)
| LaunchExits (logs : option (string * string))   (* stdout, stderr read back; None: unreadable *)
| LaunchRuns (react : term_reaction) (tele : option (N * N)).

Inductive target : Type := ToBin | ToGui.

(** File operations of the copy step that the environment can refuse. *)
Inductive fs_op : Type :=
| OpCopy (t : target) (name : string)
| OpChmod (name : string)
| OpMkdirGui.

Global Instance target_eq_dec : EqDecision target.
Proof. solve_decision. Defined.
Global Instance fs_op_eq_dec : EqDecision fs_op.
Proof. solve_decision. Defined.

(** A file of a live directory: content and permission bits. *)
Record file : Type := { content : string; mode : N }.

(** The stored version record: no file, a file that cannot be read or
    parsed, or a file holding a JSON value. *)
Inductive vfile : Type :=
| Missing
| Unparseable (text : string)
| Stored (doc : json).

(** The part of the world the program does not change.  The configuration
    directory is taken to exist and to be writable: writing the version
    file and creating the log directory always succeed. *)
Record Env : Type := {
  home : string;
  temp_dir : string;                  (* the name [TemporaryDirectory] picks *)
  locator : locator_mode;
  iso : N -> string;                  (* [datetime.fromtimestamp(t).isoformat()] *)
  binary_exists : bool;
  config_file : option string;        (* text of config.yaml, None: no file *)
  remote : fetch_outcome;
  download : download_outcome;
  faults : list (fs_op * string);     (* the operations that raise, with the message *)
  launch : launch_outcome
}.

(** The dictionary [get_server_status] returns.  [memory] holds the
    resident size in bytes that the reported figure, rounded to a tenth of
    a megabyte, is computed from. *)
Record server_status : Type := {
  running : bool;
  st_pid : option N;
  memory : option N;
  startTime : option string;
  port : N;
  endpoint : string
}.

(** The dictionary [get_update_info] returns. *)
Record update_info : Type := {
  currentVersion : json;
  currentCommit : json;
  latestCommit : option string;
  latestCommitDate : option string;
  latestCommitMessage : string;
  hasUpdate : bool;
  downloadUrl : string;
  repoUrl : string;
  error : option string
}.

Inductive body : Type :=
| BJson (j : json)
| BStatus (st : server_status)
| BUpdateInfo (u : update_info).

(** What a request gets: a JSON reply with its status code, or nothing
    when the handler raised. *)
Inductive reply : Type :=
| Reply (status : N) (b : body)
| NoReply (e : exn).

Inductive event : Type :=
| EvLog (msg : string)
| EvSleep (ms : N)
| EvKill (p : N)
| EvMkdirLogs
| EvTruncateLogs
| EvPopen
| EvWriteVersion (doc : json)
| EvMkdtemp
| EvRmtemp
| EvDownload (url : string)
| EvExtract
| EvMkdirGui
| EvCopy (t : target) (name : string)
| EvChmod (name : string)
| EvRequest (method path : string)
| EvRespond (r : reply).

Record State : Type := {
  procs : list process;               (* the process table, in scan order *)
  clock : N;                          (* milliseconds *)
  next_pid : N;
  version_file : vfile;
  bin_dir : gmap string file;
  gui_dir : option (gmap string file);   (* None: the directory does not exist *)
  trace : list event
}.

Definition set_procs (f : list process -> list process) (s : State) : State :=
  {| procs := f (procs s); clock := clock s; next_pid := next_pid s;
     version_file := version_file s; bin_dir := bin_dir s; gui_dir := gui_dir s;
     trace := trace s |}.

Definition set_clock (t : N) (s : State) : State :=
  {| procs := procs s; clock := t; next_pid := next_pid s;
     version_file := version_file s; bin_dir := bin_dir s; gui_dir := gui_dir s;
     trace := trace s |}.

Definition set_next_pid (n : N) (s : State) : State :=
  {| procs := procs s; clock := clock s; next_pid := n;
     version_file := version_file s; bin_dir := bin_dir s; gui_dir := gui_dir s;
     trace := trace s |}.

Definition set_version_file (v : vfile) (s : State) : State :=
  {| procs := procs s; clock := clock s; next_pid := next_pid s;
     version_file := v; bin_dir := bin_dir s; gui_dir := gui_dir s;
     trace := trace s |}.

Definition set_bin_dir (d : gmap string file) (s : State) : State :=
  {| procs := procs s; clock := clock s; next_pid := next_pid s;
     version_file := version_file s; bin_dir := d; gui_dir := gui_dir s;
     trace := trace s |}.

Definition set_gui_dir (d : option (gmap string file)) (s : State) : State :=
  {| procs := procs s; clock := clock s; next_pid := next_pid s;
     version_file := version_file s; bin_dir := bin_dir s; gui_dir := d;
     trace := trace s |}.

Definition emit (e : event) (s : State) : State :=
  {| procs := procs s; clock := clock s; next_pid := next_pid s;
     version_file := version_file s; bin_dir := bin_dir s; gui_dir := gui_dir s;
     trace := trace s ++ [e] |}.

(* ===================================================================== *)
(** * The monad of the embedding *)

(** A computation reads the environment, threads the state and returns or
    raises; the state reached when an exception is raised is kept. *)
Definition M (A : Type) : Type := Env -> State -> outcome A * State.

Definition ret {A} (a : A) : M A := fun _ s => (Ret a, s).

Definition raise {A} (e : exn) : M A := fun _ s => (Raise e, s).

Definition bind {A B} (c : M A) (k : A -> M B) : M B :=
  fun env s =>
    match c env s with
    | (Ret a, s') => k a env s'
    | (Raise e, s') => (Raise e, s')
    end.

(** [try: c  except Exception as e: h e] *)
Definition try_except {A} (c : M A) (h : exn -> M A) : M A :=
  fun env s =>
    match c env s with
    | (Ret a, s') => (Ret a, s')
    | (Raise e, s') => h e env s'
    end.

(** [try: c  finally: f], the shape of a [with] block. *)
Definition finally {A} (c : M A) (f : State -> State) : M A :=
  fun env s =>
    match c env s with
    | (o, s') => (o, f s')
    end.

Definition ask : M Env := fun env s => (Ret env, s).
Definition get : M State := fun _ s => (Ret s, s).
Definition modify (f : State -> State) : M unit := fun _ s => (Ret tt, f s).
Definition tell (e : event) : M unit := modify (emit e).

(** Lifts a pure step that may raise. *)
Definition lift {A} (o : outcome A) : M A := fun _ s => (o, s).

Declare Scope py_scope.
Delimit Scope py_scope with py.
Notation "'let!' x ':=' c 'in' k" := (bind c (fun x => k))
  (at level 10, x name, c at level 100, k at level 200) : py_scope.
Notation "c1 ';;' c2" := (bind c1 (fun _ => c2))
  (at level 100, c2 at level 200, right associativity) : py_scope.
Local Open Scope py_scope.

(** [for x in xs: body x] *)
Fixpoint for_each {A} (xs : list A) (body : A -> M unit) : M unit :=
  match xs with
  | [] => ret tt
  | x :: rest => body x ;; for_each rest body
  end.

(* ===================================================================== *)
(** * Configuration *)

Definition API_PORT : N := 8317.
Definition SCRIPT_VERSION : string := "1.1.0".
Definition PROCESS_NAMES : list string := ["cliproxyapi-plus"; "cli-proxy-api"].
Definition GITHUB_REPO : string := "imrosyd/cliproxyapi-plus".

Definition BIN_DIR (env : Env) : string := home env +:+ "/bin".
Definition CONFIG_DIR (env : Env) : string := home env +:+ "/.cli-proxy-api".
Definition BINARY (env : Env) : string := BIN_DIR env +:+ "/cliproxyapi-plus".
Definition CONFIG_FILE (env : Env) : string := CONFIG_DIR env +:+ "/config.yaml".

Definition api_endpoint : string := "http://localhost:" +:+ pretty API_PORT +:+ "/v1".

(** [{'success': False, 'error': msg}] *)
Definition failure (msg : string) : json :=
  JDict [("success", JBool false); ("error", JStr msg)].

(** [result['success']] is [True]. *)
Definition succeeded (result : json) : bool :=
  match result with
  | JDict d =>
      match dict_get "success" d with
      | Some (JBool true) => true
      | _ => false
      end
  | _ => false
  end.

(* ===================================================================== *)
(** * Time and signals *)

(** The processes still there at time [now]. *)
Definition reap (now : N) (ps : list process) : list process :=
  List.filter
    (fun p => match term_at p with Some t => negb (t <=? now) | None => true end) ps.

(** [time.sleep(ms / 1000)] *)
Definition time_sleep (ms : N) : M unit :=
  tell (EvSleep ms) ;;
  modify (fun s =>
    let now := clock s + ms in
    set_procs (reap now) (set_clock now s)).

(** The process [p] has received SIGTERM at time [now]. *)
Definition signalled (now : N) (target_pid : N) (p : process) : process :=
  match on_term p, term_at p with
  | TermExits d, None =>
      if pid p =? target_pid then
        {| pid := pid p; pname := pname p; cmdline := cmdline p;
           telemetry := telemetry p; on_term := on_term p;
           term_at := Some (now + d) |}
      else p
  | _, _ => p
  end.

(** [os.kill(pid, signal.SIGTERM)] *)
Definition os_kill (target_pid : N) : M unit :=
  let! s := get in
  tell (EvKill target_pid) ;;
  match List.find (fun q => pid q =? target_pid) (procs s) with
  | None => raise (OSError "[Errno 3] No such process")
  | Some q =>
      match on_term q with
      | TermRaises msg => raise (OSError msg)
      | _ => modify (set_procs (map (signalled (clock s) target_pid)))
      end
  end.

(* ===================================================================== *)
(** * ProcessLocator *)

(** What [get_server_process] hands back: a [psutil.Process], or the
    dictionary of the [pgrep] fallback. *)
Inductive proc_ref : Type :=
| PsutilProc (p : process)
| PgrepProc (found_pid : N) (name : string).

(** [proc.pid if hasattr(proc, 'pid') else proc.get('pid')] *)
Definition ref_pid (r : proc_ref) : N :=
  match r with
  | PsutilProc p => pid p
  | PgrepProc n _ => n
  end.

(** [any(pname in name for pname in PROCESS_NAMES)] *)
Definition matches_name (p : process) : bool :=
  existsb (fun pn => Py.str_contains pn (pname p)) PROCESS_NAMES.

(** The fallback loop: the first name for which [pgrep -f] prints a pid. *)
Fixpoint pgrep_first (names : list string) (ps : list process) : option proc_ref :=
  match names with
  | [] => None
  | pn :: rest =>
      match List.filter (fun p => Py.str_contains pn (cmdline p)) ps with
      | q :: _ => Some (PgrepProc (pid q) pn)
      | [] => pgrep_first rest ps
      end
  end.

(** The scan of [get_server_process] over a process table: [psutil]
    compares names; without it [pgrep -f] compares command lines; and when
    [pgrep] cannot be run either, every attempt is skipped. *)
Definition locate (env : Env) (ps : list process) : option proc_ref :=
  match locator env with
  | Psutil => option_map PsutilProc (List.find matches_name ps)
  | Pgrep => pgrep_first PROCESS_NAMES ps
  | NoLocator => None
  end.

Definition get_server_process : M (option proc_ref) :=
  let! env := ask in
  let! s := get in
  ret (locate env (procs s)).

(* ===================================================================== *)
(** * ProcessSupervisor *)

Definition status_of (r : option N) (tele : option (N * string)) : server_status :=
  {| running := match r with Some _ => true | None => false end;
     st_pid := r;
     memory := option_map fst tele;
     startTime := option_map snd tele;
     port := API_PORT;
     endpoint := api_endpoint |}.

Definition get_server_status : M server_status :=
  let! proc := get_server_process in
  let! env := ask in
  match proc with
  | Some (PgrepProc n _) => ret (status_of (Some n) None)
  | Some (PsutilProc p) =>
      match telemetry p with
      | Some (rss, created) => ret (status_of (Some (pid p)) (Some (rss, iso env created)))
      | None => ret (status_of (Some (pid p)) None)
      end
  | None => ret (status_of None None)
  end.

(** The process [Popen] has created, while it runs. *)
Definition spawned (env : Env) (n : N) (react : term_reaction) (tele : option (N * N)) : process :=
  {| pid := n; pname := "cliproxyapi-plus";
     cmdline := BINARY env +:+ " --config " +:+ CONFIG_FILE env;
     telemetry := tele; on_term := react; term_at := None |}.

(** The detail read back from the two log files of a server that exited. *)
Definition exit_detail (logs : option (string * string)) : string :=
  match logs with
  | Some (out, err) =>
      let combined := Py.strip (Py.strip out +:+ Py.strip err) in
      if Py.truthy combined then "Server exited immediately" +:+ ": " +:+ combined
      else "Server exited immediately"
  | None => "Server exited immediately"
  end.

Definition start_api_server : M json :=
  let! proc := get_server_process in
  match proc with
  | Some r =>
      ret (failure ("Server already running (PID: " +:+ pretty (ref_pid r) +:+ ")"))
  | None =>
      let! env := ask in
      if negb (binary_exists env) then
        ret (failure ("Binary not found: " +:+ BINARY env))
      else if negb (bool_decide (is_Some (config_file env))) then
        ret (failure ("Config not found: " +:+ CONFIG_FILE env))
      else
        tell EvMkdirLogs ;;
        try_except
          (tell EvTruncateLogs ;;
           tell EvPopen ;;
           match launch env with
           | LaunchRaises msg => raise (OSError msg)
           | LaunchExits logs =>
               modify (fun s => set_next_pid (next_pid s + 1) s) ;;
               time_sleep 500 ;;
               ret (failure (exit_detail logs))
           | LaunchRuns react tele =>
               let! s := get in
               let n := next_pid s in
               modify (fun s => set_next_pid (n + 1)
                                  (set_procs (fun ps => ps ++ [spawned env n react tele]) s)) ;;
               time_sleep 500 ;;
               ret (JDict [("success", JBool true); ("pid", JInt (Z.of_N n));
                           ("message", JStr "Server started")])
           end)
          (fun e => ret (failure (str_exn e)))
  end.

Definition stop_api_server : M json :=
  let! proc := get_server_process in
  match proc with
  | None => ret (failure "Server not running")
  | Some r =>
      try_except
        (os_kill (ref_pid r) ;;
         time_sleep 300 ;;
         ret (JDict [("success", JBool true); ("message", JStr "Server stopped")]))
        (fun e => ret (failure (str_exn e)))
  end.

Definition restart_api_server : M json :=
  stop_api_server ;;
  time_sleep 500 ;;
  start_api_server.

(* ===================================================================== *)
(** * VersionStore *)

(** [VERSION_FILE.write_text(json.dumps(doc, indent=2))] *)
Definition write_version (doc : json) : M unit :=
  tell (EvWriteVersion doc) ;;
  modify (set_version_file (Stored doc)).

Definition default_version : json :=
  JDict [("scripts", JStr SCRIPT_VERSION); ("commitSha", JStr "unknown");
         ("commitDate", JNull); ("lastCheck", JNull)].

(** The body of the [try] of [get_local_version] once the text has been
    parsed: the membership test and the item assignment, [None] when one of
    them raises (and the bare [except] swallows it). *)
Definition migrate (data : json) : option json :=
  match data with
  | JDict d =>
      if dict_has "commitSha" d then Some data
      else Some (JDict (dict_set "commitSha" (JStr "unknown") d))
  | JList items =>
      if existsb (fun x => json_eq_str x "commitSha") items then Some data else None
  | JStr s =>
      if Py.str_contains "commitSha" s then Some data else None
  | JNull | JBool _ | JInt _ | JFloat _ => None
  end.

Definition get_local_version : M json :=
  let! s := get in
  let create_default := (write_version default_version ;; ret default_version) in
  match version_file s with
  | Stored data =>
      match migrate data with
      | Some data' => ret data'
      | None => create_default
      end
  | Unparseable _ => create_default
  | Missing => create_default
  end.

(** [obj[key]] for a [str] key. *)
Definition py_getitem (obj : json) (key : string) : outcome json :=
  match obj with
  | JDict d =>
      match dict_get key d with
      | Some v => Ret v
      | None => Raise (KeyError key)
      end
  | JList _ => Raise (TypeError "list indices must be integers or slices, not str")
  | JStr _ => Raise (TypeError "string indices must be integers, not 'str'")
  | _ => Raise (TypeError "object is not subscriptable")
  end.

(** [obj[key] = v] for a [str] key. *)
Definition py_setitem (obj : json) (key : string) (v : json) : outcome json :=
  match obj with
  | JDict d => Ret (JDict (dict_set key v d))
  | JList _ => Raise (TypeError "list indices must be integers or slices, not str")
  | _ => Raise (TypeError "object does not support item assignment")
  end.

(* ===================================================================== *)
(** * UpdateInstaller: the check *)

Definition download_url : string :=
  "https://github.com/" +:+ GITHUB_REPO +:+ "/archive/refs/heads/main.zip".

Definition repo_url : string := "https://github.com/" +:+ GITHUB_REPO.

(** [local['commitSha'] == 'unknown'] or else [local['commitSha'] != latest] *)
Definition has_update (stored : json) (latest : string) : bool :=
  if json_eq_str stored "unknown" then true
  else negb (json_eq_str stored latest).

Definition get_update_info : M update_info :=
  let! local := get_local_version in
  let! scripts := lift (py_getitem local "scripts") in
  let! commit := lift (py_getitem local "commitSha") in
  let result latest date message has err :=
    {| currentVersion := scripts; currentCommit := commit;
       latestCommit := latest; latestCommitDate := date;
       latestCommitMessage := message; hasUpdate := has;
       downloadUrl := download_url; repoUrl := repo_url; error := err |} in
  let! env := ask in
  match remote env with
  | FetchFail sha date msg =>
      ret (result (option_map (Py.take 7) sha) date "" false (Some msg))
  | FetchOk sha date message =>
      let latest := Py.take 7 sha in
      let! s := get in
      let! local' := lift (py_setitem local "lastCheck" (JStr (iso env (clock s)))) in
      write_version local' ;;
      ret (result (Some latest) (Some date) (Py.first_line message)
                  (has_update commit latest) None)
  end.

(* ===================================================================== *)
(** * UpdateInstaller: the install *)

Definition fault (env : Env) (op : fs_op) : option string :=
  snd <$> List.find (fun f => bool_decide (fst f = op)) (faults env).

(** An operation of the copy step: it raises when the environment refuses
    it, and then changes nothing. *)
Definition guarded (op : fs_op) (e : event) (effect : State -> State) : M unit :=
  let! env := ask in
  match fault env op with
  | Some msg => raise (OSError msg)
  | None => tell e ;; modify effect
  end.

(** [shutil.copy2(item, dest)]: content and permission bits of the source. *)
Definition copy2 (t : target) (name : string) (c : string) (m : N) : M unit :=
  guarded (OpCopy t name) (EvCopy t name)
    (fun s =>
       let f := {| content := c; mode := m |} in
       match t with
       | ToBin => set_bin_dir (<[name := f]> (bin_dir s)) s
       | ToGui => set_gui_dir (Some (<[name := f]> (default ∅ (gui_dir s)))) s
       end).

(** [dest.chmod(0o755)] in the binary directory. *)
Definition chmod_755 (name : string) : M unit :=
  guarded (OpChmod name) (EvChmod name)
    (fun s =>
       set_bin_dir (alter (fun f => {| content := content f; mode := 493 |}) name (bin_dir s)) s).

(** [gui_dest.mkdir(parents=True, exist_ok=True)] *)
Definition mkdir_gui : M unit :=
  guarded OpMkdirGui EvMkdirGui
    (fun s => match gui_dir s with
              | Some _ => s
              | None => set_gui_dir (Some ∅) s
              end).

(** [[d for d in temp_path.iterdir() if d.is_dir()]] *)
Fixpoint extracted_folders (entries : list (string * node))
  : list (string * list (string * node)) :=
  match entries with
  | [] => []
  | (name, Dir es) :: rest => (name, es) :: extracted_folders rest
  | (_, File _ _) :: rest => extracted_folders rest
  end.

Fixpoint lookup_entry (name : string) (es : list (string * node)) : option node :=
  match es with
  | [] => None
  | (k, n) :: rest => if String.eqb name k then Some n else lookup_entry name rest
  end.

(** [source.iterdir()]: the entries of a directory, an error on a file. *)
Definition iterdir (path : string) (n : node) : outcome (list (string * node)) :=
  match n with
  | Dir es => Ret es
  | File _ _ => Raise (OSError ("[Errno 20] Not a directory: '" +:+ path +:+ "'"))
  end.

Definition copy_scripts (folder_path : string) (folder : list (string * node)) : M unit :=
  match lookup_entry "scripts" folder with
  | Some scripts_source =>
      let! items := lift (iterdir (folder_path +:+ "/scripts") scripts_source) in
      for_each items (fun item =>
        match snd item with
        | File c m => copy2 ToBin (fst item) c m ;; chmod_755 (fst item)
        | Dir _ => ret tt
        end)
  | None => ret tt
  end.

Definition copy_gui (folder_path : string) (folder : list (string * node)) : M unit :=
  match lookup_entry "gui" folder with
  | Some gui_source =>
      mkdir_gui ;;
      let! items := lift (iterdir (folder_path +:+ "/gui") gui_source) in
      for_each items (fun item =>
        match snd item with
        | File c m => copy2 ToGui (fst item) c m
        | Dir _ => ret tt
        end)
  | None => ret tt
  end.

(** The lines that advance the version record. *)
Definition update_version_file (info : update_info) : M unit :=
  let! local := get_local_version in
  let! local1 := lift (py_setitem local "commitSha" (json_of_option (latestCommit info))) in
  let! local2 := lift (py_setitem local1 "commitDate" (json_of_option (latestCommitDate info))) in
  write_version local2.

(** The body of [with tempfile.TemporaryDirectory() as temp_dir].  It
    returns [Some r] when the function returns [r] from inside the block. *)
Definition install_in_tempdir (info : update_info) : M (option json) :=
  let! env := ask in
  tell (EvLog ("Downloading update from " +:+ downloadUrl info)) ;;
  tell (EvDownload (downloadUrl info)) ;;
  match download env with
  | DownloadRaises msg => raise (OSError msg)
  | ExtractRaises msg =>
      tell (EvLog "Extracting update...") ;;
      tell EvExtract ;;
      raise (OSError msg)
  | Extracted entries =>
      tell (EvLog "Extracting update...") ;;
      tell EvExtract ;;
      match extracted_folders entries with
      | [] => ret (Some (failure "No folder found in archive"))
      | (name, folder) :: _ =>
          let folder_path := temp_dir env +:+ "/" +:+ name in
          copy_scripts folder_path folder ;;
          copy_gui folder_path folder ;;
          update_version_file info ;;
          ret None
      end
  end.

(** [if was_running: stop_api_server(); time.sleep(1)] *)
Definition stop_if_running (was_running : bool) : M unit :=
  if was_running then stop_api_server ;; time_sleep 1000 else ret tt.

(** [if was_running: start_api_server()] *)
Definition start_if_was_running (was_running : bool) : M unit :=
  if was_running then start_api_server ;; ret tt else ret tt.

Definition install_success (info : update_info) : json :=
  JDict [("success", JBool true);
         ("message", JStr "Update installed successfully");
         ("newCommit", json_of_option (latestCommit info));
         ("commitMessage", JStr (latestCommitMessage info));
         ("needsRestart", JBool true)].

Definition install_update : M json :=
  try_except
    (let! info := get_update_info in
     if Py.truthy (default "" (error info)) then
       ret (failure ("Failed to get update info: " +:+ default "" (error info)))
     else
       let! proc := get_server_process in
       let was_running := bool_decide (is_Some proc) in
       stop_if_running was_running ;;
       let! early :=
         (tell EvMkdtemp ;; finally (install_in_tempdir info) (emit EvRmtemp)) in
       match early with
       | Some r => ret r
       | None =>
           start_if_was_running was_running ;;
           ret (install_success info)
       end)
    (fun e => ret (failure (str_exn e))).

(* ===================================================================== *)
(** * ControlAPI *)

Definition get_config_content : M json :=
  let! env := ask in
  match config_file env with
  | None =>
      ret (JDict [("success", JBool false);
                  ("error", JStr ("Config file not found: " +:+ CONFIG_FILE env));
                  ("content", JStr "")])
  | Some text => ret (JDict [("success", JBool true); ("content", JStr text)])
  end.

(** The requests of the supervision and update core.  The auxiliary routes
    of [do_GET] and [do_POST] (the GUI page, login state, model list,
    statistics, factory configuration, provider toggles, OAuth login and
    saving the configuration) are left out. *)
Inductive request : Type :=
| GetStatus          (* GET /api/status *)
| GetConfig          (* GET /api/config *)
| GetUpdateInfo      (* GET /api/update-info *)
| PostStart          (* POST /api/start *)
| PostStop           (* POST /api/stop *)
| PostRestart        (* POST /api/restart *)
| PostUpdate.        (* POST /api/update *)

Definition req_method (r : request) : string :=
  match r with
  | GetStatus | GetConfig | GetUpdateInfo => "GET"
  | _ => "POST"
  end.

Definition req_path (r : request) : string :=
  match r with
  | GetStatus => "/api/status"
  | GetConfig => "/api/config"
  | GetUpdateInfo => "/api/update-info"
  | PostStart => "/api/start"
  | PostStop => "/api/stop"
  | PostRestart => "/api/restart"
  | PostUpdate => "/api/update"
  end.

(** The branch of [do_GET] or [do_POST] the request takes, up to the value
    handed to [send_json]. *)
Definition dispatch (r : request) : M body :=
  match r with
  | GetStatus => let! st := get_server_status in ret (BStatus st)
  | GetConfig => let! j := get_config_content in ret (BJson j)
  | GetUpdateInfo => let! u := get_update_info in ret (BUpdateInfo u)
  | PostStart => let! j := start_api_server in ret (BJson j)
  | PostStop => let! j := stop_api_server in ret (BJson j)
  | PostRestart => let! j := restart_api_server in ret (BJson j)
  | PostUpdate => let! j := install_update in ret (BJson j)
  end.

(** One turn of the server: the handler runs to its end, and an exception
    that escapes it is reported by the server and answers nothing. *)
Definition handle_request (r : request) : M unit :=
  tell (EvRequest (req_method r) (req_path r)) ;;
  try_except
    (let! b := dispatch r in tell (EvRespond (Reply 200 b)))
    (fun e => tell (EvRespond (NoReply e))).

(** [server.serve_forever()] of [HTTPServer]: a single loop that takes the
    pending requests one by one, in the order they arrived, each handled to
    completion before the next is accepted ([HTTPServer] is the plain
    [socketserver.TCPServer], not its threading variant). *)
Definition serve_forever (pending : list request) : M unit :=
  for_each pending handle_request.

(* ===================================================================== *)
(** * Observations the statements are made of *)

(** [get_local_version()[key]], read in state [s]. *)
Definition read_field (env : Env) (s : State) (key : string) : outcome json :=
  match get_local_version env s with
  | (Ret local, _) => py_getitem local key
  | (Raise e, _) => Raise e
  end.

(** The installed commit, as the version store reads it. *)
Definition installedCommit (env : Env) (s : State) : outcome json :=
  read_field env s "commitSha".

(** Whether the locator finds the server in state [s]. *)
Definition is_running (env : Env) (s : State) : bool :=
  match locate env (procs s) with Some _ => true | None => false end.

(** A computation that relates every state to the state it leaves. *)
Definition stable (R : State -> State -> Prop) {A} (c : M A) : Prop :=
  forall env s, R s (snd (c env s)).

(** [s'] has the trace of [s] followed by events that all satisfy [P]. *)
Definition extends (P : event -> bool) (s s' : State) : Prop :=
  exists evs, trace s' = trace s ++ evs /\ forallb P evs = true.

(** [s'] has the same [f] as [s]. *)
Definition keeps {X} (f : State -> X) (s s' : State) : Prop := f s' = f s.

(** The three stored things the installer works on. *)
Definition same_files (s s' : State) : Prop :=
  version_file s' = version_file s /\ bin_dir s' = bin_dir s /\ gui_dir s' = gui_dir s.

Definition is_copy_event (e : event) : bool :=
  match e with EvCopy _ _ | EvChmod _ | EvMkdirGui => true | _ => false end.

Definition is_version_write (e : event) : bool :=
  match e with EvWriteVersion _ => true | _ => false end.

Definition is_launch (e : event) : bool :=
  match e with EvPopen => true | _ => false end.

Definition is_http (e : event) : bool :=
  match e with EvRequest _ _ | EvRespond _ => true | _ => false end.

(** What the supervisor does: signals, waits, log files and launches. *)
Definition is_supervisor_event (e : event) : bool :=
  match e with
  | EvKill _ | EvSleep _ | EvMkdirLogs | EvTruncateLogs | EvPopen => true
  | _ => false
  end.

(** What stopping does: a signal and waits. *)
Definition is_stop_event (e : event) : bool :=
  match e with EvKill _ | EvSleep _ => true | _ => false end.

(** The state a successful launch leaves, half a second later. *)
Definition launched (env : Env) (s : State) (react : term_reaction) (tele : option (N * N)) : State :=
  let s1 := emit EvPopen (emit EvTruncateLogs (emit EvMkdirLogs s)) in
  let s2 := set_next_pid (next_pid s + 1)
              (set_procs (fun ps => ps ++ [spawned env (next_pid s) react tele]) s1) in
  set_procs (reap (clock s + 500)) (set_clock (clock s + 500) (emit (EvSleep 500) s2)).

(** The processes and the clock, which only the supervisor touches. *)
Definition same_procs (s s' : State) : Prop :=
  procs s' = procs s /\ clock s' = clock s /\ next_pid s' = next_pid s.

(** The two live directories. *)
Definition same_dirs (s s' : State) : Prop :=
  bin_dir s' = bin_dir s /\ gui_dir s' = gui_dir s.

(* ===================================================================== *)
(** * Sample worlds, for the concrete runs *)

Definition sample_iso (t : N) : string := "1970-01-01T00:00:00+" +:+ pretty t +:+ "ms".

Definition sample_env (loc : locator_mode) (rem : fetch_outcome)
    (dl : download_outcome) (fl : list (fs_op * string)) (ln : launch_outcome) : Env :=
  {| home := "/home/u"; temp_dir := "/tmp/tmpk3x9"; locator := loc; iso := sample_iso;
     binary_exists := true; config_file := Some "port: 8317";
     remote := rem; download := dl; faults := fl; launch := ln |}.

Definition sample_fetch : fetch_outcome :=
  FetchOk "0123456789abcdef0123456789abcdef01234567" "2024-05-01T10:00:00Z"
          ("fix: installer" +:+ String "010" "details").

(** An archive that ships scripts and no GUI. *)
Definition sample_scripts : list (string * node) :=
  [("gui-server.py", File "#!/usr/bin/env python3" 420);
   ("start.sh", File "#!/bin/sh" 420);
   ("lib", Dir [("helper.sh", File "# helper" 420)])].

Definition sample_folder : list (string * node) :=
  [("README.md", File "readme" 420); ("scripts", Dir sample_scripts)].

Definition sample_entries : list (string * node) :=
  [("update.zip", File "PK" 420); ("cliproxyapi-plus-main", Dir sample_folder)].

Definition sample_archive : download_outcome := Extracted sample_entries.

Definition sample_launch : launch_outcome := LaunchRuns (TermExits 100) (Some (52428800, 5000)).

Definition sample_server : process :=
  {| pid := 4242; pname := "cliproxyapi-plus";
     cmdline := "/home/u/bin/cliproxyapi-plus --config /home/u/.cli-proxy-api/config.yaml";
     telemetry := Some (41943040, 1000); on_term := TermExits 200; term_at := None |}.

Definition sample_record : json :=
  JDict [("scripts", JStr "1.1.0"); ("commitSha", JStr "aaaaaaa");
         ("commitDate", JStr "2024-04-01T09:00:00Z"); ("lastCheck", JNull)].

Definition sample_state (ps : list process) (v : vfile) : State :=
  {| procs := ps; clock := 60000; next_pid := 5000; version_file := v;
     bin_dir := {["gui-server.py" := {| content := "# old"; mode := 493 |}]};
     gui_dir := Some {["index.html" := {| content := "<html>"; mode := 420 |}]};
     trace := [] |}.

Definition no_space : string := "[Errno 28] No space left on device".

(** A machine with neither [psutil] nor [pgrep], and nothing running. *)
Definition blind_env : Env :=
  sample_env NoLocator sample_fetch sample_archive [] sample_launch.

Definition psutil_env : Env :=
  sample_env Psutil sample_fetch sample_archive [] sample_launch.

Definition pgrep_env : Env :=
  sample_env Pgrep sample_fetch sample_archive [] sample_launch.

Definition idle_state : State := sample_state [] (Stored sample_record).

Definition serving_state : State := sample_state [sample_server] (Stored sample_record).

(** [{'success': True, 'pid': n, 'message': 'Server started'}] *)
Definition started (n : N) : json :=
  JDict [("success", JBool true); ("pid", JInt (Z.of_N n));
         ("message", JStr "Server started")].

(** The state after [VERSION_FILE.write_text] of [doc]. *)
Definition written (doc : json) (s : State) : State :=
  set_version_file (Stored doc) (emit (EvWriteVersion doc) s).

(** A version file that holds a commit and nothing else. *)
Definition bare_record : json := JDict [("commitSha", JStr "abc1234")].

Definition bare_state : State := sample_state [] (Stored bare_record).

Definition garbled_state : State := sample_state [] (Unparseable "{ scripts: 1.1.0, commitSha").

(** An environment whose remote cannot be reached. *)
Definition offline_env : Env :=
  sample_env Psutil (FetchFail None None "<urlopen error [Errno -3] Temporary failure in name resolution>")
             sample_archive [] sample_launch.

(** The state a successful check leaves: the record [d] that was read,
    with [lastCheck] set to the time of the check, written back. *)
Definition checked (env : Env) (d : pydict) (s : State) : State :=
  written (JDict (dict_set "lastCheck" (JStr (iso env (clock s))) d)) s.

(** The answer of a check that reached the remote. *)
Definition check_result (scripts commit : json) (sha date message : string) : update_info :=
  {| currentVersion := scripts; currentCommit := commit;
     latestCommit := Some (Py.take 7 sha); latestCommitDate := Some date;
     latestCommitMessage := Py.first_line message;
     hasUpdate := has_update commit (Py.take 7 sha);
     downloadUrl := download_url; repoUrl := repo_url; error := None |}.

(** The answer of a check that did not. *)
Definition check_failed (scripts commit : json) (sha date : option string) (msg : string)
  : update_info :=
  {| currentVersion := scripts; currentCommit := commit;
     latestCommit := option_map (Py.take 7) sha; latestCommitDate := date;
     latestCommitMessage := ""; hasUpdate := false;
     downloadUrl := download_url; repoUrl := repo_url; error := Some msg |}.

(** The state the installer copies from: the archive has been downloaded
    and extracted. *)
Definition unpacked (info : update_info) (s : State) : State :=
  emit EvExtract
    (emit (EvLog "Extracting update...")
       (emit (EvDownload (downloadUrl info))
          (emit (EvLog ("Downloading update from " +:+ downloadUrl info)) s))).

Definition not_version_write (e : event) : bool := negb (is_version_write e).

Definition not_launch (e : event) : bool := negb (is_launch e).


(** What the installer does between the check and the version write. *)
Definition is_install_step (e : event) : bool :=
  match e with
  | EvKill _ | EvSleep _ | EvMkdtemp | EvRmtemp | EvLog _ | EvDownload _ | EvExtract
  | EvMkdirGui | EvCopy _ _ | EvChmod _ => true
  | _ => false
  end.

(** What [install_update] answers when the block under the temporary
    directory ends in [o] without completing. *)
Definition failure_of (o : outcome (option json)) : json :=
  match o with
  | Raise e => failure (str_exn e)
  | Ret (Some r) => r
  | Ret None => JNull
  end.

(** Download fails for lack of space; and the same failure met while
    copying the first script. *)
Definition download_fails_env : Env :=
  sample_env Psutil sample_fetch (DownloadRaises no_space) [] sample_launch.

Definition copy_fails_env : Env :=
  sample_env Psutil sample_fetch sample_archive
             [(OpCopy ToBin "gui-server.py", no_space)] sample_launch.

Definition extract_fails_env : Env :=
  sample_env Psutil sample_fetch (ExtractRaises no_space) [] sample_launch.

(** No process has been created between [s] and [s']. *)
Definition no_new_process (s s' : State) : Prop :=
  next_pid s' = next_pid s /\
  forall p, In p (procs s') -> exists q, In q (procs s) /\ pid q = pid p.

(** The body of the loop over the entries of [scripts]. *)
Definition copy_script (item : string * node) : M unit :=
  match snd item with
  | File c m => copy2 ToBin (fst item) c m ;; chmod_755 (fst item)
  | Dir _ => ret tt
  end.


Definition not_http (e : event) : bool := negb (is_http e).

(** What one turn of the server adds to the trace: the request, what its
    handler did, and the reply. *)
Definition turn_events (r : request) (t : list event * reply) : list event :=
  EvRequest (req_method r) (req_path r) :: fst t ++ [EvRespond (snd t)].

(** The place of the first event that satisfies [P]. *)
Fixpoint index_of (P : event -> bool) (tr : list event) : option nat :=
  match tr with
  | [] => None
  | e :: rest => if P e then Some 0%nat else option_map S (index_of P rest)
  end.

Definition is_request_to (path : string) (e : event) : bool :=
  match e with EvRequest _ p => String.eqb p path | _ => false end.

Definition is_status_reply (e : event) : bool :=
  match e with EvRespond (Reply _ (BStatus _)) => true | _ => false end.

Definition is_reply (e : event) : bool :=
  match e with EvRespond _ => true | _ => false end.

Definition is_extract (e : event) : bool :=
  match e with EvExtract => true | _ => false end.

(** A status request, and a configuration read, that arrive while an
    install is being handled. *)
Definition status_behind_install : list event :=
  trace (snd (serve_forever [PostUpdate; GetStatus] psutil_env serving_state)).

Definition config_behind_install : list event :=
  trace (snd (serve_forever [PostUpdate; GetConfig] psutil_env serving_state)).

(** [{'success': True, 'message': 'Server stopped'}] *)
Definition stopped : json :=
  JDict [("success", JBool true); ("message", JStr "Server stopped")].

(** A process that is still there [wait] milliseconds after a SIGTERM:
    it has not been signalled before, and it ignores the signal or takes
    longer than [wait] to exit. *)
Definition outlives (wait : N) (p : process) : Prop :=
  term_at p = None /\
  (on_term p = TermIgnored \/ exists d, on_term p = TermExits d /\ wait < d).

(** A server that ignores SIGTERM, and one that takes two seconds to go. *)
Definition stubborn_server : process :=
  {| pid := 4242; pname := "cliproxyapi-plus";
     cmdline := "/home/u/bin/cliproxyapi-plus --config /home/u/.cli-proxy-api/config.yaml";
     telemetry := None; on_term := TermIgnored; term_at := None |}.

Definition slow_server : process :=
  {| pid := 4242; pname := "cli-proxy-api";
     cmdline := "/opt/cli-proxy-api --config /etc/cli-proxy-api.yaml";
     telemetry := None; on_term := TermExits 2000; term_at := None |}.

Definition stubborn_state : State := sample_state [stubborn_server] (Stored sample_record).

Definition slow_state : State := sample_state [slow_server] (Stored sample_record).

Definition not_temp (e : event) : bool :=
  match e with EvMkdtemp | EvRmtemp => false | _ => true end.

(** The body of the loop over the entries of [gui]. *)
Definition copy_asset (item : string * node) : M unit :=
  match snd item with
  | File c m => copy2 ToGui (fst item) c m
  | Dir _ => ret tt
  end.

(** A check that fails with an exception whose text is empty. *)
Definition silent_env : Env :=
  sample_env Psutil (FetchFail None None "") sample_archive [] sample_launch.

(** An archive that ships a GUI page and a style sheet. *)
Definition sample_assets : list (string * node) :=
  [("index.html", File "<html>new" 420); ("style.css", File "body{}" 420)].

Definition gui_env : Env :=
  sample_env Psutil sample_fetch
    (Extracted [("cliproxyapi-plus-main", Dir [("gui", Dir sample_assets)])])
    [] sample_launch.

(** The second script of the archive cannot be written. *)
Definition second_copy_fails_env : Env :=
  sample_env Psutil sample_fetch sample_archive
             [(OpCopy ToBin "start.sh", "[Errno 26] Text file busy: '/home/u/bin/start.sh'")]
             sample_launch.

(* ===================================================================== *)
(** * The auxiliary endpoints: model catalog, provider toggles, saving
      the configuration *)

(** The files these endpoints read and write are not part of [State]:
    each function takes what its file holds and returns what it holds
    after the call. *)

(** A step of code that sits under an [except Exception as e] which only
    uses [str(e)]: a value, or the text of the exception. *)
Inductive attempt (A : Type) : Type :=
| Done (a : A)
| Failed (msg : string).
Arguments Done {A} a.
Arguments Failed {A} msg.

(** [type(v).__name__] for a value that came out of [json.loads]. *)
Definition py_type_name (v : json) : string :=
  match v with
  | JNull => "NoneType"
  | JBool _ => "bool"
  | JInt _ => "int"
  | JFloat _ => "float"
  | JStr _ => "str"
  | JList _ => "list"
  | JDict _ => "dict"
  end.

(** [c.lower()] for an ASCII character; other bytes are left alone. *)
Definition lower_char (c : ascii) : ascii :=
  let n := N_of_ascii c in
  if (65 <=? n) && (n <=? 90) then ascii_of_N (n + 32) else c.

(** [s.lower()] on ASCII text. *)
Fixpoint py_lower (s : string) : string :=
  match s with
  | EmptyString => EmptyString
  | String c rest => String (lower_char c) (py_lower rest)
  end.

(** The text is ASCII, where [py_lower] is [str.lower]. *)
Fixpoint is_ascii (s : string) : bool :=
  match s with
  | EmptyString => true
  | String c rest => (N_of_ascii c <? 128) && is_ascii rest
  end.

(** [any(x in text for x in words)] *)
Definition any_in (words : list string) (text : string) : bool :=
  existsb (fun x => Py.str_contains x text) words.

Definition get_model_provider (model_id : string) : option string :=
  let model_lower := py_lower model_id in
  if any_in ["gemini"; "tstars"; "learnlm"] model_lower then Some "gemini"
  else if any_in ["copilot"; "gpt-4"; "gpt-5"; "o1-"; "o3-"; "o4-"] model_lower then Some "copilot"
  else if Py.str_contains "gemini-claude" model_lower
          || String.prefix "antigravity" model_lower then Some "antigravity"
  else if any_in ["codex"; "code-davinci"] model_lower then Some "codex"
  else if any_in ["claude"; "sonnet"; "opus"; "haiku"] model_lower then Some "claude"
  else if any_in ["qwen"; "qwq"] model_lower then Some "qwen"
  else if any_in ["iflow"; "deepseek"; "grok"; "raptor"] model_lower then Some "iflow"
  else if any_in ["kiro"; "kiro-claude"; "kimi"] model_lower then Some "kiro"
  else None.

(** [get_provider_toggles], on what the toggles file holds: whatever JSON
    it parses to, and the empty dictionary when it is missing or does not
    parse. *)
Definition get_provider_toggles (toggles_file : vfile) : json :=
  match toggles_file with
  | Stored doc => doc
  | Unparseable _ => JDict []
  | Missing => JDict []
  end.

(** The body of POST /api/provider-toggle as the GUI sends it: a provider
    that is a string when it is there, and any value for [enabled]. *)
Record toggle_request : Type := {
  req_provider : option string;
  req_enabled : option json
}.

(** [obj[key] = v] for a [str] key, with the text of the exception. *)
Definition py_store (obj : json) (key : string) (v : json) : attempt json :=
  match obj with
  | JDict d => Done (JDict (dict_set key v d))
  | JList _ => Failed "list indices must be integers or slices, not str"
  | _ => Failed ("'" +:+ py_type_name obj +:+ "' object does not support item assignment")
  end.

Section Truthiness.

(** Python's truth value of a JSON value, taken as given. *)
Variable truthy : json -> bool.

(** [toggles.get(provider, True)], as a condition. *)
Definition toggle_allows (toggles : json) (provider : string) : attempt bool :=
  match toggles with
  | JDict d =>
      Done (match dict_get provider d with
            | Some v => truthy v
            | None => true
            end)
  | _ => Failed ("'" +:+ py_type_name toggles +:+ "' object has no attribute 'get'")
  end.

(** The loop of [get_available_models] that fills [filtered_models]. *)
Fixpoint filter_models (toggles : json) (all_models : list string) : attempt (list string) :=
  match all_models with
  | [] => Done []
  | model :: rest =>
      let keep := match filter_models toggles rest with
                  | Done l => Done (model :: l)
                  | Failed msg => Failed msg
                  end in
      match get_model_provider model with
      | None => keep
      | Some provider =>
          match toggle_allows toggles provider with
          | Failed msg => Failed msg
          | Done true => keep
          | Done false => filter_models toggles rest
          end
      end
  end.

(** [get_available_models].  [response] is what the request to the
    server's [/v1/models] and the reading of the ids give: the ids, which
    are taken to be strings, or the text of the exception. *)
Definition get_available_models (response : attempt (list string)) (toggles_file : vfile)
  : M json :=
  let! proc := get_server_process in
  match proc with
  | None =>
      ret (JDict [("success", JBool false); ("error", JStr "Server not running");
                  ("models", JList [])])
  | Some _ =>
      let failed msg :=
        JDict [("success", JBool false); ("error", JStr msg); ("models", JList [])] in
      match response with
      | Failed msg => ret (failed msg)
      | Done all_models =>
          match filter_models (get_provider_toggles toggles_file) all_models with
          | Failed msg => ret (failed msg)
          | Done filtered =>
              ret (JDict [("success", JBool true);
                          ("models", JList (map JStr filtered));
                          ("total", JInt (Z.of_nat (List.length all_models)))])
          end
      end
  end.

(** [set_provider_toggle]: the answer, the toggles file after the call
    and the line it logs, if any. *)
Definition set_provider_toggle (data : toggle_request) (toggles_file : vfile)
  : json * vfile * option string :=
  let enabled := default (JBool true) (req_enabled data) in
  match req_provider data with
  | None => (failure "Provider not specified", toggles_file, None)
  | Some provider =>
      if negb (Py.truthy provider) then (failure "Provider not specified", toggles_file, None)
      else
        match py_store (get_provider_toggles toggles_file) provider enabled with
        | Failed msg => (failure msg, toggles_file, None)
        | Done toggles =>
            (JDict [("success", JBool true); ("provider", JStr provider);
                    ("enabled", enabled)],
             Stored toggles,
             Some ("Provider " +:+ provider +:+ " " +:+
                   (if truthy enabled then "enabled" else "disabled")))
        end
  end.

End Truthiness.

(** The configuration file and its backup copy. *)
Record config_files : Type := {
  config_text : option string;     (* config.yaml, None: no file *)
  backup_text : option string      (* config.yaml.bak *)
}.

(** [set_config_content]: the answer and the two files after the call.
    A content that is not a string makes [write_text] raise, after the
    backup has been taken. *)
Definition set_config_content (content : json) (f : config_files) : json * config_files :=
  let backed_up :=
    match config_text f with
    | Some text => Some text
    | None => backup_text f
    end in
  match content with
  | JStr text =>
      (JDict [("success", JBool true); ("message", JStr "Config saved")],
       {| config_text := Some text; backup_text := backed_up |})
  | _ =>
      (failure ("data must be str, not " +:+ py_type_name content),
       {| config_text := config_text f; backup_text := backed_up |})
  end.

(** A truth value for the concrete runs, which hold no float.  It is
    Python's on [None], booleans, integers, strings, lists and
    dictionaries; of a float it only knows the literal [0.0]. *)
Definition sample_truthy (v : json) : bool :=
  match v with
  | JNull => false
  | JBool b => b
  | JInt n => negb (Z.eqb n 0)
  | JFloat literal => negb (String.eqb literal "0.0")
  | JStr s => Py.truthy s
  | JList l => match l with [] => false | _ => true end
  | JDict d => match d with [] => false | _ => true end
  end.

Definition sample_models : list string :=
  ["gemini-2.5-pro"; "GPT-5-Codex"; "kiro-claude-sonnet-4"; "my-local-model"; "qwen3-coder"].

(** Whether a model passes the toggles [d]: its provider is unknown, has
    no toggle, or has a true one. *)
Definition listed (truthy : json -> bool) (d : pydict) (model : string) : bool :=
  match get_model_provider model with
  | None => true
  | Some provider =>
      match dict_get provider d with
      | Some v => truthy v
      | None => true
      end
  end.

(** [{'success': True, 'models': filtered, 'total': total}] *)
Definition model_list (filtered : list string) (total : nat) : json :=
  JDict [("success", JBool true); ("models", JList (map JStr filtered));
         ("total", JInt (Z.of_nat total))].

Definition toggle_off (provider : string) : toggle_request :=
  {| req_provider := Some provider; req_enabled := Some (JBool false) |}.

Definition sample_toggles : vfile :=
  Stored (JDict [("gemini", JBool true); ("qwen", JBool false)]).

(* ===================================================================== *)
(** * The factory configuration *)

(** [get_factory_config], on what [~/.factory/config.json] holds.  The
    directory is taken to be writable, as the configuration directory is:
    [save_factory_config] always succeeds, and the file then parses to the
    value that was saved. *)
Definition get_factory_config (factory_file : vfile) : json :=
  match factory_file with
  | Stored doc => doc
  | Unparseable _ => JDict [("custom_models", JList [])]
  | Missing => JDict [("custom_models", JList [])]
  end.

Definition save_factory_config (config : json) : vfile := Stored config.

(** The body of POST /api/factory-config/add and /remove as the GUI sends
    it: a list of model ids that are strings, an object of display names,
    and any value for [all]. *)
Record factory_request : Type := {
  req_models : option (list string);
  req_display_names : option pydict;
  req_all : option json
}.

Definition no_attribute (v : json) (attr : string) : string :=
  "'" +:+ py_type_name v +:+ "' object has no attribute '" +:+ attr +:+ "'".

(** [m.get('model')] for an element [m] of [custom_models], as it is
    looked up in or added to a set: lists and dictionaries cannot be
    hashed. *)
Definition model_of (m : json) : attempt json :=
  match m with
  | JDict d =>
      match default JNull (dict_get "model" d) with
      | JList _ => Failed "unhashable type: 'list'"
      | JDict _ => Failed "unhashable type: 'dict'"
      | v => Done v
      end
  | _ => Failed (no_attribute m "get")
  end.

Fixpoint models_of (l : list json) : attempt (list json) :=
  match l with
  | [] => Done []
  | m :: rest =>
      match model_of m with
      | Failed msg => Failed msg
      | Done v =>
          match models_of rest with
          | Failed msg => Failed msg
          | Done vs => Done (v :: vs)
          end
      end
  end.

(** [{m.get('model') for m in customs}], in the order of the list.  A
    dictionary or a string is run over too: when it is not empty its first
    element is a string, on which [.get] fails. *)
Definition existing_ids (customs : json) : attempt (list json) :=
  match customs with
  | JList l => models_of l
  | JDict [] => Done []
  | JDict _ => Failed "'str' object has no attribute 'get'"
  | JStr EmptyString => Done []
  | JStr _ => Failed "'str' object has no attribute 'get'"
  | _ => Failed ("'" +:+ py_type_name customs +:+ "' object is not iterable")
  end.

(** [model_id in ids] for a [str]. *)
Definition known (ids : list json) (model_id : string) : bool :=
  existsb (fun v => json_eq_str v model_id) ids.

Definition factory_entry (display_names : pydict) (model_id : string) : json :=
  JDict [("model_display_name", default (JStr model_id) (dict_get model_id display_names));
         ("model", JStr model_id);
         ("base_url", JStr "http://localhost:8317/v1");
         ("api_key", JStr "sk-dummy");
         ("provider", JStr "openai")].

(** [config['custom_models'].append(entry)] *)
Definition append_custom (config : pydict) (entry : json) : attempt pydict :=
  match dict_get "custom_models" config with
  | None => Failed "'custom_models'"
  | Some (JList l) => Done (dict_set "custom_models" (JList (l ++ [entry])) config)
  | Some v => Failed (no_attribute v "append")
  end.

(** The loop of [add_factory_models]; [ids] is computed before it and is
    not updated in it. *)
Fixpoint add_loop (ids : list json) (display_names : pydict) (models : list string)
         (config : pydict) (added : list string) : attempt (pydict * list string) :=
  match models with
  | [] => Done (config, added)
  | model_id :: rest =>
      if known ids model_id then add_loop ids display_names rest config added
      else
        match append_custom config (factory_entry display_names model_id) with
        | Failed msg => Failed msg
        | Done config' => add_loop ids display_names rest config' (added ++ [model_id])
        end
  end.

(** [add_factory_models]: the answer and the file after the call. *)
Definition add_factory_models (data : factory_request) (factory_file : vfile) : json * vfile :=
  let models := default [] (req_models data) in
  let display_names := default [] (req_display_names data) in
  match models with
  | [] => (failure "No models specified", factory_file)
  | _ :: _ =>
      match get_factory_config factory_file with
      | JDict config =>
          match existing_ids (default (JList []) (dict_get "custom_models" config)) with
          | Failed msg => (failure msg, factory_file)
          | Done ids =>
              match add_loop ids display_names models config [] with
              | Failed msg => (failure msg, factory_file)
              | Done (config', added) =>
                  (JDict [("success", JBool true); ("added", JList (map JStr added))],
                   save_factory_config (JDict config'))
              end
          end
      | v => (failure (no_attribute v "get"), factory_file)
      end
  end.

(** [m.get('model') not in models_set] *)
Definition requested (models : list string) (v : json) : bool :=
  existsb (json_eq_str v) models.

(** The list comprehension of [remove_factory_models] over a list. *)
Fixpoint keep_models (models : list string) (l : list json) : attempt (list json) :=
  match l with
  | [] => Done []
  | m :: rest =>
      match model_of m with
      | Failed msg => Failed msg
      | Done v =>
          match keep_models models rest with
          | Failed msg => Failed msg
          | Done kept => Done (if requested models v then kept else m :: kept)
          end
      end
  end.

(** [len(customs)] and then the comprehension over [customs]. *)
Definition remaining (models : list string) (customs : json) : attempt (list json) :=
  match customs with
  | JList l => keep_models models l
  | JDict [] => Done []
  | JDict _ => Failed "'str' object has no attribute 'get'"
  | JStr EmptyString => Done []
  | JStr _ => Failed "'str' object has no attribute 'get'"
  | _ => Failed ("object of type '" +:+ py_type_name customs +:+ "' has no len()")
  end.

(** [remove_factory_models]: the answer and the file after the call. *)
Definition remove_factory_models (truthy : json -> bool) (data : factory_request)
           (factory_file : vfile) : json * vfile :=
  if match req_all data with Some v => truthy v | None => false end then
    (JDict [("success", JBool true); ("removed", JList [JStr "all"])],
     save_factory_config (JDict [("custom_models", JList [])]))
  else
    let models := default [] (req_models data) in
    match models with
    | [] => (failure "No models specified", factory_file)
    | _ :: _ =>
        match get_factory_config factory_file with
        | JDict config =>
            match remaining models (default (JList []) (dict_get "custom_models" config)) with
            | Failed msg => (failure msg, factory_file)
            | Done kept =>
                (JDict [("success", JBool true); ("removed", JList (map JStr models))],
                 save_factory_config (JDict (dict_set "custom_models" (JList kept) config)))
            end
        | v => (failure (no_attribute v "get"), factory_file)
        end
    end.

Definition add_request (models : list string) (display_names : pydict) : factory_request :=
  {| req_models := Some models; req_display_names := Some display_names; req_all := None |}.

Definition remove_request (models : list string) : factory_request :=
  {| req_models := Some models; req_display_names := None; req_all := None |}.

Definition remove_all_request (models : option (list string)) : factory_request :=
  {| req_models := models; req_display_names := None; req_all := Some (JBool true) |}.

(** A factory configuration with one model and a setting of its own. *)
Definition sample_factory : pydict :=
  [("theme", JStr "dark");
   ("custom_models",
    JList [JDict [("model_display_name", JStr "Local"); ("model", JStr "my-local-model");
                  ("base_url", JStr "http://localhost:1234/v1")]])].

(* ===================================================================== *)
(** * Logging in to a provider *)

Definition oauth_flags : list (string * string) :=
  [("gemini", "--login");
   ("copilot", "--github-copilot-login");
   ("antigravity", "--antigravity-login");
   ("codex", "--codex-login");
   ("claude", "--claude-login");
   ("qwen", "--qwen-login");
   ("iflow", "--iflow-login");
   ("kiro", "--kiro-aws-login")].

(** [table.get(key)] for a table of strings. *)
Fixpoint assoc (key : string) (table : list (string * string)) : option string :=
  match table with
  | [] => None
  | (k, v) :: rest => if String.eqb key k then Some v else assoc key rest
  end.

(** [start_oauth_login].  [spawn provider_lower flag] stands for the body
    of the [try]: it creates the log directory, picks a browser, opens
    [oauth-<provider_lower>.log] and starts the binary with [flag], and
    gives the text of the exception when one of these raises. *)
Definition start_oauth_login (spawn : string -> string -> attempt unit) (provider : string)
  : json :=
  let provider_lower := py_lower provider in
  match assoc provider_lower oauth_flags with
  | None => failure ("Unknown provider: " +:+ provider)
  | Some flag =>
      match spawn provider_lower flag with
      | Done _ =>
          JDict [("success", JBool true);
                 ("message", JStr ("OAuth login started for " +:+ provider))]
      | Failed msg => failure msg
      end
  end.

Definition auth_patterns : list (string * string) :=
  [("gemini", "gemini-*.json");
   ("copilot", "github-copilot-*.json");
   ("antigravity", "antigravity-*.json");
   ("codex", "codex-*.json");
   ("claude", "claude-*.json");
   ("qwen", "qwen-*.json");
   ("iflow", "iflow-*.json");
   ("kiro", "kiro-*.json")].

(** Whether a file name matches a [glob] pattern made of plain characters
    and [*], which stands for any run of characters. *)
Fixpoint glob_match (pattern : string) : string -> bool :=
  match pattern with
  | EmptyString => fun name => match name with EmptyString => true | _ => false end
  | String c rest =>
      if Ascii.eqb c "*" then
        fix star (name : string) : bool :=
          glob_match rest name
          || match name with
             | EmptyString => false
             | String _ name' => star name'
             end
      else
        fun name =>
          match name with
          | EmptyString => false
          | String c' name' => Ascii.eqb c c' && glob_match rest name'
          end
  end.

(** [get_auth_status], on the names of the entries of the configuration
    directory. *)
Definition get_auth_status (names : list string) : json :=
  JDict (map (fun entry => (fst entry, JBool (existsb (glob_match (snd entry)) names)))
             auth_patterns).

(** A login that starts, whatever the provider. *)
Definition sample_spawn (provider_lower flag : string) : attempt unit := Done tt.

(** An archive whose folder has a [scripts] directory and a regular file
    named [gui]; and a machine on which the GUI directory does not
    exist. *)
Definition gui_file_env : Env :=
  sample_env Psutil sample_fetch
    (Extracted [("cliproxyapi-plus-main",
                 Dir [("scripts", Dir sample_scripts); ("gui", File "not a directory" 420)])])
    [] sample_launch.

Definition no_gui_state : State := set_gui_dir None idle_state.

(* ===================================================================== *)
(** * Relations every step of a computation respects *)

Section Stable.
Variable R : State -> State -> Prop.
Hypothesis R_refl : forall s, R s s.
Hypothesis R_trans : forall s1 s2 s3, R s1 s2 -> R s2 s3 -> R s1 s3.

Lemma stable_ret {A} (a : A) : stable R (ret a).
Proof. intros env s. apply R_refl. Qed.

Lemma stable_raise {A} (e : exn) : stable R (@raise A e).
Proof. intros env s. apply R_refl. Qed.

Lemma stable_lift {A} (o : outcome A) : stable R (lift o).
Proof. intros env s. apply R_refl. Qed.

Lemma stable_ask : stable R ask.
Proof. intros env s. apply R_refl. Qed.

Lemma stable_get : stable R get.
Proof. intros env s. apply R_refl. Qed.

Lemma stable_modify (f : State -> State) :
  (forall s, R s (f s)) -> stable R (modify f).
Proof. intros Hf env s. apply Hf. Qed.

Lemma stable_bind {A B} (c : M A) (k : A -> M B) :
  stable R c -> (forall a, stable R (k a)) -> stable R (bind c k).
Proof.
  intros Hc Hk env s. unfold bind.
  specialize (Hc env s). destruct (c env s) as [[a|e] s1]; simpl in *.
  - eapply R_trans; [exact Hc | apply Hk].
  - exact Hc.
Qed.

Lemma stable_try {A} (c : M A) (h : exn -> M A) :
  stable R c -> (forall e, stable R (h e)) -> stable R (try_except c h).
Proof.
  intros Hc Hh env s. unfold try_except.
  specialize (Hc env s). destruct (c env s) as [[a|e] s1]; simpl in *.
  - exact Hc.
  - eapply R_trans; [exact Hc | apply Hh].
Qed.

Lemma stable_finally {A} (c : M A) (f : State -> State) :
  stable R c -> (forall s, R s (f s)) -> stable R (finally c f).
Proof.
  intros Hc Hf env s. unfold finally.
  specialize (Hc env s). destruct (c env s) as [o s1]; simpl in *.
  eapply R_trans; [exact Hc | apply Hf].
Qed.

Lemma stable_for_each {A} (xs : list A) (body : A -> M unit) :
  (forall x, stable R (body x)) -> stable R (for_each xs body).
Proof.
  intros Hb. induction xs as [|x xs IH]; simpl.
  - apply stable_ret.
  - apply stable_bind; [apply Hb | intros _; exact IH].
Qed.
End Stable.

(** The two families of relations used below are preorders. *)

Lemma extends_refl P s : extends P s s.
Proof. exists []. rewrite app_nil_r. split; reflexivity. Qed.

Lemma extends_trans P s1 s2 s3 : extends P s1 s2 -> extends P s2 s3 -> extends P s1 s3.
Proof.
  intros (e1 & H1 & F1) (e2 & H2 & F2). exists (e1 ++ e2). split.
  - rewrite H2, H1, app_assoc. reflexivity.
  - rewrite forallb_app, F1, F2. reflexivity.
Qed.

Lemma extends_emit (P : event -> bool) e s : P e = true -> extends P s (emit e s).
Proof. intros HP. exists [e]. simpl. rewrite HP. split; reflexivity. Qed.

Lemma extends_same P s s' : trace s' = trace s -> extends P s s'.
Proof. intros H. exists []. rewrite app_nil_r. split; [exact H | reflexivity]. Qed.

Lemma extends_weaken (P Q : event -> bool) s s' :
  (forall e, P e = true -> Q e = true) -> extends P s s' -> extends Q s s'.
Proof.
  intros HPQ (evs & H & F). exists evs. split; [exact H|].
  rewrite forallb_forall in *. intros e He. apply HPQ, F, He.
Qed.

Lemma keeps_refl {X} (f : State -> X) s : keeps f s s.
Proof. reflexivity. Qed.

Lemma keeps_trans {X} (f : State -> X) s1 s2 s3 :
  keeps f s1 s2 -> keeps f s2 s3 -> keeps f s1 s3.
Proof. unfold keeps. congruence. Qed.

Lemma same_files_refl s : same_files s s.
Proof. repeat split. Qed.

Lemma same_files_trans s1 s2 s3 : same_files s1 s2 -> same_files s2 s3 -> same_files s1 s3.
Proof. unfold same_files. intros (?&?&?) (?&?&?). repeat split; congruence. Qed.

(** One step of a proof that a computation is stable: split a sequence,
    a handler or a branch, or close a leaf. *)
Create HintDb frames discriminated.

Ltac stable_step refl trans :=
  first
    [ solve [auto 1 with frames nocore]
    | apply (stable_ret _ refl)
    | apply (stable_raise _ refl)
    | apply (stable_lift _ refl)
    | apply (stable_ask _ refl)
    | apply (stable_get _ refl)
    | apply (stable_bind _ trans); [| intros ?]
    | apply (stable_try _ trans); [| intros ?]
    | apply (stable_finally _ trans)
    | apply (stable_for_each _ refl trans); intros ?
    | match goal with
      | |- stable _ (match ?x with _ => _ end) => destruct x
      | |- stable _ (if ?b then _ else _) => destruct b
      end ].

Ltac stable_files :=
  repeat (stable_step same_files_refl same_files_trans);
  try (apply stable_modify; intros ?; repeat split; reflexivity).

Ltac stable_trace P :=
  repeat (stable_step (extends_refl P) (extends_trans P));
  try (apply stable_modify; intros ?;
       first [ apply extends_same; reflexivity
             | apply extends_emit; reflexivity ]).

(* ===================================================================== *)
(** * What the supervisor leaves alone *)

Lemma time_sleep_files ms : stable same_files (time_sleep ms).
Proof. unfold time_sleep, tell. stable_files. Qed.
#[local] Hint Resolve time_sleep_files : frames.

Lemma os_kill_files p : stable same_files (os_kill p).
Proof. unfold os_kill, tell. stable_files. Qed.
#[local] Hint Resolve os_kill_files : frames.

Lemma get_server_process_files : stable same_files get_server_process.
Proof. unfold get_server_process. stable_files. Qed.
#[local] Hint Resolve get_server_process_files : frames.

Lemma stop_api_server_files : stable same_files stop_api_server.
Proof.
  unfold stop_api_server. stable_files;
    first [apply get_server_process_files | apply os_kill_files | apply time_sleep_files].
Qed.
#[local] Hint Resolve stop_api_server_files : frames.

Lemma start_api_server_files : stable same_files start_api_server.
Proof.
  unfold start_api_server, tell. stable_files;
    first [apply get_server_process_files | apply time_sleep_files].
Qed.
#[local] Hint Resolve start_api_server_files : frames.

(* ===================================================================== *)
(** * How the supervisor runs *)

Lemma get_server_process_run env s :
  get_server_process env s = (Ret (locate env (procs s)), s).
Proof. reflexivity. Qed.

Lemma time_sleep_run ms env s :
  time_sleep ms env s =
  (Ret tt, set_procs (reap (clock s + ms)) (set_clock (clock s + ms) (emit (EvSleep ms) s))).
Proof. reflexivity. Qed.

Lemma start_api_server_found env s r :
  locate env (procs s) = Some r ->
  start_api_server env s =
  (Ret (failure ("Server already running (PID: " +:+ pretty (ref_pid r) +:+ ")")), s).
Proof.
  intros H. unfold start_api_server, bind. rewrite get_server_process_run, H. reflexivity.
Qed.

Lemma start_api_server_no_binary env s :
  locate env (procs s) = None -> binary_exists env = false ->
  start_api_server env s = (Ret (failure ("Binary not found: " +:+ BINARY env)), s).
Proof.
  intros H Hb. unfold start_api_server, bind. rewrite get_server_process_run, H.
  simpl. rewrite Hb. reflexivity.
Qed.

Lemma start_api_server_no_config env s :
  locate env (procs s) = None -> binary_exists env = true -> config_file env = None ->
  start_api_server env s = (Ret (failure ("Config not found: " +:+ CONFIG_FILE env)), s).
Proof.
  intros H Hb Hc. unfold start_api_server, bind. rewrite get_server_process_run, H.
  simpl. rewrite Hb, Hc. reflexivity.
Qed.


Lemma start_api_server_returns env s : exists r, fst (start_api_server env s) = Ret r.
Proof.
  unfold start_api_server, bind. rewrite get_server_process_run.
  destruct (locate env (procs s)); [eexists; reflexivity|].
  simpl. destruct (binary_exists env); [|eexists; reflexivity]. simpl.
  destruct (config_file env); [|eexists; reflexivity]. simpl.
  unfold try_except, bind. simpl.
  destruct (launch env); eexists; reflexivity.
Qed.

(** A start that reports success has found no process and has launched. *)
Lemma start_api_server_success env s r s' :
  start_api_server env s = (Ret r, s') -> succeeded r = true ->
  locate env (procs s) = None /\
  exists react tele,
    launch env = LaunchRuns react tele /\ s' = launched env s react tele /\
    r = JDict [("success", JBool true); ("pid", JInt (Z.of_N (next_pid s)));
               ("message", JStr "Server started")].
Proof.
  unfold start_api_server, bind. rewrite get_server_process_run.
  destruct (locate env (procs s)) eqn:Hloc.
  { intros [= <- <-]. discriminate. }
  simpl. destruct (binary_exists env); simpl; [|intros [= <- <-]; discriminate].
  destruct (config_file env); simpl; [|intros [= <- <-]; discriminate].
  unfold try_except, bind. simpl.
  destruct (launch env) as [msg|logs|react tele] eqn:Hl; simpl.
  - intros [= <- <-]. discriminate.
  - intros [= <- <-]. discriminate.
  - intros [= <- <-] _. split; [reflexivity|]. exists react, tele. repeat split.
Qed.

Lemma stop_api_server_not_running env s :
  locate env (procs s) = None ->
  stop_api_server env s = (Ret (failure "Server not running"), s).
Proof.
  intros H. unfold stop_api_server, bind. rewrite get_server_process_run, H. reflexivity.
Qed.

Lemma os_kill_outcome p env s :
  exists s', snd (os_kill p env s) = s' /\
    ((fst (os_kill p env s) = Ret tt) \/ exists e, fst (os_kill p env s) = Raise e).
Proof.
  eexists. split; [reflexivity|].
  unfold os_kill, bind, get, tell, modify. simpl.
  destruct (List.find _ (procs s)) as [q|]; [|right; eexists; reflexivity].
  destruct (on_term q); simpl; eauto.
Qed.

Lemma stop_api_server_returns env s : exists r, fst (stop_api_server env s) = Ret r.
Proof.
  unfold stop_api_server, bind. rewrite get_server_process_run.
  destruct (locate env (procs s)) as [r|]; [|eexists; reflexivity].
  unfold try_except, bind.
  destruct (os_kill_outcome (ref_pid r) env s) as (s1 & Hs & [H|[e H]]).
  - destruct (os_kill (ref_pid r) env s) as [o s2]; simpl in *. subst o.
    eexists; reflexivity.
  - destruct (os_kill (ref_pid r) env s) as [o s2]; simpl in *. subst o.
    eexists; reflexivity.
Qed.

Lemma restart_api_server_returns env s : exists r, fst (restart_api_server env s) = Ret r.
Proof.
  unfold restart_api_server, bind.
  destruct (stop_api_server_returns env s) as [r0 H0].
  destruct (stop_api_server env s) as [o s1]; simpl in H0; subst o.
  rewrite time_sleep_run. apply start_api_server_returns.
Qed.

(* ===================================================================== *)
(** * Finding a process that was just launched *)

Lemma prefix_nil s : String.prefix "" s = true.
Proof. destruct s; reflexivity. Qed.

Lemma prefix_app n a b : String.prefix n a = true -> String.prefix n (a +:+ b) = true.
Proof.
  revert a. induction n as [|c n IH]; intros a H.
  - apply prefix_nil.
  - destruct a as [|c' a]; simpl in *; [discriminate|].
    destruct (ascii_dec c c'); [apply IH, H | discriminate].
Qed.

Lemma str_contains_cons n c rest :
  Py.str_contains n (String c rest) =
  if String.prefix n (String c rest) then true else Py.str_contains n rest.
Proof. reflexivity. Qed.

Lemma str_contains_app_l n a b :
  Py.str_contains n a = true -> Py.str_contains n (a +:+ b) = true.
Proof.
  induction a as [|c a IH].
  - destruct n; simpl; [|discriminate]. intros _. destruct b; reflexivity.
  - change (String c a +:+ b) with (String c (a +:+ b)).
    rewrite !str_contains_cons.
    destruct (String.prefix n (String c a)) eqn:Hp.
    + intros _. apply (prefix_app _ _ b) in Hp.
      change (String c a +:+ b) with (String c (a +:+ b)) in Hp. rewrite Hp. reflexivity.
    + intros H. rewrite (IH H).
      destruct (String.prefix n (String c (a +:+ b))); reflexivity.
Qed.

Lemma str_contains_app_r n a b :
  Py.str_contains n b = true -> Py.str_contains n (a +:+ b) = true.
Proof.
  intros H. induction a as [|c a IH]; [exact H|].
  change (String c a +:+ b) with (String c (a +:+ b)).
  rewrite str_contains_cons, IH.
  destruct (String.prefix n (String c (a +:+ b))); reflexivity.
Qed.

Lemma spawned_name env n react tele : matches_name (spawned env n react tele) = true.
Proof. reflexivity. Qed.

Lemma spawned_cmdline env n react tele :
  Py.str_contains "cliproxyapi-plus" (cmdline (spawned env n react tele)) = true.
Proof.
  simpl. apply str_contains_app_l. unfold BINARY. apply str_contains_app_r. reflexivity.
Qed.

Lemma find_app_none {A} (f : A -> bool) l x :
  List.find f l = None -> f x = true -> List.find f (l ++ [x]) = Some x.
Proof.
  intros Hl Hx. induction l as [|a l IH]; simpl in *.
  - rewrite Hx. reflexivity.
  - destruct (f a); [discriminate | apply IH, Hl].
Qed.

Lemma find_filter_none {A} (f g : A -> bool) l :
  List.find f l = None -> List.find f (List.filter g l) = None.
Proof.
  induction l as [|a l IH]; simpl; [reflexivity|].
  destruct (f a) eqn:Hf; [discriminate|]. intros H.
  destruct (g a); simpl; [rewrite Hf|]; apply IH, H.
Qed.

Lemma filter_filter_nil {A} (f g : A -> bool) l :
  List.filter f l = [] -> List.filter f (List.filter g l) = [].
Proof.
  induction l as [|a l IH]; simpl; [reflexivity|].
  destruct (f a) eqn:Hf; [discriminate|]. intros H.
  destruct (g a); simpl; [rewrite Hf|]; apply IH, H.
Qed.

Lemma reap_snoc t ps p : term_at p = None -> reap t (ps ++ [p]) = reap t ps ++ [p].
Proof. intros H. unfold reap. rewrite List.filter_app. simpl. rewrite H. reflexivity. Qed.

(** A locator that works finds the process a launch has just created,
    when it found none before. *)
Lemma locate_launched env s react tele :
  locator env <> NoLocator -> locate env (procs s) = None ->
  exists r, locate env (procs (launched env s react tele)) = Some r /\
            ref_pid r = next_pid s.
Proof.
  intros Hloc Hnone. unfold launched. simpl.
  rewrite reap_snoc by reflexivity.
  unfold locate in *. destruct (locator env); [| |congruence].
  - destruct (List.find matches_name (procs s)) eqn:Hf; [discriminate|].
    rewrite (find_app_none matches_name _ (spawned env (next_pid s) react tele)).
    + eexists. split; reflexivity.
    + apply find_filter_none, Hf.
    + apply spawned_name.
  - simpl in Hnone.
    destruct (List.filter _ (procs s)) eqn:Hf1; [|discriminate].
    cbn [pgrep_first PROCESS_NAMES]. rewrite List.filter_app. unfold reap at 1.
    rewrite (filter_filter_nil _ _ _ Hf1).
    cbn [List.filter app]. rewrite (spawned_cmdline env (next_pid s) react tele).
    eexists. split; reflexivity.
Qed.

Lemma get_server_status_found env s r :
  locate env (procs s) = Some r ->
  exists st, get_server_status env s = (Ret st, s) /\
             running st = true /\ st_pid st = Some (ref_pid r).
Proof.
  intros H. unfold get_server_status, bind. rewrite get_server_process_run, H. simpl.
  destruct r as [p|n name].
  - destruct (telemetry p) as [[rss created]|]; eexists; repeat split.
  - eexists; repeat split.
Qed.

Lemma get_server_status_none env s :
  locate env (procs s) = None ->
  get_server_status env s = (Ret (status_of None None), s).
Proof.
  intros H. unfold get_server_status, bind. rewrite get_server_process_run, H. reflexivity.
Qed.

Lemma locate_in_table env ps r :
  locate env ps = Some r -> exists p, In p ps /\ pid p = ref_pid r.
Proof.
  unfold locate. destruct (locator env); [| |discriminate].
  - destruct (List.find matches_name ps) as [p|] eqn:Hf; [|discriminate].
    intros [= <-]. exists p. split; [|reflexivity].
    apply find_some in Hf. apply Hf.
  - generalize PROCESS_NAMES. intros names. induction names as [|pn names IH]; simpl.
    + discriminate.
    + destruct (List.filter _ ps) as [|q rest] eqn:Hf; [exact IH|].
      intros [= <-]. exists q. split; [|reflexivity].
      assert (Hin : In q (List.filter (fun p => Py.str_contains pn (cmdline p)) ps))
        by (rewrite Hf; left; reflexivity).
      apply filter_In in Hin. apply Hin.
Qed.

(* ===================================================================== *)
(** * Start and restart *)

(** C5.  [start_api_server] refuses to start, and touches nothing, in
    three cases: when the locator finds a process, the error reads
    "Server already running (PID: n)" with n the pid of a process of the
    table that the locator found; when it finds none and the executable is
    absent, "Binary not found"; when the executable is there and the
    configuration file is absent, "Config not found".  In each case the
    state, and with it the trace, is the one it started from: no launch is
    attempted.  (With both files absent it is the executable that is
    reported.) *)
Theorem start_api_server_refusals env s :
  (forall r, locate env (procs s) = Some r ->
     start_api_server env s =
       (Ret (failure ("Server already running (PID: " +:+ pretty (ref_pid r) +:+ ")")), s)
     /\ exists p, In p (procs s) /\ pid p = ref_pid r) /\
  (locate env (procs s) = None -> binary_exists env = false ->
     start_api_server env s = (Ret (failure ("Binary not found: " +:+ BINARY env)), s)) /\
  (locate env (procs s) = None -> binary_exists env = true -> config_file env = None ->
     start_api_server env s = (Ret (failure ("Config not found: " +:+ CONFIG_FILE env)), s)).
Proof.
  repeat split.
  - apply start_api_server_found. assumption.
  - eapply locate_in_table. eassumption.
  - apply start_api_server_no_binary.
  - apply start_api_server_no_config.
Qed.

Lemma start_api_server_refusals_witness :
  start_api_server psutil_env serving_state =
    (Ret (failure "Server already running (PID: 4242)"), serving_state).
Proof.
  exact (proj1 (proj1 (start_api_server_refusals psutil_env serving_state)
                  (PsutilProc sample_server) eq_refl)).
Defined.

(** C4, as the code has it.  [restart_api_server] runs [stop_api_server]
    and drops its answer (when nothing is running that answer is the
    failure "Server not running"), sleeps half a second, and then answers
    what [start_api_server] answers.  Whenever it reports success and the
    locator can work at all (through [psutil] or through [pgrep]), the
    status taken next reports [running = true] with the pid just returned,
    whatever was running before the call. *)
Theorem restart_ends_running env s r s' :
  locator env <> NoLocator ->
  restart_api_server env s = (Ret r, s') -> succeeded r = true ->
  (exists r0 s1,
     stop_api_server env s = (Ret r0, s1) /\
     (locate env (procs s) = None -> r0 = failure "Server not running" /\ s1 = s) /\
     start_api_server env (snd (time_sleep 500 env s1)) = (Ret r, s')) /\
  exists n st,
    r = started n /\
    get_server_status env s' = (Ret st, s') /\ running st = true /\ st_pid st = Some n.
Proof.
  intros Hloc Hrun Hok.
  unfold restart_api_server, bind in Hrun.
  destruct (stop_api_server_returns env s) as [r0 H0].
  destruct (stop_api_server env s) as [o s1] eqn:Hstop. simpl in H0. subst o.
  rewrite time_sleep_run in Hrun.
  split.
  - exists r0, s1. split; [reflexivity|]. split; [|rewrite time_sleep_run; exact Hrun].
    intros Hnone. rewrite (stop_api_server_not_running _ _ Hnone) in Hstop.
    injection Hstop as <- <-. split; reflexivity.
  - destruct (start_api_server_success _ _ _ _ Hrun Hok) as (Hnone & react & tele & Hl & -> & ->).
    destruct (locate_launched env _ react tele Hloc Hnone) as (ref & Href & Hpid).
    destruct (get_server_status_found _ _ _ Href) as (st & Hst & Hr & Hp).
    eexists _, st. split; [reflexivity|]. split; [exact Hst|]. split; [exact Hr|].
    rewrite Hp, Hpid. reflexivity.
Qed.

Lemma restart_ends_running_witness :
  exists n st,
    started 5000 = started n /\
    get_server_status psutil_env (snd (restart_api_server psutil_env serving_state))
      = (Ret st, snd (restart_api_server psutil_env serving_state)) /\
    running st = true /\ st_pid st = Some n.
Proof.
  refine (proj2 (restart_ends_running psutil_env serving_state (started 5000)
                   (snd (restart_api_server psutil_env serving_state)) _ _ _)).
  - discriminate.
  - vm_compute. reflexivity.
  - reflexivity.
Defined.

(** The same from a machine where nothing was running. *)
Lemma restart_from_idle :
  fst (restart_api_server pgrep_env idle_state) = Ret (started 5000) /\
  is_running pgrep_env idle_state = false /\
  is_running pgrep_env (snd (restart_api_server pgrep_env idle_state)) = true.
Proof. vm_compute. repeat split. Qed.

(** C4 as stated fails where neither [psutil] nor [pgrep] is there: the
    locator finds nothing, so the restart launches the server and reports
    success with its pid, and the status taken next still reports
    [running = false]. *)
Lemma restart_without_locator_counterexample :
  let run := restart_api_server blind_env idle_state in
  fst run = Ret (started 5000) /\ succeeded (started 5000) = true /\
  (exists p, In p (procs (snd run)) /\ pid p = 5000 /\ pname p = "cliproxyapi-plus") /\
  exists st, get_server_status blind_env (snd run) = (Ret st, snd run) /\
             running st = false /\ st_pid st = None.
Proof.
  vm_compute. split; [reflexivity|]. split; [reflexivity|]. split.
  - eexists. split; [left; reflexivity|]. split; reflexivity.
  - eexists. repeat split.
Qed.

(* ===================================================================== *)
(** * The version store *)

Lemma dict_get_set_eq k v d : dict_get k (dict_set k v d) = Some v.
Proof.
  induction d as [|[k' v'] d IH]; simpl.
  - rewrite String.eqb_refl. reflexivity.
  - destruct (String.eqb k k') eqn:E; simpl; rewrite ?String.eqb_refl, ?E; auto.
Qed.

Lemma dict_get_set_ne k k' v d : k <> k' -> dict_get k (dict_set k' v d) = dict_get k d.
Proof.
  intros Hne. induction d as [|[k2 v2] d IH]; simpl.
  - destruct (String.eqb k k') eqn:E; [apply String.eqb_eq in E; contradiction | reflexivity].
  - destruct (String.eqb k' k2) eqn:E; simpl.
    + apply String.eqb_eq in E. subst k2.
      destruct (String.eqb k k') eqn:E2; [apply String.eqb_eq in E2; contradiction|].
      reflexivity.
    + rewrite IH. reflexivity.
Qed.

Lemma dict_has_set k v d : dict_has k (dict_set k v d) = true.
Proof. unfold dict_has. rewrite dict_get_set_eq. reflexivity. Qed.

Lemma dict_has_set_other k k' v d : dict_has k d = true -> dict_has k (dict_set k' v d) = true.
Proof.
  unfold dict_has. intros H. destruct (String.eqb_spec k k') as [->|Hne].
  - rewrite dict_get_set_eq. reflexivity.
  - rewrite dict_get_set_ne by assumption. exact H.
Qed.

Lemma get_local_version_dict env s d :
  version_file s = Stored (JDict d) ->
  get_local_version env s =
  (Ret (JDict (if dict_has "commitSha" d then d
               else dict_set "commitSha" (JStr "unknown") d)), s).
Proof.
  intros H. unfold get_local_version, bind, get. simpl. rewrite H. simpl.
  destruct (dict_has "commitSha" d); reflexivity.
Qed.

Lemma get_local_version_missing env s :
  version_file s = Missing ->
  get_local_version env s = (Ret default_version, written default_version s).
Proof. intros H. unfold get_local_version, bind, get. simpl. rewrite H. reflexivity. Qed.

Lemma get_local_version_garbled env s text :
  version_file s = Unparseable text ->
  get_local_version env s = (Ret default_version, written default_version s).
Proof. intros H. unfold get_local_version, bind, get. simpl. rewrite H. reflexivity. Qed.

(** What a read can give: the stored dictionary with a commit in it and
    the file as it was; a stored list or string that mentions the key,
    as it was; or the defaults, written. *)
Lemma get_local_version_cases env s :
  (exists d, get_local_version env s = (Ret (JDict d), s) /\
             dict_has "commitSha" d = true /\
             exists d0, version_file s = Stored (JDict d0)) \/
  (exists j, get_local_version env s = (Ret j, s) /\ version_file s = Stored j /\
             (forall k, exists m, py_getitem j k = Raise (TypeError m)) /\
             (forall k v, exists m, py_setitem j k v = Raise (TypeError m))) \/
  get_local_version env s = (Ret default_version, written default_version s).
Proof.
  unfold get_local_version, bind, get. simpl.
  destruct (version_file s) as [|text|data] eqn:Hv; [right; right; reflexivity..|].
  destruct data as [|b|n|l|str|items|d]; simpl; try (right; right; reflexivity).
  - destruct (Py.str_contains "commitSha" str); [|right; right; reflexivity].
    right; left. eexists. repeat split; intros; eexists; reflexivity.
  - destruct (existsb _ items); [|right; right; reflexivity].
    right; left. eexists. repeat split; intros; eexists; reflexivity.
  - left. destruct (dict_has "commitSha" d) eqn:Hh.
    + exists d. repeat split; eauto.
    + eexists. split; [reflexivity|]. split; [apply dict_has_set | eauto].
Qed.

Lemma get_local_version_returns env s : exists local, fst (get_local_version env s) = Ret local.
Proof.
  destruct (get_local_version_cases env s) as [(d & H & _)|[(j & H & _)|H]];
    rewrite H; eexists; reflexivity.
Qed.

(** C8, as the code has it.  When the version file holds a JSON object,
    [get_local_version] returns it with one addition at most: a missing
    [commitSha] becomes "unknown"; every other key is returned as stored,
    absent when it is absent, and the file is not written.  When there is
    no file, the full default record is written and returned. *)
Theorem get_local_version_reads env s :
  (forall d, version_file s = Stored (JDict d) ->
     exists d',
       get_local_version env s = (Ret (JDict d'), s) /\
       dict_get "commitSha" d' = Some (default (JStr "unknown") (dict_get "commitSha" d)) /\
       forall k, k <> "commitSha" -> dict_get k d' = dict_get k d) /\
  (version_file s = Missing ->
     get_local_version env s = (Ret default_version, written default_version s) /\
     version_file (written default_version s) = Stored default_version).
Proof.
  split.
  - intros d Hd. rewrite (get_local_version_dict env s d Hd).
    unfold dict_has. destruct (dict_get "commitSha" d) as [v|] eqn:Hc.
    + exists d. repeat split. exact Hc.
    + eexists. split; [reflexivity|]. split.
      * apply dict_get_set_eq.
      * intros k Hk. apply dict_get_set_ne. exact Hk.
  - intros Hm. split; [apply get_local_version_missing, Hm | reflexivity].
Qed.

Lemma get_local_version_reads_witness :
  exists d',
    get_local_version psutil_env bare_state = (Ret (JDict d'), bare_state) /\
    dict_get "commitSha" d' = Some (JStr "abc1234") /\
    forall k, k <> "commitSha" -> dict_get k d' = dict_get k [("commitSha", JStr "abc1234")].
Proof.
  exact (proj1 (get_local_version_reads psutil_env bare_state)
               [("commitSha", JStr "abc1234")] eq_refl).
Defined.

(** C8 as stated fails on a stored record that has a commit and no
    [scripts] field: the read returns it as it is, with no default for the
    missing fields, and the update check that follows raises [KeyError]. *)
Lemma get_local_version_injects_commit_only_counterexample :
  get_local_version psutil_env bare_state = (Ret bare_record, bare_state) /\
  read_field psutil_env bare_state "scripts" = Raise (KeyError "scripts") /\
  read_field psutil_env bare_state "commitDate" = Raise (KeyError "commitDate") /\
  read_field psutil_env bare_state "lastCheck" = Raise (KeyError "lastCheck") /\
  fst (get_update_info psutil_env bare_state) = Raise (KeyError "scripts").
Proof. vm_compute. repeat split. Qed.

(* ===================================================================== *)
(** * The update check *)

Lemma get_update_info_ok env s sha date message d s0 scripts commit :
  remote env = FetchOk sha date message ->
  get_local_version env s = (Ret (JDict d), s0) ->
  dict_get "scripts" d = Some scripts -> dict_get "commitSha" d = Some commit ->
  get_update_info env s =
  (Ret (check_result scripts commit sha date message), checked env d s0).
Proof.
  intros Hr Hl Hs Hc. unfold get_update_info, bind. rewrite Hl.
  unfold lift, ask, get. simpl. rewrite Hs, Hc, Hr. reflexivity.
Qed.

Lemma get_update_info_fail env s sha date msg d s0 scripts commit :
  remote env = FetchFail sha date msg ->
  get_local_version env s = (Ret (JDict d), s0) ->
  dict_get "scripts" d = Some scripts -> dict_get "commitSha" d = Some commit ->
  get_update_info env s = (Ret (check_failed scripts commit sha date msg), s0).
Proof.
  intros Hr Hl Hs Hc. unfold get_update_info, bind. rewrite Hl.
  unfold lift, ask, get. simpl. rewrite Hs, Hc, Hr. reflexivity.
Qed.

(** A check that returns has read a dictionary with both fields, and has
    either reached the remote and written the time of the check, or not
    reached it and written nothing more. *)
Lemma get_update_info_inv env s info s1 :
  get_update_info env s = (Ret info, s1) ->
  exists d s0 scripts commit,
    get_local_version env s = (Ret (JDict d), s0) /\
    dict_get "scripts" d = Some scripts /\ dict_get "commitSha" d = Some commit /\
    ((exists sha date message,
        remote env = FetchOk sha date message /\
        info = check_result scripts commit sha date message /\ s1 = checked env d s0) \/
     (exists sha date msg,
        remote env = FetchFail sha date msg /\
        info = check_failed scripts commit sha date msg /\ s1 = s0)).
Proof.
  intros H.
  destruct (get_local_version_cases env s) as [(d & Hl & Hh & _)|[(j & Hl & _ & Hj & _)|Hl]].
  - unfold dict_has in Hh. destruct (dict_get "commitSha" d) as [commit|] eqn:Hc; [|discriminate].
    destruct (dict_get "scripts" d) as [scripts|] eqn:Hs.
    + exists d, s, scripts, commit. repeat (split; [assumption|]).
      destruct (remote env) as [sha date message|sha date msg] eqn:Hr.
      * rewrite (get_update_info_ok _ _ _ _ _ _ _ _ _ Hr Hl Hs Hc) in H.
        injection H as <- <-. left. eauto 10.
      * rewrite (get_update_info_fail _ _ _ _ _ _ _ _ _ Hr Hl Hs Hc) in H.
        injection H as <- <-. right. eauto 10.
    + unfold get_update_info, bind in H. rewrite Hl in H.
      unfold lift in H. simpl in H. rewrite Hs in H. discriminate.
  - unfold get_update_info, bind in H. rewrite Hl in H. unfold lift in H.
    destruct (Hj "scripts") as [m Hm]. rewrite Hm in H. discriminate.
  - eexists _, _, (JStr SCRIPT_VERSION), (JStr "unknown").
    split; [exact Hl|]. split; [reflexivity|]. split; [reflexivity|].
    destruct (remote env) as [sha date message|sha date msg] eqn:Hr.
    + rewrite (get_update_info_ok _ _ _ _ _ _ _ (JStr SCRIPT_VERSION) (JStr "unknown") Hr Hl)
        in H by reflexivity.
      injection H as <- <-. left. eauto 10.
    + rewrite (get_update_info_fail _ _ _ _ _ _ _ (JStr SCRIPT_VERSION) (JStr "unknown") Hr Hl)
        in H by reflexivity.
      injection H as <- <-. right. eauto 10.
Qed.

Lemma json_eq_str_spec v t : json_eq_str v t = true <-> v = JStr t.
Proof.
  destruct v; simpl; try (split; [discriminate | intros [=]]).
  rewrite String.eqb_eq. split; [intros ->; reflexivity | intros [= ->]; reflexivity].
Qed.

Lemma has_update_spec stored latest :
  has_update stored latest = true <-> stored = JStr "unknown" \/ stored <> JStr latest.
Proof.
  unfold has_update.
  destruct (json_eq_str stored "unknown") eqn:Hu.
  - apply json_eq_str_spec in Hu. split; auto.
  - destruct (json_eq_str stored latest) eqn:Hl; simpl.
    + apply json_eq_str_spec in Hl. split; [discriminate|].
      intros [->|Hne]; [discriminate | contradiction].
    + split; [|reflexivity]. intros _. right. intros Heq.
      apply json_eq_str_spec in Heq. congruence.
Qed.

(** C3.  For every stored version state, read as [get_local_version]
    reads it and holding the [scripts] field the check reports, and every
    commit fetched from the remote, [get_update_info] returns without
    error with [latestCommit] the first seven characters of the fetched
    sha and with [hasUpdate] true exactly when the stored [commitSha] is
    "unknown" or differs from [latestCommit]; so [hasUpdate] is false when
    the stored commit is the remote commit (and is not the sentinel). *)
Theorem get_update_info_hasUpdate env s sha date message local s0 scripts :
  remote env = FetchOk sha date message ->
  get_local_version env s = (Ret local, s0) ->
  py_getitem local "scripts" = Ret scripts ->
  exists stored info s1,
    py_getitem local "commitSha" = Ret stored /\
    get_update_info env s = (Ret info, s1) /\
    error info = None /\
    latestCommit info = Some (Py.take 7 sha) /\
    (hasUpdate info = true <-> stored = JStr "unknown" \/ stored <> JStr (Py.take 7 sha)) /\
    (stored = JStr (Py.take 7 sha) -> stored <> JStr "unknown" -> hasUpdate info = false).
Proof.
  intros Hr Hl Hs.
  destruct (get_local_version_cases env s) as [(d & Hl' & Hh & _)|[(j & Hl' & _ & Hj & _)|Hl']];
    rewrite Hl' in Hl; injection Hl as <- <-.
  - unfold dict_has in Hh. destruct (dict_get "commitSha" d) as [commit|] eqn:Hc; [|discriminate].
    simpl in Hs. destruct (dict_get "scripts" d) as [v|] eqn:Hv; [|discriminate].
    injection Hs as <-.
    exists commit. eexists _, _. split; [simpl; rewrite Hc; reflexivity|].
    split; [apply (get_update_info_ok _ _ _ _ _ _ _ _ _ Hr Hl' Hv Hc)|].
    split; [reflexivity|]. split; [reflexivity|]. split; [apply has_update_spec|].
    intros Heq Hne. simpl.
    destruct (has_update commit (Py.take 7 sha)) eqn:Hu; [|reflexivity].
    apply has_update_spec in Hu. destruct Hu; contradiction.
  - destruct (Hj "scripts") as [m Hm]. congruence.
  - exists (JStr "unknown"). eexists _, _. split; [reflexivity|].
    split; [apply (get_update_info_ok _ _ _ _ _ _ _ (JStr SCRIPT_VERSION) (JStr "unknown") Hr Hl');
            reflexivity|].
    split; [reflexivity|]. split; [reflexivity|]. split; [apply has_update_spec|].
    intros _ Hne. contradiction.
Qed.

Lemma get_update_info_hasUpdate_witness :
  exists stored info s1,
    py_getitem sample_record "commitSha" = Ret stored /\
    get_update_info psutil_env idle_state = (Ret info, s1) /\
    error info = None /\
    latestCommit info = Some "0123456" /\
    (hasUpdate info = true <-> stored = JStr "unknown" \/ stored <> JStr "0123456") /\
    (stored = JStr "0123456" -> stored <> JStr "unknown" -> hasUpdate info = false).
Proof.
  exact (get_update_info_hasUpdate psutil_env idle_state _ _ _ sample_record idle_state
           (JStr "1.1.0") eq_refl eq_refl eq_refl).
Defined.

(** C3 as stated fails on a stored record without [scripts]: the check
    raises on its first lookup, before it fetches anything, and computes
    no [hasUpdate], although the stored commit differs from the remote
    one. *)
Lemma get_update_info_no_scripts_counterexample :
  version_file bare_state = Stored bare_record /\
  remote psutil_env = sample_fetch /\
  installedCommit psutil_env bare_state = Ret (JStr "abc1234") /\
  get_update_info psutil_env bare_state = (Raise (KeyError "scripts"), bare_state).
Proof. vm_compute. repeat split. Qed.

(** The three cases on concrete records: the sentinel, another commit,
    the same commit. *)
Lemma get_update_info_examples :
  let check v := option_map hasUpdate
                   (match fst (get_update_info psutil_env (sample_state [] v)) with
                    | Ret info => Some info
                    | Raise _ => None
                    end) in
  check Missing = Some true /\
  check (Stored sample_record) = Some true /\
  check (Stored (JDict [("scripts", JStr "1.1.0"); ("commitSha", JStr "0123456")])) = Some false.
Proof. vm_compute. repeat split. Qed.

(** A check that cannot reach the remote reports the error, and no
    update; [install_update] then stops at once and names the check. *)
Lemma get_update_info_offline :
  (exists info, fst (get_update_info offline_env garbled_state) = Ret info /\
                hasUpdate info = false /\ latestCommit info = None /\
                error info = Some "<urlopen error [Errno -3] Temporary failure in name resolution>") /\
  fst (install_update offline_env serving_state) =
    Ret (failure ("Failed to get update info: " +:+
                  "<urlopen error [Errno -3] Temporary failure in name resolution>")) /\
  snd (install_update offline_env serving_state) = serving_state.
Proof.
  split; [eexists; vm_compute; repeat split|]. vm_compute. split; reflexivity.
Qed.

(** C10.  When the version file is there and cannot be parsed,
    [get_local_version] does not raise: it writes the full default record
    over the file and returns it, so that the commit read from then on is
    "unknown" whatever was stored; and an update check that reaches the
    remote, run on the unparseable file or after that read, reports
    [hasUpdate = true]. *)
Theorem get_local_version_unparseable env s text :
  version_file s = Unparseable text ->
  get_local_version env s = (Ret default_version, written default_version s) /\
  version_file (written default_version s) = Stored default_version /\
  installedCommit env (written default_version s) = Ret (JStr "unknown") /\
  forall sha date message, remote env = FetchOk sha date message ->
    (exists info s1, get_update_info env s = (Ret info, s1) /\ hasUpdate info = true) /\
    (exists info s1, get_update_info env (written default_version s) = (Ret info, s1) /\
                     hasUpdate info = true).
Proof.
  intros Hv. pose proof (get_local_version_garbled env s text Hv) as Hl.
  split; [exact Hl|]. split; [reflexivity|]. split; [reflexivity|].
  intros sha date message Hr. split.
  - eexists _, _. split.
    + apply (get_update_info_ok env s sha date message _ _
               (JStr SCRIPT_VERSION) (JStr "unknown") Hr Hl); reflexivity.
    + reflexivity.
  - eexists _, _. split.
    + eapply (get_update_info_ok env (written default_version s) sha date message _ _
                (JStr SCRIPT_VERSION) (JStr "unknown") Hr);
        [apply get_local_version_dict; reflexivity | reflexivity | reflexivity].
    + reflexivity.
Qed.

Lemma get_local_version_unparseable_witness :
  get_local_version psutil_env garbled_state
    = (Ret default_version, written default_version garbled_state) /\
  installedCommit psutil_env (written default_version garbled_state) = Ret (JStr "unknown") /\
  exists info s1,
    get_update_info psutil_env garbled_state = (Ret info, s1) /\ hasUpdate info = true.
Proof.
  destruct (get_local_version_unparseable psutil_env garbled_state _ eq_refl)
    as (H1 & _ & H3 & H4).
  split; [exact H1|]. split; [exact H3|].
  exact (proj1 (H4 _ _ _ eq_refl)).
Defined.

(** C10 as stated fails on its last part where the remote cannot be
    reached: the check that follows an unparseable file writes the
    defaults, so that the commit is "unknown", and reports
    [hasUpdate = false] with the error of the fetch. *)
Lemma get_local_version_unparseable_offline_counterexample :
  exists info s1,
    get_update_info offline_env garbled_state = (Ret info, s1) /\
    version_file s1 = Stored default_version /\
    installedCommit offline_env s1 = Ret (JStr "unknown") /\
    hasUpdate info = false /\
    error info = Some "<urlopen error [Errno -3] Temporary failure in name resolution>".
Proof. eexists _, _. vm_compute. repeat split. Qed.

(* ===================================================================== *)
(** * What each part of the installer leaves alone *)

Lemma same_procs_refl s : same_procs s s.
Proof. repeat split. Qed.

Lemma same_procs_trans s1 s2 s3 : same_procs s1 s2 -> same_procs s2 s3 -> same_procs s1 s3.
Proof. unfold same_procs. intros (?&?&?) (?&?&?). repeat split; congruence. Qed.

Lemma same_dirs_refl s : same_dirs s s.
Proof. repeat split. Qed.

Lemma same_dirs_trans s1 s2 s3 : same_dirs s1 s2 -> same_dirs s2 s3 -> same_dirs s1 s3.
Proof. unfold same_dirs. intros (?&?) (?&?). split; congruence. Qed.

Ltac stable_procs :=
  repeat (stable_step same_procs_refl same_procs_trans);
  try (apply stable_modify; intros ?; repeat split; reflexivity).

Ltac stable_dirs :=
  repeat (stable_step same_dirs_refl same_dirs_trans);
  try (apply stable_modify; intros ?; repeat split; reflexivity).

Ltac stable_version :=
  repeat (stable_step (keeps_refl version_file) (keeps_trans version_file));
  try (apply stable_modify; intros ?; reflexivity).

(** The version store and the check. *)

Lemma get_local_version_procs : stable same_procs get_local_version.
Proof. unfold get_local_version, write_version, tell. stable_procs. Qed.
#[local] Hint Resolve get_local_version_procs : frames.

Lemma get_local_version_dirs : stable same_dirs get_local_version.
Proof. unfold get_local_version, write_version, tell. stable_dirs. Qed.
#[local] Hint Resolve get_local_version_dirs : frames.

Lemma get_local_version_trace : stable (extends is_version_write) get_local_version.
Proof. unfold get_local_version, write_version, tell. stable_trace is_version_write. Qed.
#[local] Hint Resolve get_local_version_trace : frames.

Lemma get_update_info_procs : stable same_procs get_update_info.
Proof.
  unfold get_update_info, write_version, tell. stable_procs.
Qed.
#[local] Hint Resolve get_update_info_procs : frames.

Lemma get_update_info_dirs : stable same_dirs get_update_info.
Proof.
  unfold get_update_info, write_version, tell. stable_dirs.
Qed.
#[local] Hint Resolve get_update_info_dirs : frames.

Lemma get_update_info_trace : stable (extends is_version_write) get_update_info.
Proof.
  unfold get_update_info, write_version, tell. stable_trace is_version_write.
Qed.
#[local] Hint Resolve get_update_info_trace : frames.

Lemma update_version_file_procs info : stable same_procs (update_version_file info).
Proof.
  unfold update_version_file, write_version, tell. stable_procs.
Qed.
#[local] Hint Resolve update_version_file_procs : frames.

Lemma update_version_file_dirs info : stable same_dirs (update_version_file info).
Proof.
  unfold update_version_file, write_version, tell. stable_dirs.
Qed.
#[local] Hint Resolve update_version_file_dirs : frames.

(** The supervisor. *)

Lemma time_sleep_trace ms : stable (extends is_stop_event) (time_sleep ms).
Proof. unfold time_sleep, tell. stable_trace is_stop_event. Qed.
#[local] Hint Resolve time_sleep_trace : frames.

Lemma stop_api_server_trace : stable (extends is_stop_event) stop_api_server.
Proof.
  unfold stop_api_server, os_kill, get_server_process, tell.
  stable_trace is_stop_event.
Qed.
#[local] Hint Resolve stop_api_server_trace : frames.

Lemma start_api_server_trace : stable (extends is_supervisor_event) start_api_server.
Proof.
  unfold start_api_server, get_server_process, time_sleep, tell.
  stable_trace is_supervisor_event.
Qed.
#[local] Hint Resolve start_api_server_trace : frames.

Lemma stop_if_running_files b : stable same_files (stop_if_running b).
Proof.
  unfold stop_if_running. stable_files.
Qed.
#[local] Hint Resolve stop_if_running_files : frames.

Lemma stop_if_running_trace b : stable (extends is_stop_event) (stop_if_running b).
Proof.
  unfold stop_if_running. stable_trace is_stop_event.
Qed.
#[local] Hint Resolve stop_if_running_trace : frames.

Lemma start_if_was_running_files b : stable same_files (start_if_was_running b).
Proof. unfold start_if_was_running. stable_files. Qed.
#[local] Hint Resolve start_if_was_running_files : frames.

Lemma start_if_was_running_trace b :
  stable (extends is_supervisor_event) (start_if_was_running b).
Proof.
  unfold start_if_was_running. stable_trace is_supervisor_event.
Qed.
#[local] Hint Resolve start_if_was_running_trace : frames.

(** The copy step. *)

Lemma guarded_procs op e effect :
  (forall s, same_procs s (effect s)) -> stable same_procs (guarded op e effect).
Proof.
  intros H. unfold guarded, tell. stable_procs.
  apply stable_modify. exact H.
Qed.

Lemma guarded_version op e effect :
  (forall s, version_file (effect s) = version_file s) ->
  stable (keeps version_file) (guarded op e effect).
Proof.
  intros H. unfold guarded, tell. stable_version.
  apply stable_modify. exact H.
Qed.

Lemma guarded_trace P op e effect :
  P e = true -> (forall s, trace (effect s) = trace s) ->
  stable (extends P) (guarded op e effect).
Proof.
  intros HP H. unfold guarded, tell. stable_trace P.
  - apply stable_modify. intros s. apply extends_emit, HP.
  - apply stable_modify. intros s. apply extends_same, H.
Qed.

Lemma copy2_procs t name c m : stable same_procs (copy2 t name c m).
Proof. apply guarded_procs. intros s. destruct t; repeat split. Qed.
#[local] Hint Resolve copy2_procs : frames.

Lemma copy2_version t name c m : stable (keeps version_file) (copy2 t name c m).
Proof. apply guarded_version. intros s. destruct t; reflexivity. Qed.
#[local] Hint Resolve copy2_version : frames.

Lemma copy2_trace t name c m : stable (extends is_copy_event) (copy2 t name c m).
Proof. apply guarded_trace; [reflexivity|]. intros s. destruct t; reflexivity. Qed.
#[local] Hint Resolve copy2_trace : frames.

Lemma chmod_755_procs name : stable same_procs (chmod_755 name).
Proof. apply guarded_procs. intros s. repeat split. Qed.
#[local] Hint Resolve chmod_755_procs : frames.

Lemma chmod_755_version name : stable (keeps version_file) (chmod_755 name).
Proof. apply guarded_version. reflexivity. Qed.
#[local] Hint Resolve chmod_755_version : frames.

Lemma chmod_755_trace name : stable (extends is_copy_event) (chmod_755 name).
Proof. apply guarded_trace; reflexivity. Qed.
#[local] Hint Resolve chmod_755_trace : frames.

Lemma mkdir_gui_procs : stable same_procs mkdir_gui.
Proof. apply guarded_procs. intros s. destruct (gui_dir s); repeat split. Qed.
#[local] Hint Resolve mkdir_gui_procs : frames.

Lemma mkdir_gui_version : stable (keeps version_file) mkdir_gui.
Proof. apply guarded_version. intros s. destruct (gui_dir s); reflexivity. Qed.
#[local] Hint Resolve mkdir_gui_version : frames.

Lemma mkdir_gui_trace : stable (extends is_copy_event) mkdir_gui.
Proof. apply guarded_trace; [reflexivity|]. intros s. destruct (gui_dir s); reflexivity. Qed.
#[local] Hint Resolve mkdir_gui_trace : frames.

Lemma copy_scripts_procs path folder : stable same_procs (copy_scripts path folder).
Proof.
  unfold copy_scripts. stable_procs.
Qed.
#[local] Hint Resolve copy_scripts_procs : frames.

Lemma copy_scripts_version path folder : stable (keeps version_file) (copy_scripts path folder).
Proof.
  unfold copy_scripts. stable_version.
Qed.
#[local] Hint Resolve copy_scripts_version : frames.

Lemma copy_scripts_trace path folder : stable (extends is_copy_event) (copy_scripts path folder).
Proof.
  unfold copy_scripts. stable_trace is_copy_event.
Qed.
#[local] Hint Resolve copy_scripts_trace : frames.

Lemma copy_gui_procs path folder : stable same_procs (copy_gui path folder).
Proof.
  unfold copy_gui. stable_procs.
Qed.
#[local] Hint Resolve copy_gui_procs : frames.

Lemma copy_gui_version path folder : stable (keeps version_file) (copy_gui path folder).
Proof.
  unfold copy_gui. stable_version.
Qed.
#[local] Hint Resolve copy_gui_version : frames.

Lemma copy_gui_trace path folder : stable (extends is_copy_event) (copy_gui path folder).
Proof.
  unfold copy_gui. stable_trace is_copy_event.
Qed.
#[local] Hint Resolve copy_gui_trace : frames.

Lemma install_in_tempdir_procs info : stable same_procs (install_in_tempdir info).
Proof.
  unfold install_in_tempdir, tell. stable_procs.
Qed.
#[local] Hint Resolve install_in_tempdir_procs : frames.

(* ===================================================================== *)
(** * The install, step by step *)

Lemma py_getitem_dict d k m : py_getitem (JDict d) k <> Raise (TypeError m).
Proof. simpl. destruct (dict_get k d); discriminate. Qed.

(** A read depends on the version file alone. *)
Lemma read_field_eq env s k :
  read_field env s k =
  match version_file s with
  | Stored data =>
      match migrate data with
      | Some data' => py_getitem data' k
      | None => py_getitem default_version k
      end
  | _ => py_getitem default_version k
  end.
Proof.
  unfold read_field, get_local_version, bind, get. simpl.
  destruct (version_file s) as [| |data]; try reflexivity.
  destruct (migrate data); reflexivity.
Qed.

Lemma read_field_same env s s' k :
  version_file s' = version_file s -> read_field env s' k = read_field env s k.
Proof. intros H. rewrite !read_field_eq, H. reflexivity. Qed.

Lemma read_field_written env s d k :
  dict_has "commitSha" d = true ->
  read_field env (written (JDict d) s) k = py_getitem (JDict d) k.
Proof. intros H. rewrite read_field_eq. simpl. rewrite H. reflexivity. Qed.

Lemma read_field_local env s d s0 k :
  get_local_version env s = (Ret (JDict d), s0) ->
  read_field env s k = py_getitem (JDict d) k /\ read_field env s0 k = py_getitem (JDict d) k.
Proof.
  intros Hl.
  destruct (get_local_version_cases env s) as [(d' & H & Hh & _)|[(j & H & _ & Hj & _)|H]];
    rewrite H in Hl.
  - injection Hl as <- <-. unfold read_field. rewrite H. split; reflexivity.
  - injection Hl as -> <-. destruct (Hj "scripts") as [m Hm].
    exfalso. exact (py_getitem_dict _ _ _ Hm).
  - injection Hl as <- <-. unfold read_field at 1. rewrite H. split; [reflexivity|].
    apply (read_field_written env s _ k). reflexivity.
Qed.

(** The check changes no stored field but [lastCheck]. *)
Lemma get_update_info_fields env s info s1 k :
  get_update_info env s = (Ret info, s1) -> k <> "lastCheck" ->
  read_field env s1 k = read_field env s k.
Proof.
  intros H Hk.
  destruct (get_update_info_inv _ _ _ _ H) as (d & s0 & scripts & commit & Hl & _ & Hc & Hcase).
  destruct (read_field_local env s d s0 k Hl) as [-> H0].
  destruct Hcase as [(sha & date & message & _ & _ & ->)|(sha & date & msg & _ & _ & ->)].
  - unfold checked. rewrite read_field_written.
    + simpl. rewrite dict_get_set_ne by exact Hk. reflexivity.
    + apply dict_has_set_other. unfold dict_has. rewrite Hc. reflexivity.
  - exact H0.
Qed.

(** After a check that returned, the version file holds a dictionary. *)
Lemma get_update_info_stored env s info s1 :
  get_update_info env s = (Ret info, s1) ->
  exists d, version_file s1 = Stored (JDict d).
Proof.
  intros H.
  destruct (get_update_info_inv _ _ _ _ H) as (d & s0 & scripts & commit & Hl & _ & Hc & Hcase).
  destruct Hcase as [(sha & date & message & _ & _ & ->)|(sha & date & msg & _ & _ & ->)].
  - eexists. reflexivity.
  - destruct (get_local_version_cases env s) as [(d' & H' & Hh & d0 & Hv)|[(j & H' & _ & Hj & _)|H']];
      rewrite H' in Hl.
    + injection Hl as <- <-. exists d0. exact Hv.
    + injection Hl as -> <-. destruct (Hj "scripts") as [m Hm].
      exfalso. exact (py_getitem_dict _ _ _ Hm).
    + injection Hl as <- <-. eexists. reflexivity.
Qed.

(** The lines that advance the version record either write it, and then
    the commit read back is the one given, or raise before any write. *)
Lemma update_version_file_run info env s o s' :
  update_version_file info env s = (o, s') ->
  (o = Ret tt /\
   exists d s0,
     get_local_version env s = (Ret (JDict d), s0) /\
     s' = written (JDict (dict_set "commitDate" (json_of_option (latestCommitDate info))
                            (dict_set "commitSha" (json_of_option (latestCommit info)) d))) s0) \/
  ((exists e, o = Raise e) /\ s' = s).
Proof.
  unfold update_version_file, bind.
  destruct (get_local_version_cases env s) as [(d & H & _)|[(j & H & _ & _ & Hj)|H]];
    rewrite H.
  - unfold lift, write_version, tell, modify, bind. simpl.
    intros [= <- <-]. left. split; [reflexivity|]. exists d, s. split; reflexivity.
  - unfold lift. destruct (Hj "commitSha" (json_of_option (latestCommit info))) as [m Hm].
    rewrite Hm. intros [= <- <-]. right. split; [eexists; reflexivity | reflexivity].
  - unfold lift, write_version, tell, modify, bind. simpl.
    intros [= <- <-]. left. split; [reflexivity|]. eexists _, _. split; reflexivity.
Qed.

(** On a stored dictionary they write once, a record whose commit reads
    back as the one given. *)
Lemma update_version_file_stored info env s s' d :
  version_file s = Stored (JDict d) ->
  update_version_file info env s = (Ret tt, s') ->
  exists doc,
    trace s' = trace s ++ [EvWriteVersion doc] /\ version_file s' = Stored doc /\
    read_field env s' "commitSha" = Ret (json_of_option (latestCommit info)).
Proof.
  intros Hv H.
  destruct (update_version_file_run _ _ _ _ _ H) as [(_ & d1 & s0 & Hl & ->)|[[e He] _]];
    [|discriminate].
  rewrite (get_local_version_dict env s _ Hv) in Hl. injection Hl as <- <-.
  eexists. split; [reflexivity|]. split; [reflexivity|].
  rewrite read_field_written.
  - simpl. rewrite dict_get_set_ne by discriminate. rewrite dict_get_set_eq. reflexivity.
  - apply dict_has_set_other, dict_has_set.
Qed.

(** What the block under the temporary directory can do. *)
Lemma install_in_tempdir_run info env s o s' :
  install_in_tempdir info env s = (o, s') ->
  match download env with
  | DownloadRaises msg =>
      o = Raise (OSError msg) /\
      s' = emit (EvDownload (downloadUrl info))
             (emit (EvLog ("Downloading update from " +:+ downloadUrl info)) s)
  | ExtractRaises msg => o = Raise (OSError msg) /\ s' = unpacked info s
  | Extracted entries =>
      match extracted_folders entries with
      | [] => o = Ret (Some (failure "No folder found in archive")) /\ s' = unpacked info s
      | (name, folder) :: _ =>
          let path := temp_dir env +:+ "/" +:+ name in
          exists o1 s1, copy_scripts path folder env (unpacked info s) = (o1, s1) /\
            match o1 with
            | Raise e => o = Raise e /\ s' = s1
            | Ret _ =>
                exists o2 s2, copy_gui path folder env s1 = (o2, s2) /\
                  match o2 with
                  | Raise e => o = Raise e /\ s' = s2
                  | Ret _ =>
                      exists o3, update_version_file info env s2 = (o3, s') /\
                        match o3 with
                        | Raise e => o = Raise e
                        | Ret _ => o = Ret None
                        end
                  end
            end
      end
  end.
Proof.
  unfold install_in_tempdir, bind, ask, tell, modify. simpl.
  destruct (download env) as [msg|msg|entries]; simpl.
  - intros [= <- <-]. split; reflexivity.
  - intros [= <- <-]. split; reflexivity.
  - destruct (extracted_folders entries) as [|[name folder] rest]; simpl.
    + intros [= <- <-]. split; reflexivity.
    + fold (unpacked info s).
      destruct (copy_scripts _ folder env (unpacked info s)) as [[[]|e1] s1] eqn:H1.
      * intros H. eexists _, _. split; [reflexivity|]. simpl.
        destruct (copy_gui _ folder env s1) as [[[]|e2] s2] eqn:H2.
        -- eexists _, _. split; [reflexivity|]. simpl.
           destruct (update_version_file info env s2) as [[[]|e3] s3] eqn:H3;
             injection H as <- <-; eexists; split; reflexivity.
        -- injection H as <- <-. eexists _, _. split; [reflexivity|]. split; reflexivity.
      * intros [= <- <-]. eexists _, _. split; [reflexivity|]. split; reflexivity.
Qed.

(** The block leaves the version file alone unless it completes. *)
Lemma install_in_tempdir_keeps_version info env s o s' :
  install_in_tempdir info env s = (o, s') -> o <> Ret None ->
  version_file s' = version_file s.
Proof.
  intros H Ho. apply install_in_tempdir_run in H.
  destruct (download env) as [msg|msg|entries].
  - destruct H as [_ ->]. reflexivity.
  - destruct H as [_ ->]. reflexivity.
  - destruct (extracted_folders entries) as [|[name folder] rest].
    + destruct H as [_ ->]. reflexivity.
    + destruct H as (o1 & s1 & H1 & H).
      pose proof (copy_scripts_version (temp_dir env +:+ "/" +:+ name) folder env
                    (unpacked info s)) as K1.
      rewrite H1 in K1. unfold keeps in K1. simpl in K1.
      destruct o1 as [[]|e1]; [|destruct H as [_ ->]; exact K1].
      destruct H as (o2 & s2 & H2 & H).
      pose proof (copy_gui_version (temp_dir env +:+ "/" +:+ name) folder env s1) as K2.
      rewrite H2 in K2. unfold keeps in K2. simpl in K2.
      destruct o2 as [[]|e2]; [|destruct H as [_ ->]; congruence].
      destruct H as (o3 & H3 & H).
      destruct (update_version_file_run _ _ _ _ _ H3) as [(-> & _)|[_ ->]].
      * contradiction.
      * congruence.
Qed.

Lemma install_in_tempdir_trace info :
  stable (extends (fun e => is_install_step e || is_version_write e)) (install_in_tempdir info).
Proof.
  unfold install_in_tempdir, tell.
  repeat (stable_step (extends_refl (fun e => is_install_step e || is_version_write e))
                      (extends_trans (fun e => is_install_step e || is_version_write e)));
    try (apply stable_modify; intros ?; apply extends_emit; reflexivity).
  - intros env0 s0. eapply extends_weaken; [|apply copy_scripts_trace].
    intros [] H; try discriminate; reflexivity.
  - intros env0 s0. eapply extends_weaken; [|apply copy_gui_trace].
    intros [] H; try discriminate; reflexivity.
  - cbv zeta. unfold write_version, tell.
    repeat (stable_step (extends_refl (fun e => is_install_step e || is_version_write e))
                        (extends_trans (fun e => is_install_step e || is_version_write e)));
      apply stable_modify; intros ?;
      first [apply extends_emit; reflexivity | apply extends_same; reflexivity].
Qed.

Lemma stop_if_running_returns b env s : fst (stop_if_running b env s) = Ret tt.
Proof.
  destruct b; [|reflexivity]. unfold stop_if_running, bind.
  destruct (stop_api_server_returns env s) as [r H].
  destruct (stop_api_server env s) as [o s1]. simpl in H. subst o. reflexivity.
Qed.

Lemma start_if_was_running_returns b env s : fst (start_if_was_running b env s) = Ret tt.
Proof.
  destruct b; [|reflexivity]. unfold start_if_was_running, bind.
  destruct (start_api_server_returns env s) as [r H].
  destruct (start_api_server env s) as [o s1]. simpl in H. subst o. reflexivity.
Qed.

Lemma is_running_decide env s :
  bool_decide (is_Some (locate env (procs s))) = is_running env s.
Proof.
  unfold is_running. destruct (locate env (procs s)).
  - apply bool_decide_eq_true. eauto.
  - apply bool_decide_eq_false. intros [x Hx]. discriminate.
Qed.

(** The whole of [install_update], one case per way it can end. *)
Lemma install_update_run env s :
  match get_update_info env s with
  | (Raise e, s1) => install_update env s = (Ret (failure (str_exn e)), s1)
  | (Ret info, s1) =>
      if Py.truthy (default "" (error info)) then
        install_update env s =
        (Ret (failure ("Failed to get update info: " +:+ default "" (error info))), s1)
      else
        let was := is_running env s1 in
        let s2 := snd (stop_if_running was env s1) in
        match install_in_tempdir info env (emit EvMkdtemp s2) with
        | (Raise e, s3) =>
            install_update env s = (Ret (failure (str_exn e)), emit EvRmtemp s3)
        | (Ret (Some r), s3) => install_update env s = (Ret r, emit EvRmtemp s3)
        | (Ret None, s3) =>
            install_update env s =
            (Ret (install_success info),
             snd (start_if_was_running was env (emit EvRmtemp s3)))
        end
  end.
Proof.
  unfold install_update, try_except, bind.
  destruct (get_update_info env s) as [[info|e] s1]; [|reflexivity].
  destruct (Py.truthy (default "" (error info))); [reflexivity|].
  rewrite get_server_process_run, is_running_decide. cbv zeta.
  pose proof (stop_if_running_returns (is_running env s1) env s1) as Hstop.
  destruct (stop_if_running (is_running env s1) env s1) as [o2 s2]. simpl in Hstop. subst o2.
  unfold tell, modify, finally. simpl.
  destruct (install_in_tempdir info env (emit EvMkdtemp s2)) as [[[r|]|e] s3]; try reflexivity.
  pose proof (start_if_was_running_returns (is_running env s1) env (emit EvRmtemp s3)) as Hstart.
  destruct (start_if_was_running (is_running env s1) env (emit EvRmtemp s3)) as [o4 s4].
  simpl in Hstart. subst o4. reflexivity.
Qed.

Lemma install_update_returns env s : exists r, fst (install_update env s) = Ret r.
Proof.
  pose proof (install_update_run env s) as H.
  destruct (get_update_info env s) as [[info|e] s1]; [|rewrite H; eauto].
  destruct (Py.truthy _); [rewrite H; eauto|]. cbv zeta in H.
  destruct (install_in_tempdir _ _ _) as [[[r|]|e] s3]; rewrite H; eauto.
Qed.

(** An install that is past the check and answers a failure has stopped
    the server if it ran, has not completed the block under the temporary
    directory, and has done nothing after it. *)
Lemma install_failure_inv env s info s1 r s' :
  get_update_info env s = (Ret info, s1) ->
  Py.truthy (default "" (error info)) = false ->
  install_update env s = (Ret r, s') -> succeeded r = false ->
  exists o s3,
    install_in_tempdir info env
      (emit EvMkdtemp (snd (stop_if_running (is_running env s1) env s1))) = (o, s3) /\
    o <> Ret None /\ s' = emit EvRmtemp s3 /\ r = failure_of o.
Proof.
  intros Hc Ht Hrun Hfail. pose proof (install_update_run env s) as H.
  rewrite Hc, Ht in H. cbv zeta in H.
  destruct (install_in_tempdir _ _ _) as [[[r0|]|e] s3] eqn:Hb;
    rewrite H in Hrun; injection Hrun as <- <-.
  - eexists _, _. split; [reflexivity|]. repeat split. discriminate.
  - discriminate.
  - eexists _, _. split; [reflexivity|]. repeat split. discriminate.
Qed.

(** The answer of a block that did not complete is a bare failure, whose
    message is the one of the step that raised. *)
Lemma install_in_tempdir_failure info env s o s' :
  install_in_tempdir info env s = (o, s') -> o <> Ret None ->
  exists msg,
    failure_of o = failure msg /\
    (forall m, download env = DownloadRaises m -> msg = m) /\
    (forall m, download env = ExtractRaises m -> msg = m) /\
    (forall entries, download env = Extracted entries ->
       extracted_folders entries = [] -> msg = "No folder found in archive").
Proof.
  intros H Ho. apply install_in_tempdir_run in H.
  destruct (download env) as [msg|msg|entries].
  - destruct H as [-> _]. exists msg. repeat split; congruence.
  - destruct H as [-> _]. exists msg. repeat split; congruence.
  - destruct (extracted_folders entries) as [|[name folder] rest] eqn:Hf.
    + destruct H as [-> _]. eexists. split; [reflexivity|].
      repeat split; discriminate || reflexivity.
    + assert (Hraise : exists e, o = Raise e).
      { destruct H as (o1 & s1 & _ & H). destruct o1 as [[]|e1]; [|destruct H; eauto].
        destruct H as (o2 & s2 & _ & H). destruct o2 as [[]|e2]; [|destruct H; eauto].
        destruct H as (o3 & _ & H). destruct o3 as [[]|e3]; [contradiction | eauto]. }
      destruct Hraise as [e ->]. exists (str_exn e). split; [reflexivity|].
      repeat split; try discriminate. intros entries' [= <-] Hnil. congruence.
Qed.

(* ===================================================================== *)
(** * Failed installs *)

(** C1, as the code has it.  Take an install that is past its check and
    then answers a failure, which it does exactly when the download, the
    extraction or a copy raises, or the archive has no folder.  The
    version file is then what the check step left: the steps of the
    install proper have not written it.  Every stored field but
    [lastCheck], which the check advances, reads as it did before the
    call; in particular [commitSha] does.  The answer is
    [{success: false, error: msg}] with [msg] the text of the exception
    as it is (or "No folder found in archive"), with no mention of the
    stage. *)
Theorem install_failure_keeps_commit env s info s1 r s' :
  get_update_info env s = (Ret info, s1) ->
  Py.truthy (default "" (error info)) = false ->
  install_update env s = (Ret r, s') -> succeeded r = false ->
  version_file s' = version_file s1 /\
  (forall k, k <> "lastCheck" -> read_field env s' k = read_field env s k) /\
  installedCommit env s' = installedCommit env s /\
  exists msg,
    r = failure msg /\
    (forall m, download env = DownloadRaises m -> msg = m) /\
    (forall m, download env = ExtractRaises m -> msg = m) /\
    (forall entries, download env = Extracted entries ->
       extracted_folders entries = [] -> msg = "No folder found in archive").
Proof.
  intros Hc Ht Hrun Hfail.
  destruct (install_failure_inv _ _ _ _ _ _ Hc Ht Hrun Hfail) as (o & s3 & Hb & Ho & -> & ->).
  assert (Hv : version_file (emit EvRmtemp s3) = version_file s1).
  { simpl. rewrite (install_in_tempdir_keeps_version _ _ _ _ _ Hb Ho). simpl.
    apply (stop_if_running_files (is_running env s1) env s1). }
  split; [exact Hv|].
  assert (Hf : forall k, k <> "lastCheck" ->
                 read_field env (emit EvRmtemp s3) k = read_field env s k).
  { intros k Hk. rewrite (read_field_same env s1 _ k Hv).
    apply (get_update_info_fields _ _ _ _ _ Hc Hk). }
  split; [exact Hf|]. split; [apply Hf; discriminate|].
  apply (install_in_tempdir_failure _ _ _ _ _ Hb Ho).
Qed.

Lemma install_failure_keeps_commit_witness :
  let s' := snd (install_update copy_fails_env serving_state) in
  installedCommit copy_fails_env s' = installedCommit copy_fails_env serving_state /\
  installedCommit copy_fails_env s' = Ret (JStr "aaaaaaa").
Proof.
  intros s'. split; [|reflexivity].
  refine (proj1 (proj2 (proj2
    (install_failure_keeps_commit copy_fails_env serving_state
       (check_result (JStr "1.1.0") (JStr "aaaaaaa")
          "0123456789abcdef0123456789abcdef01234567" "2024-05-01T10:00:00Z"
          ("fix: installer" +:+ String "010" "details"))
       (snd (get_update_info copy_fails_env serving_state))
       (failure no_space) s' _ _ _ _)))).
  - vm_compute. reflexivity.
  - reflexivity.
  - vm_compute. reflexivity.
  - reflexivity.
Defined.

(** C1 as stated fails twice.  The version file is not left untouched by
    the call: the check that [install_update] starts with has advanced
    [lastCheck] before the download fails.  And the failure does not tell
    the stage: a download, an extraction and a copy that fail for lack of
    space give the very same answer. *)
Lemma install_failure_counterexample :
  let run := install_update download_fails_env serving_state in
  fst run = Ret (failure no_space) /\
  version_file (snd run) <> version_file serving_state /\
  read_field download_fails_env serving_state "lastCheck" = Ret JNull /\
  read_field download_fails_env (snd run) "lastCheck" = Ret (JStr (sample_iso 60000)) /\
  fst (install_update extract_fails_env serving_state) = fst run /\
  fst (install_update copy_fails_env serving_state) = fst run.
Proof.
  vm_compute. repeat split. discriminate.
Qed.

Lemma no_new_process_refl s : no_new_process s s.
Proof. split; [reflexivity|]. intros p Hp. exists p. split; [exact Hp | reflexivity]. Qed.

Lemma no_new_process_trans s1 s2 s3 :
  no_new_process s1 s2 -> no_new_process s2 s3 -> no_new_process s1 s3.
Proof.
  intros [H1 K1] [H2 K2]. split; [congruence|]. intros p Hp.
  destruct (K2 p Hp) as (q & Hq & Hpq). destruct (K1 q Hq) as (q' & Hq' & Hqq').
  exists q'. split; [exact Hq' | congruence].
Qed.

Lemma same_procs_no_new s s' : same_procs s s' -> no_new_process s s'.
Proof.
  intros (Hp & _ & Hn). split; [exact Hn|]. intros p H. rewrite Hp in H.
  exists p. split; [exact H | reflexivity].
Qed.

Lemma signalled_pid now target p : pid (signalled now target p) = pid p.
Proof.
  unfold signalled. destruct (on_term p); try reflexivity.
  destruct (term_at p); try reflexivity. destruct (pid p =? target); reflexivity.
Qed.

Lemma time_sleep_no_new ms : stable no_new_process (time_sleep ms).
Proof.
  intros env s. rewrite time_sleep_run. split; [reflexivity|]. simpl.
  intros p Hp. apply filter_In in Hp. exists p. split; [apply Hp | reflexivity].
Qed.
#[local] Hint Resolve time_sleep_no_new : frames.

Lemma os_kill_no_new target : stable no_new_process (os_kill target).
Proof.
  unfold os_kill, tell.
  repeat (stable_step no_new_process_refl no_new_process_trans);
    apply stable_modify; intros s0; (split; [reflexivity|]); simpl;
    intros x Hx;
    first [ exists x; split; [exact Hx | reflexivity]
          | apply in_map_iff in Hx; destruct Hx as (q & <- & Hq);
            exists q; split; [exact Hq | symmetry; apply signalled_pid] ].
Qed.
#[local] Hint Resolve os_kill_no_new : frames.

Lemma stop_if_running_no_new b : stable no_new_process (stop_if_running b).
Proof.
  unfold stop_if_running, stop_api_server, get_server_process.
  repeat (stable_step no_new_process_refl no_new_process_trans).
Qed.

(** Stopping a server that exits on SIGTERM within the two waits leaves
    no process with its pid. *)
Lemma stop_if_running_kills env s ref :
  locate env (procs s) = Some ref ->
  (forall q, In q (procs s) -> pid q = ref_pid ref ->
     exists d, on_term q = TermExits d /\ d <= 1300 /\ term_at q = None) ->
  forall p, In p (procs (snd (stop_if_running true env s))) -> pid p <> ref_pid ref.
Proof.
  intros Hloc Hexit.
  destruct (locate_in_table _ _ _ Hloc) as (q0 & Hq0 & Hpid0).
  unfold stop_if_running, stop_api_server, bind.
  rewrite get_server_process_run, Hloc.
  unfold try_except, os_kill, bind, get, tell, modify. simpl.
  destruct (List.find (fun q => pid q =? ref_pid ref) (procs s)) as [q1|] eqn:Hfind.
  2:{ exfalso. apply (find_none _ _ Hfind) in Hq0. rewrite Hpid0, N.eqb_refl in Hq0.
      discriminate. }
  apply find_some in Hfind. destruct Hfind as [Hq1 Heq1]. apply N.eqb_eq in Heq1.
  destruct (Hexit q1 Hq1 Heq1) as (d1 & Hterm1 & _). rewrite Hterm1. simpl.
  intros p Hp Habs.
  apply filter_In in Hp. destruct Hp as [Hp Halive2].
  apply filter_In in Hp. destruct Hp as [Hp _].
  apply in_map_iff in Hp. destruct Hp as (q & <- & Hq).
  rewrite signalled_pid in Habs.
  destruct (Hexit q Hq Habs) as (d & Hterm & Hd & Hnone).
  unfold signalled in Halive2. rewrite Hterm, Hnone, Habs, N.eqb_refl in Halive2.
  simpl in Halive2. apply negb_true_iff, N.leb_gt in Halive2. lia.
Qed.

Lemma extends_not_launch_version s s' : extends is_version_write s s' -> extends not_launch s s'.
Proof. apply extends_weaken. intros [] H; try discriminate; reflexivity. Qed.

Lemma extends_not_launch_stop s s' : extends is_stop_event s s' -> extends not_launch s s'.
Proof. apply extends_weaken. intros [] H; try discriminate; reflexivity. Qed.

Lemma extends_not_launch_install s s' :
  extends (fun e => is_install_step e || is_version_write e) s s' -> extends not_launch s s'.
Proof. apply extends_weaken. intros [] H; try discriminate; reflexivity. Qed.

(** C7, as the code has it.  Take an install that is past its check and
    then answers a failure (the download, the extraction or a copy has
    raised, or the archive has no folder).  Nothing is launched: the
    events of the call contain no [Popen] and no process is created.  If
    the locator had found a server and every process with its pid exits on
    SIGTERM within the 1.3 seconds the installer waits, no process with
    that pid is left.  The answer is the bare
    [{success: false, error: msg}]; it carries nothing about the server. *)
Theorem install_failure_leaves_stopped env s info s1 r s' :
  get_update_info env s = (Ret info, s1) ->
  Py.truthy (default "" (error info)) = false ->
  install_update env s = (Ret r, s') -> succeeded r = false ->
  extends not_launch s s' /\
  no_new_process s s' /\
  (forall ref, locate env (procs s) = Some ref ->
     (forall q, In q (procs s) -> pid q = ref_pid ref ->
        exists d, on_term q = TermExits d /\ d <= 1300 /\ term_at q = None) ->
     forall p, In p (procs s') -> pid p <> ref_pid ref) /\
  exists msg, r = failure msg.
Proof.
  intros Hc Ht Hrun Hfail.
  destruct (install_failure_inv _ _ _ _ _ _ Hc Ht Hrun Hfail) as (o & s3 & Hb & Ho & -> & ->).
  pose proof (get_update_info_procs env s) as Hp1. rewrite Hc in Hp1. simpl in Hp1.
  pose proof (install_in_tempdir_procs info env
                (emit EvMkdtemp (snd (stop_if_running (is_running env s1) env s1)))) as Hp3.
  rewrite Hb in Hp3. simpl in Hp3.
  split; [|split; [|split]].
  - pose proof (get_update_info_trace env s) as T1. rewrite Hc in T1. simpl in T1.
    pose proof (stop_if_running_trace (is_running env s1) env s1) as T2.
    pose proof (install_in_tempdir_trace info env
                  (emit EvMkdtemp (snd (stop_if_running (is_running env s1) env s1)))) as T3.
    rewrite Hb in T3. simpl in T3.
    eapply extends_trans; [apply extends_not_launch_version, T1|].
    eapply extends_trans; [apply extends_not_launch_stop, T2|].
    eapply extends_trans; [apply (extends_emit not_launch EvMkdtemp); reflexivity|].
    eapply extends_trans; [apply extends_not_launch_install, T3|].
    apply extends_emit. reflexivity.
  - eapply no_new_process_trans; [apply same_procs_no_new, Hp1|].
    eapply no_new_process_trans; [apply (stop_if_running_no_new (is_running env s1) env s1)|].
    apply same_procs_no_new. destruct Hp3 as (A & B & C). repeat split; assumption.
  - intros ref Hloc Hexit p Hp.
    destruct Hp1 as (Hprocs1 & _). destruct Hp3 as (Hprocs3 & _).
    simpl in Hp, Hprocs3. rewrite Hprocs3 in Hp.
    assert (Hrun1 : is_running env s1 = true).
    { unfold is_running. rewrite Hprocs1, Hloc. reflexivity. }
    rewrite Hrun1 in Hp.
    apply (stop_if_running_kills env s1 ref); [rewrite Hprocs1; exact Hloc | | exact Hp].
    rewrite Hprocs1. exact Hexit.
  - destruct (install_in_tempdir_failure _ _ _ _ _ Hb Ho) as (msg & Hm & _). eauto.
Qed.

Lemma install_failure_leaves_stopped_witness :
  let s' := snd (install_update download_fails_env serving_state) in
  extends not_launch serving_state s' /\ no_new_process serving_state s' /\
  forall p, In p (procs s') -> pid p <> 4242.
Proof.
  intros s'.
  destruct (install_failure_leaves_stopped download_fails_env serving_state
       (check_result (JStr "1.1.0") (JStr "aaaaaaa")
          "0123456789abcdef0123456789abcdef01234567" "2024-05-01T10:00:00Z"
          ("fix: installer" +:+ String "010" "details"))
       (snd (get_update_info download_fails_env serving_state))
       (failure no_space) s') as (H1 & H2 & H3 & _).
  - vm_compute. reflexivity.
  - reflexivity.
  - vm_compute. reflexivity.
  - reflexivity.
  - split; [exact H1|]. split; [exact H2|].
    apply (H3 (PsutilProc sample_server) eq_refl).
    intros q [<-|[]] _. exists 200. repeat split. vm_compute. discriminate.
Defined.

(** C7 as stated fails on its last part: the failure the installer
    answers after it has stopped a running server is the very answer it
    gives when no server was running, so it does not say that the server
    was left stopped. *)
Lemma install_failure_silent_counterexample :
  let stopped := install_update download_fails_env serving_state in
  let idle := install_update download_fails_env idle_state in
  is_running download_fails_env serving_state = true /\
  is_running download_fails_env (snd stopped) = false /\
  fst stopped = Ret (failure no_space) /\
  fst idle = fst stopped.
Proof. vm_compute. repeat split. Qed.

(* ===================================================================== *)
(** * Successful installs *)

Lemma install_in_tempdir_success info env s s' :
  install_in_tempdir info env s = (Ret None, s') ->
  exists entries name folder rest s1 s2,
    download env = Extracted entries /\
    extracted_folders entries = (name, folder) :: rest /\
    copy_scripts (temp_dir env +:+ "/" +:+ name) folder env (unpacked info s) = (Ret tt, s1) /\
    copy_gui (temp_dir env +:+ "/" +:+ name) folder env s1 = (Ret tt, s2) /\
    update_version_file info env s2 = (Ret tt, s').
Proof.
  intros H. apply install_in_tempdir_run in H.
  destruct (download env) as [msg|msg|entries]; try (destruct H; discriminate).
  destruct (extracted_folders entries) as [|[name folder] rest] eqn:Hf;
    [destruct H; discriminate|].
  destruct H as (o1 & s1 & H1 & H). destruct o1 as [[]|e1]; [|destruct H; discriminate].
  destruct H as (o2 & s2 & H2 & H). destruct o2 as [[]|e2]; [|destruct H; discriminate].
  destruct H as (o3 & H3 & H). destruct o3 as [[]|e3]; [|discriminate].
  exists entries, name, folder, rest, s1, s2. repeat split; assumption.
Qed.

(** An install that answers success went through every step. *)
Lemma install_success_inv env s r s' :
  install_update env s = (Ret r, s') -> succeeded r = true ->
  exists info s1 s3,
    get_update_info env s = (Ret info, s1) /\
    Py.truthy (default "" (error info)) = false /\
    install_in_tempdir info env
      (emit EvMkdtemp (snd (stop_if_running (is_running env s1) env s1))) = (Ret None, s3) /\
    s' = snd (start_if_was_running (is_running env s1) env (emit EvRmtemp s3)) /\
    r = install_success info.
Proof.
  intros Hrun Hok. pose proof (install_update_run env s) as H.
  destruct (get_update_info env s) as [[info|e] s1] eqn:Hc.
  2:{ rewrite H in Hrun. injection Hrun as <- <-. discriminate. }
  destruct (Py.truthy (default "" (error info))) eqn:Ht.
  { rewrite H in Hrun. injection Hrun as <- <-. discriminate. }
  cbv zeta in H.
  destruct (install_in_tempdir _ _ _) as [[[r0|]|e] s3] eqn:Hb;
    rewrite H in Hrun; injection Hrun as <- <-.
  - destruct (install_in_tempdir_failure _ _ _ _ _ Hb ltac:(discriminate)) as (msg & Hm & _).
    simpl in Hm. subst r0. discriminate.
  - exists info, s1, s3. repeat split; assumption.
  - discriminate.
Qed.

Lemma copy2_bin_run name c m env s s' :
  copy2 ToBin name c m env s = (Ret tt, s') ->
  bin_dir s' = <[name := {| content := c; mode := m |}]> (bin_dir s) /\ gui_dir s' = gui_dir s.
Proof.
  unfold copy2, guarded, bind, ask, tell, modify. simpl.
  destruct (fault env (OpCopy ToBin name)); [discriminate|].
  intros [= <-]. split; reflexivity.
Qed.

Lemma chmod_755_run name env s s' :
  chmod_755 name env s = (Ret tt, s') ->
  bin_dir s' = alter (fun f => {| content := content f; mode := 493 |}) name (bin_dir s) /\
  gui_dir s' = gui_dir s.
Proof.
  unfold chmod_755, guarded, bind, ask, tell, modify. simpl.
  destruct (fault env (OpChmod name)); [discriminate|].
  intros [= <-]. split; reflexivity.
Qed.

(** One turn of the loop: a file lands in the binary directory with its
    content and mode 0o755, everything else stays. *)
Lemma copy_script_run item env s s' :
  copy_script item env s = (Ret tt, s') ->
  gui_dir s' = gui_dir s /\
  (forall c m, snd item = File c m ->
     bin_dir s' !! fst item = Some {| content := c; mode := 493 |}) /\
  (forall other, (other <> fst item \/ exists es, snd item = Dir es) ->
     bin_dir s' !! other = bin_dir s !! other).
Proof.
  unfold copy_script. destruct item as [name [c m|es]]; simpl.
  - unfold bind. destruct (copy2 ToBin name c m env s) as [[[]|e] s1] eqn:H1; [|discriminate].
    intros H2. apply copy2_bin_run in H1. apply chmod_755_run in H2.
    destruct H1 as [B1 G1], H2 as [B2 G2]. split; [congruence|]. split.
    + intros c' m' [= <- <-]. rewrite B2, lookup_alter_eq, B1, lookup_insert_eq. reflexivity.
    + intros other [Hne|[es Hes]]; [|discriminate].
      rewrite B2, lookup_alter_ne, B1, lookup_insert_ne by congruence. reflexivity.
  - intros [= <-]. split; [reflexivity|]. split; [discriminate|]. reflexivity.
Qed.

(** The loop over a directory whose entries have distinct names. *)
Lemma copy_script_loop env items :
  NoDup (map fst items) ->
  forall s s', for_each items copy_script env s = (Ret tt, s') ->
    gui_dir s' = gui_dir s /\
    (forall name c m, In (name, File c m) items ->
       bin_dir s' !! name = Some {| content := c; mode := 493 |}) /\
    (forall name, (forall c m, ~ In (name, File c m) items) ->
       bin_dir s' !! name = bin_dir s !! name).
Proof.
  induction items as [|[n nd] items IH]; intros Hnd s s'.
  - intros [= <-]. split; [reflexivity|]. split; [intros ? ? ? []|reflexivity].
  - simpl. unfold bind.
    destruct (copy_script (n, nd) env s) as [[[]|e] s1] eqn:H1; [|discriminate].
    intros H2. inversion Hnd as [|? ? Hnotin Hnd']; subst.
    destruct (copy_script_run _ _ _ _ H1) as (G1 & Bf & Bo). simpl in Bf, Bo.
    destruct (IH Hnd' _ _ H2) as (G2 & Cf & Co).
    split; [congruence|]. split.
    + intros name c m [[= Hn Hf]|Hin].
      * subst n nd. rewrite Co; [apply (Bf c m); reflexivity|].
        intros c' m' Hin. apply Hnotin. apply list_elem_of_In.
        apply (in_map fst) in Hin. exact Hin.
      * apply (Cf name c m Hin).
    + intros name Hno. rewrite Co.
      * apply Bo. destruct nd as [c m|es]; [|right; eauto].
        left. intros ->. apply (Hno c m). left. reflexivity.
      * intros c m Hin. apply (Hno c m). right. exact Hin.
Qed.

Lemma copy_scripts_dir path folder items :
  lookup_entry "scripts" folder = Some (Dir items) ->
  copy_scripts path folder = for_each items copy_script.
Proof. intros H. unfold copy_scripts. rewrite H. reflexivity. Qed.

Lemma copy_gui_absent path folder :
  lookup_entry "gui" folder = None -> copy_gui path folder = ret tt.
Proof. intros H. unfold copy_gui. rewrite H. reflexivity. Qed.

Lemma copy_scripts_gui path folder : stable (keeps gui_dir) (copy_scripts path folder).
Proof.
  unfold copy_scripts, copy2, chmod_755, guarded, tell.
  repeat (stable_step (keeps_refl gui_dir) (keeps_trans gui_dir));
    apply stable_modify; intros ?; reflexivity.
Qed.

(** C6.  Take an install whose archive has, in the folder it extracts
    to, a [scripts] directory and no [gui] entry.  However the install
    ends, the GUI directory is as it was: not created, and no file of it
    changed.  When the install answers success, every file that is an
    entry of [scripts] is in the binary directory under its own name, with
    the content it has in the archive and mode 0o755, and the files of the
    binary directory that have no namesake among them are as they were.
    (The entries of [scripts] that are directories are skipped.) *)
Theorem install_scripts_only env s r s' entries name folder rest items :
  install_update env s = (Ret r, s') ->
  download env = Extracted entries ->
  extracted_folders entries = (name, folder) :: rest ->
  lookup_entry "scripts" folder = Some (Dir items) ->
  lookup_entry "gui" folder = None ->
  NoDup (map fst items) ->
  gui_dir s' = gui_dir s /\
  (succeeded r = true ->
     (forall fname c m, In (fname, File c m) items ->
        bin_dir s' !! fname = Some {| content := c; mode := 493 |}) /\
     (forall fname, (forall c m, ~ In (fname, File c m) items) ->
        bin_dir s' !! fname = bin_dir s !! fname)).
Proof.
  intros Hrun Hd Hf Hs Hg Hnd.
  pose proof (get_update_info_dirs env s) as D1.
  pose proof (install_update_run env s) as H.
  destruct (get_update_info env s) as [[info|e] s1] eqn:Hc; simpl in D1.
  2:{ rewrite H in Hrun. injection Hrun as <- <-. split; [apply D1 | discriminate]. }
  destruct D1 as [B1 G1].
  destruct (Py.truthy (default "" (error info))) eqn:Ht.
  { rewrite H in Hrun. injection Hrun as <- <-. split; [exact G1 | discriminate]. }
  cbv zeta in H.
  pose proof (stop_if_running_files (is_running env s1) env s1) as (_ & B2 & G2).
  set (s2 := snd (stop_if_running (is_running env s1) env s1)) in *.
  destruct (install_in_tempdir info env (emit EvMkdtemp s2)) as [o s3] eqn:Hb.
  pose proof (install_in_tempdir_run _ _ _ _ _ Hb) as Hblock.
  rewrite Hd, Hf in Hblock. cbv zeta in Hblock.
  rewrite (copy_scripts_dir _ _ _ Hs), (copy_gui_absent _ _ Hg) in Hblock.
  destruct Hblock as (o1 & t1 & H1 & Hblock).
  pose proof (copy_scripts_gui (temp_dir env +:+ "/" +:+ name) folder env
                (unpacked info (emit EvMkdtemp s2))) as K1.
  rewrite (copy_scripts_dir _ _ _ Hs), H1 in K1. unfold keeps in K1. simpl in K1.
  destruct o1 as [[]|e1].
  - destruct Hblock as (o2 & t2 & [= <- <-] & o3 & H3 & Hblock).
    pose proof (update_version_file_dirs info env t1) as D3. rewrite H3 in D3.
    destruct D3 as [B3 G3]. simpl in B3, G3.
    destruct (copy_script_loop env items Hnd _ _ H1) as (_ & Cf & Co).
    destruct o3 as [[]|e3]; subst o.
    + pose proof (start_if_was_running_files (is_running env s1) env (emit EvRmtemp s3))
        as (_ & B4 & G4).
      rewrite H in Hrun. injection Hrun as <- <-. split.
      * rewrite G4. simpl. congruence.
      * intros _. split.
        -- intros fname c m Hin. rewrite B4. simpl. rewrite B3. apply (Cf fname c m Hin).
        -- intros fname Hno. rewrite B4. simpl. rewrite B3, (Co fname Hno). simpl. congruence.
    + rewrite H in Hrun. injection Hrun as <- <-. split; [simpl; congruence | discriminate].
  - destruct Hblock as [-> ->]. rewrite H in Hrun. injection Hrun as <- <-.
    split; [simpl; congruence | discriminate].
Qed.

Lemma install_scripts_only_witness :
  let s' := snd (install_update psutil_env serving_state) in
  gui_dir s' = gui_dir serving_state /\
  bin_dir s' !! "gui-server.py" = Some {| content := "#!/usr/bin/env python3"; mode := 493 |} /\
  bin_dir s' !! "start.sh" = Some {| content := "#!/bin/sh"; mode := 493 |}.
Proof.
  intros s'.
  destruct (install_scripts_only psutil_env serving_state
              (install_success (check_result (JStr "1.1.0") (JStr "aaaaaaa")
                 "0123456789abcdef0123456789abcdef01234567" "2024-05-01T10:00:00Z"
                 ("fix: installer" +:+ String "010" "details")))
              s' sample_entries "cliproxyapi-plus-main" sample_folder [] sample_scripts)
    as (Hgui & Hbin).
  - vm_compute. reflexivity.
  - reflexivity.
  - reflexivity.
  - reflexivity.
  - reflexivity.
  - apply (bool_decide_eq_true_1 (NoDup (map fst sample_scripts))). vm_compute. reflexivity.
  - destruct (Hbin eq_refl) as [Hfiles _].
    split; [exact Hgui|]. split; [apply (Hfiles _ _ 420) | apply (Hfiles _ _ 420)]; simpl; auto.
Defined.

(** C6 as stated fails on an archive whose [gui] is a regular file: it
    has a [scripts] directory and no [gui] directory, yet the GUI
    directory, which was not there, is created before the listing of
    [gui] fails; the scripts were copied and the install answers the
    failure. *)
Lemma install_gui_file_counterexample :
  let run := install_update gui_file_env no_gui_state in
  gui_dir no_gui_state = None /\
  gui_dir (snd run) = Some ∅ /\
  fst run = Ret (failure "[Errno 20] Not a directory: '/tmp/tmpk3x9/cliproxyapi-plus-main/gui'") /\
  bin_dir (snd run) !! "start.sh" = Some {| content := "#!/bin/sh"; mode := 493 |}.
Proof. vm_compute. repeat split. Qed.







Lemma stop_api_server_signalled env s r :
  locate env (procs s) = Some r ->
  (forall q, In q (procs s) -> pid q = ref_pid r -> forall msg, on_term q <> TermRaises msg) ->
  stop_api_server env s =
  (Ret stopped,
   set_procs (reap (clock s + 300))
     (set_clock (clock s + 300)
        (emit (EvSleep 300)
           (set_procs (map (signalled (clock s) (ref_pid r)))
              (emit (EvKill (ref_pid r)) s))))).
Proof.
  intros Hloc Hok.
  destruct (locate_in_table _ _ _ Hloc) as (q0 & Hq0 & Hpid0).
  unfold stop_api_server, bind. rewrite get_server_process_run, Hloc.
  unfold try_except, os_kill, bind, get, tell, modify. simpl.
  destruct (List.find (fun q => pid q =? ref_pid r) (procs s)) as [q1|] eqn:Hfind.
  2:{ exfalso. apply (find_none _ _ Hfind) in Hq0. rewrite Hpid0, N.eqb_refl in Hq0.
      discriminate. }
  apply find_some in Hfind. destruct Hfind as [Hq1 Heq1]. apply N.eqb_eq in Heq1.
  pose proof (Hok q1 Hq1 Heq1) as Hno.
  destruct (on_term q1) as [d| |msg]; simpl; try reflexivity.
  exfalso. exact (Hno msg eq_refl).
Qed.








(** The loop over [scripts] copies its files and skips its directories:
    a file one level down is not installed. *)
Lemma install_skips_directories :
  let s' := snd (install_update psutil_env serving_state) in
  lookup_entry "lib" sample_scripts = Some (Dir [("helper.sh", File "# helper" 420)]) /\
  bin_dir s' !! "helper.sh" = None /\ bin_dir s' !! "lib" = None.
Proof. vm_compute. repeat split. Qed.



(** The same where no server was running: nothing is started. *)
Lemma install_from_idle :
  let s' := snd (install_update psutil_env idle_state) in
  installedCommit psutil_env s' = Ret (JStr "0123456") /\
  is_running psutil_env s' = false /\ index_of is_launch (trace s') = None.
Proof. vm_compute. repeat split. Qed.

(* ===================================================================== *)
(** * The request loop *)

Lemma stable_extends_weaken (P Q : event -> bool) {A} (c : M A) :
  (forall e, P e = true -> Q e = true) -> stable (extends P) c -> stable (extends Q) c.
Proof. intros HPQ H env s. eapply extends_weaken; [exact HPQ | apply H]. Qed.

Ltac quiet_from lemma :=
  eapply stable_extends_weaken; [|apply lemma]; intros [] ?; try discriminate; reflexivity.

Lemma get_update_info_quiet : stable (extends not_http) get_update_info.
Proof. quiet_from get_update_info_trace. Qed.
#[local] Hint Resolve get_update_info_quiet : frames.

Lemma stop_api_server_quiet : stable (extends not_http) stop_api_server.
Proof. quiet_from stop_api_server_trace. Qed.
#[local] Hint Resolve stop_api_server_quiet : frames.

Lemma start_api_server_quiet : stable (extends not_http) start_api_server.
Proof. quiet_from start_api_server_trace. Qed.
#[local] Hint Resolve start_api_server_quiet : frames.

Lemma time_sleep_quiet ms : stable (extends not_http) (time_sleep ms).
Proof. quiet_from time_sleep_trace. Qed.
#[local] Hint Resolve time_sleep_quiet : frames.

Lemma stop_if_running_quiet b : stable (extends not_http) (stop_if_running b).
Proof. quiet_from stop_if_running_trace. Qed.
#[local] Hint Resolve stop_if_running_quiet : frames.

Lemma start_if_was_running_quiet b : stable (extends not_http) (start_if_was_running b).
Proof. quiet_from start_if_was_running_trace. Qed.
#[local] Hint Resolve start_if_was_running_quiet : frames.

Lemma install_in_tempdir_quiet info : stable (extends not_http) (install_in_tempdir info).
Proof. quiet_from install_in_tempdir_trace. Qed.
#[local] Hint Resolve install_in_tempdir_quiet : frames.

Lemma restart_api_server_quiet : stable (extends not_http) restart_api_server.
Proof. unfold restart_api_server. stable_trace not_http. Qed.
#[local] Hint Resolve restart_api_server_quiet : frames.

Lemma install_update_quiet : stable (extends not_http) install_update.
Proof.
  unfold install_update, get_server_process, tell. stable_trace not_http.
  intros s. apply extends_emit. reflexivity.
Qed.
#[local] Hint Resolve install_update_quiet : frames.

Lemma get_server_status_quiet : stable (extends not_http) get_server_status.
Proof. unfold get_server_status, get_server_process. stable_trace not_http. Qed.
#[local] Hint Resolve get_server_status_quiet : frames.

Lemma get_config_content_quiet : stable (extends not_http) get_config_content.
Proof. unfold get_config_content. stable_trace not_http. Qed.
#[local] Hint Resolve get_config_content_quiet : frames.

(** No handler sends or receives anything itself. *)
Lemma dispatch_quiet r : stable (extends not_http) (dispatch r).
Proof. destruct r; unfold dispatch; stable_trace not_http. Qed.

(** One turn: the request is taken, the handler runs to its end, and the
    reply (or the report of the exception) closes the turn. *)
Lemma handle_request_run r env s :
  exists t s',
    handle_request r env s = (Ret tt, s') /\
    trace s' = trace s ++ turn_events r t /\
    forallb not_http (fst t) = true.
Proof.
  unfold handle_request, bind, tell, modify, try_except. simpl.
  pose proof (dispatch_quiet r env (emit (EvRequest (req_method r) (req_path r)) s))
    as (evs & Ht & Hq).
  destruct (dispatch r env (emit (EvRequest (req_method r) (req_path r)) s))
    as [[b|e] s1]; simpl in *.
  - exists (evs, Reply 200 b). eexists. split; [reflexivity|]. split; [|exact Hq].
    unfold turn_events. simpl. rewrite Ht, <- !app_assoc. reflexivity.
  - exists (evs, NoReply e). eexists. split; [reflexivity|]. split; [|exact Hq].
    unfold turn_events. simpl. rewrite Ht, <- !app_assoc. reflexivity.
Qed.

(** C9, as the code has it.  The server answers its requests one at a
    time, in the order they arrived: the trace of a run over any pending
    requests is one block per request, each made of the request, the
    events of its handler and its reply, and no block starts before the
    one before it has ended.  A status request or a configuration read
    that arrives behind an install is therefore taken up only after the
    install has replied. *)
Theorem serve_forever_sequential env (pending : list request) s :
  exists turns : list (list event * reply),
    List.length turns = List.length pending /\
    fst (serve_forever pending env s) = Ret tt /\
    trace (snd (serve_forever pending env s)) =
      trace s ++ List.concat (zip_with turn_events pending turns) /\
    Forall (fun t => forallb not_http (fst t) = true) turns.
Proof.
  unfold serve_forever. revert s.
  induction pending as [|r pending IH]; intros s.
  - exists []. simpl. rewrite app_nil_r. repeat split. constructor.
  - destruct (handle_request_run r env s) as (t & s1 & Hrun & Ht & Hq).
    destruct (IH s1) as (turns & Hlen & Hret & Htr & Hall).
    exists (t :: turns). simpl. unfold bind. rewrite Hrun.
    split; [congruence|]. split; [exact Hret|]. split; [|constructor; assumption].
    rewrite Htr, Ht, <- app_assoc. reflexivity.
Qed.

(** C9 as stated fails: with a status request pending behind an install,
    the archive is extracted (event 9), the install is answered (event
    20), and only then is the status request taken (event 21) and
    answered (event 22); a configuration read behind an install waits the
    same way. *)
Lemma status_waits_for_install_counterexample :
  index_of is_extract status_behind_install = Some 9%nat /\
  index_of is_reply status_behind_install = Some 20%nat /\
  index_of (is_request_to "/api/status") status_behind_install = Some 21%nat /\
  index_of is_status_reply status_behind_install = Some 22%nat /\
  index_of is_reply config_behind_install = Some 20%nat /\
  index_of (is_request_to "/api/config") config_behind_install = Some 21%nat.
Proof. vm_compute. repeat split. Qed.

(* ===================================================================== *)
(** * More on the supervisor *)

(** X1.  A start that reports success has found no server before, and
    where the locator can work the status taken next reports
    [running = true] with the pid that the start returned. *)
Theorem start_then_status env s r s' :
  locator env <> NoLocator ->
  start_api_server env s = (Ret r, s') -> succeeded r = true ->
  locate env (procs s) = None /\
  exists n st,
    r = started n /\
    get_server_status env s' = (Ret st, s') /\ running st = true /\ st_pid st = Some n.
Proof.
  intros Hloc Hrun Hok.
  destruct (start_api_server_success _ _ _ _ Hrun Hok) as (Hnone & react & tele & Hl & -> & ->).
  split; [exact Hnone|].
  destruct (locate_launched env s react tele Hloc Hnone) as (ref & Href & Hpid).
  destruct (get_server_status_found _ _ _ Href) as (st & Hst & Hr & Hp).
  exists (next_pid s), st. split; [reflexivity|]. split; [exact Hst|]. split; [exact Hr|].
  rewrite Hp, Hpid. reflexivity.
Qed.

Lemma start_then_status_witness :
  exists n st,
    started 5000 = started n /\
    get_server_status pgrep_env (snd (start_api_server pgrep_env idle_state))
      = (Ret st, snd (start_api_server pgrep_env idle_state)) /\
    running st = true /\ st_pid st = Some n.
Proof.
  refine (proj2 (start_then_status pgrep_env idle_state (started 5000)
                   (snd (start_api_server pgrep_env idle_state)) _ _ _)).
  - discriminate.
  - vm_compute. reflexivity.
  - reflexivity.
Defined.

Lemma signalled_name now target p : pname (signalled now target p) = pname p.
Proof.
  unfold signalled. destruct (on_term p); try reflexivity.
  destruct (term_at p); try reflexivity. destruct (pid p =? target); reflexivity.
Qed.

Lemma signalled_cmdline now target p : cmdline (signalled now target p) = cmdline p.
Proof.
  unfold signalled. destruct (on_term p); try reflexivity.
  destruct (term_at p); try reflexivity. destruct (pid p =? target); reflexivity.
Qed.

(** A signalled process that outlives the wait is not reaped. *)
Lemma outlives_signalled now wait target p :
  outlives wait p ->
  match term_at (signalled now target p) with
  | Some t => negb (t <=? now + wait)
  | None => true
  end = true.
Proof.
  intros [Hnone [Hign|(d & Hd & Hlt)]]; unfold signalled.
  - rewrite Hign, Hnone. reflexivity.
  - rewrite Hd, Hnone. destruct (pid p =? target); simpl; [|rewrite Hnone; reflexivity].
    apply negb_true_iff, N.leb_gt. lia.
Qed.

Lemma outlives_weaken w1 w2 p : w1 <= w2 -> outlives w2 p -> outlives w1 p.
Proof.
  intros Hle [Hnone [Hign|(d & Hd & Hlt)]]; split; auto. right. exists d. split; [exact Hd | lia].
Qed.

(** The first element that satisfies [f] stays the first after a map that
    preserves [f] and a filter that keeps its image. *)
Lemma find_map_filter {A} (f g : A -> bool) (h : A -> A) l p :
  (forall x, f (h x) = f x) -> List.find f l = Some p -> g (h p) = true ->
  List.find f (List.filter g (map h l)) = Some (h p).
Proof.
  intros Hf Hfind Hg. induction l as [|a l IH]; simpl in *; [discriminate|].
  destruct (f a) eqn:Hfa.
  - injection Hfind as ->. rewrite Hg. simpl. rewrite Hf, Hfa. reflexivity.
  - destruct (g (h a)); simpl; [rewrite Hf, Hfa|]; apply IH, Hfind.
Qed.

Lemma filter_map_filter_nil {A} (f g : A -> bool) (h : A -> A) l :
  (forall x, f (h x) = f x) -> List.filter f l = [] ->
  List.filter f (List.filter g (map h l)) = [].
Proof.
  intros Hf. induction l as [|a l IH]; simpl; [reflexivity|].
  destruct (f a) eqn:Hfa; [discriminate|]. intros H.
  destruct (g (h a)); simpl; [rewrite Hf, Hfa|]; apply IH, H.
Qed.

Lemma filter_map_filter_head {A} (f g : A -> bool) (h : A -> A) l q rest :
  (forall x, f (h x) = f x) -> List.filter f l = q :: rest -> g (h q) = true ->
  exists rest', List.filter f (List.filter g (map h l)) = h q :: rest'.
Proof.
  intros Hf Hfil Hg. induction l as [|a l IH]; simpl in *; [discriminate|].
  destruct (f a) eqn:Hfa.
  - injection Hfil as -> _. rewrite Hg. simpl. rewrite Hf, Hfa. eauto.
  - destruct (g (h a)); simpl; [rewrite Hf, Hfa|]; apply IH, Hfil.
Qed.

(** The locator finds the same pid after a signal and a wait that the
    processes with that pid outlive. *)
Lemma locate_outlives env ps r now wait target :
  locate env ps = Some r ->
  (forall q, In q ps -> pid q = ref_pid r -> outlives wait q) ->
  exists r', locate env (reap (now + wait) (map (signalled now target) ps)) = Some r' /\
             ref_pid r' = ref_pid r.
Proof.
  intros Hloc Hout. unfold locate in *. destruct (locator env); [| |discriminate].
  - destruct (List.find matches_name ps) as [p|] eqn:Hf; [|discriminate].
    injection Hloc as <-. pose proof (find_some _ _ Hf) as [Hin _].
    exists (PsutilProc (signalled now target p)). split; [|apply signalled_pid].
    unfold reap.
    rewrite (find_map_filter matches_name _ (signalled now target) ps p); [reflexivity| |exact Hf|].
    + intros x. unfold matches_name. rewrite signalled_name. reflexivity.
    + apply outlives_signalled, Hout; [exact Hin | reflexivity].
  - revert Hloc. generalize PROCESS_NAMES. intros names.
    induction names as [|pn names IH]; simpl; [discriminate|].
    destruct (List.filter (fun p => Py.str_contains pn (cmdline p)) ps) as [|q rest] eqn:Hfil.
    + intros Hloc. unfold reap.
      rewrite (filter_map_filter_nil (fun p => Py.str_contains pn (cmdline p)) _
                 (signalled now target) ps); [apply IH, Hloc| |exact Hfil].
      intros x. rewrite signalled_cmdline. reflexivity.
    + intros [= <-].
      assert (Hin : In q ps).
      { assert (H : In q (List.filter (fun p => Py.str_contains pn (cmdline p)) ps))
          by (rewrite Hfil; left; reflexivity).
        apply filter_In in H. apply H. }
      destruct (filter_map_filter_head (fun p => Py.str_contains pn (cmdline p))
                  (fun p => match term_at p with
                            | Some t => negb (t <=? now + wait)
                            | None => true
                            end)
                  (signalled now target) ps q rest) as (rest' & Hr).
      * intros x. rewrite signalled_cmdline. reflexivity.
      * exact Hfil.
      * apply outlives_signalled, Hout; [exact Hin | reflexivity].
      * unfold reap. rewrite Hr. eexists. split; [reflexivity|]. apply signalled_pid.
Qed.

(** What [stop_api_server] does when the signal goes through. *)
Lemma outlives_not_raises wait q : outlives wait q -> forall msg, on_term q <> TermRaises msg.
Proof. intros [_ [H|(d & H & _)]] msg; rewrite H; discriminate. Qed.

(** X2.  Stopping is best effort.  When the process the locator finds
    ignores SIGTERM, or needs more than the 0.3 second that
    [stop_api_server] waits, the stop still answers "Server stopped",
    having sent one signal to that pid and waited once; and the status
    taken next still reports the server running under the same pid. *)
Theorem stop_api_server_best_effort env s r :
  locate env (procs s) = Some r ->
  (forall q, In q (procs s) -> pid q = ref_pid r -> outlives 300 q) ->
  exists s' st,
    stop_api_server env s = (Ret stopped, s') /\
    trace s' = trace s ++ [EvKill (ref_pid r); EvSleep 300] /\
    get_server_status env s' = (Ret st, s') /\
    running st = true /\ st_pid st = Some (ref_pid r).
Proof.
  intros Hloc Hout.
  rewrite (stop_api_server_signalled env s r Hloc)
    by (intros q Hq Hp; apply (outlives_not_raises 300), Hout; assumption).
  eexists. 
  destruct (locate_outlives env (procs s) r (clock s) 300 (ref_pid r) Hloc Hout)
    as (r' & Hr' & Hpid).
  destruct (get_server_status_found env
              (set_procs (reap (clock s + 300))
                 (set_clock (clock s + 300)
                    (emit (EvSleep 300)
                       (set_procs (map (signalled (clock s) (ref_pid r)))
                          (emit (EvKill (ref_pid r)) s))))) r' Hr')
    as (st & Hst & Hrun & Hp).
  exists st. split; [reflexivity|]. split.
  - simpl. rewrite <- app_assoc. reflexivity.
  - split; [exact Hst|]. split; [exact Hrun|]. rewrite Hp, Hpid. reflexivity.
Qed.

Lemma stop_api_server_best_effort_witness :
  exists s' st,
    stop_api_server psutil_env stubborn_state = (Ret stopped, s') /\
    trace s' = trace stubborn_state ++ [EvKill 4242; EvSleep 300] /\
    get_server_status psutil_env s' = (Ret st, s') /\
    running st = true /\ st_pid st = Some 4242.
Proof.
  refine (stop_api_server_best_effort psutil_env stubborn_state
            (PsutilProc stubborn_server) eq_refl _).
  intros q [<-|[]] _. split; [reflexivity|]. left. reflexivity.
Defined.

Lemma reap_reap t1 t2 l : t1 <= t2 -> reap t2 (reap t1 l) = reap t2 l.
Proof.
  intros Hle. unfold reap. induction l as [|p l IH]; simpl; [reflexivity|].
  destruct (term_at p) as [t|] eqn:Ht; simpl.
  - destruct (t <=? t1) eqn:H1; simpl.
    + apply N.leb_le in H1. assert (H2 : (t <=? t2) = true) by (apply N.leb_le; lia).
      rewrite H2. simpl. exact IH.
    + rewrite Ht. destruct (t <=? t2); simpl; rewrite IH; reflexivity.
  - rewrite Ht. rewrite IH. reflexivity.
Qed.

(** X3.  The waits of a restart are fixed.  When the process the locator
    finds ignores SIGTERM, or needs more than the 0.8 second that pass
    between the signal and the new start, [restart_api_server] signals it,
    waits 0.3 and 0.5 second, launches nothing and answers
    "Server already running" with the pid of that very process. *)
Theorem restart_while_still_running env s r :
  locate env (procs s) = Some r ->
  (forall q, In q (procs s) -> pid q = ref_pid r -> outlives 800 q) ->
  exists s',
    restart_api_server env s =
      (Ret (failure ("Server already running (PID: " +:+ pretty (ref_pid r) +:+ ")")), s') /\
    trace s' = trace s ++ [EvKill (ref_pid r); EvSleep 300; EvSleep 500].
Proof.
  intros Hloc Hout.
  unfold restart_api_server, bind.
  rewrite (stop_api_server_signalled env s r Hloc)
    by (intros q Hq Hp; apply (outlives_not_raises 800), Hout; assumption).
  rewrite time_sleep_run.
  destruct (locate_outlives env (procs s) r (clock s) 800 (ref_pid r) Hloc Hout)
    as (r' & Hr' & Hpid).
  eexists. split.
  - rewrite (start_api_server_found _ _ r'); [rewrite Hpid; reflexivity|].
    simpl. rewrite reap_reap by lia.
    replace (clock s + 300 + 500) with (clock s + 800) by lia. exact Hr'.
  - simpl. rewrite <- !app_assoc. reflexivity.
Qed.

Lemma restart_while_still_running_witness :
  exists s',
    restart_api_server pgrep_env slow_state =
      (Ret (failure "Server already running (PID: 4242)"), s') /\
    trace s' = trace slow_state ++ [EvKill 4242; EvSleep 300; EvSleep 500].
Proof.
  refine (restart_while_still_running pgrep_env slow_state
            (PgrepProc 4242 "cli-proxy-api") eq_refl _).
  intros q [<-|[]] _. split; [reflexivity|]. right. exists 2000. split; [reflexivity | lia].
Defined.

(** X4.  A start that does not report success leaves no new process: every
    process of the table after it was there before, so a server that died
    in its first half second, or a refused start, adds nothing. *)
Theorem start_api_server_failed_adds_nothing env s r s' :
  start_api_server env s = (Ret r, s') -> succeeded r = false ->
  (forall p, In p (procs s') -> In p (procs s)) /\
  exists msg, r = failure msg.
Proof.
  unfold start_api_server, bind. rewrite get_server_process_run.
  destruct (locate env (procs s)) as [ref|].
  { intros [= <- <-] _. split; [auto | eauto]. }
  simpl. destruct (binary_exists env); simpl; [|intros [= <- <-] _; split; [auto | eauto]].
  destruct (config_file env); simpl; [|intros [= <- <-] _; split; [auto | eauto]].
  unfold try_except, bind. simpl.
  destruct (launch env) as [msg|logs|react tele]; simpl.
  - intros [= <- <-] _. split; [auto | eauto].
  - intros [= <- <-] _. split; [|eauto]. simpl. intros p Hp.
    apply filter_In in Hp. apply Hp.
  - intros [= <- <-] Habs. discriminate.
Qed.

Lemma start_api_server_failed_adds_nothing_witness :
  let env := sample_env Psutil sample_fetch sample_archive []
               (LaunchExits (Some ("", "listen tcp :8317: bind: address already in use" +:+ String "010" ""))) in
  fst (start_api_server env idle_state)
    = Ret (failure "Server exited immediately: listen tcp :8317: bind: address already in use") /\
  forall p, In p (procs (snd (start_api_server env idle_state))) -> In p (procs idle_state).
Proof.
  intros env. split; [reflexivity|].
  refine (proj1 (start_api_server_failed_adds_nothing env idle_state
            (failure "Server exited immediately: listen tcp :8317: bind: address already in use")
            (snd (start_api_server env idle_state)) _ _)).
  - vm_compute. reflexivity.
  - reflexivity.
Defined.

(* ===================================================================== *)
(** * More on the version store and the check *)

(** X5.  Reading the version store settles it: whatever the file held,
    a second [get_local_version] returns the record the first one
    returned and writes nothing. *)
Theorem get_local_version_twice env s local s1 :
  get_local_version env s = (Ret local, s1) ->
  get_local_version env s1 = (Ret local, s1).
Proof.
  intros H.
  destruct (get_local_version_cases env s) as [(d & Hl & _)|[(j & Hl & _)|Hl]];
    rewrite Hl in H; injection H as <- <-.
  - exact Hl.
  - exact Hl.
  - rewrite (get_local_version_dict env (written default_version s)
               [("scripts", JStr SCRIPT_VERSION); ("commitSha", JStr "unknown");
                ("commitDate", JNull); ("lastCheck", JNull)]); reflexivity.
Qed.

Lemma get_local_version_twice_witness :
  get_local_version psutil_env (written default_version garbled_state)
    = (Ret default_version, written default_version garbled_state).
Proof.
  exact (get_local_version_twice psutil_env garbled_state default_version
           (written default_version garbled_state) eq_refl).
Defined.

Lemma get_local_version_clock env s : clock (snd (get_local_version env s)) = clock s.
Proof. pose proof (get_local_version_procs env s) as (_ & H & _). exact H. Qed.

(** X6.  The check touches [lastCheck] and nothing else, and only when
    the remote has answered: after a check that returns, every other
    stored field reads as before; [lastCheck] is the time of the check
    when the commit was fetched, and is what it was when the fetch
    failed. *)
Theorem get_update_info_lastCheck env s info s1 :
  get_update_info env s = (Ret info, s1) ->
  (forall k, k <> "lastCheck" -> read_field env s1 k = read_field env s k) /\
  (forall sha date message, remote env = FetchOk sha date message ->
     read_field env s1 "lastCheck" = Ret (JStr (iso env (clock s)))) /\
  (forall sha date msg, remote env = FetchFail sha date msg ->
     read_field env s1 "lastCheck" = read_field env s "lastCheck").
Proof.
  intros H. split; [intros k Hk; apply (get_update_info_fields _ _ _ _ _ H Hk)|].
  destruct (get_update_info_inv _ _ _ _ H) as (d & s0 & scripts & commit & Hl & _ & Hc & Hcase).
  pose proof (get_local_version_clock env s) as Hclock. rewrite Hl in Hclock. simpl in Hclock.
  destruct (read_field_local env s d s0 "lastCheck" Hl) as [Hr Hr0].
  split.
  - intros sha date message Hrem.
    destruct Hcase as [(sha' & date' & message' & _ & _ & ->)|(sha' & date' & msg & Hrem' & _)];
      [|congruence].
    unfold checked. rewrite read_field_written.
    + simpl. rewrite dict_get_set_eq, Hclock. reflexivity.
    + apply dict_has_set_other. unfold dict_has. rewrite Hc. reflexivity.
  - intros sha date msg Hrem.
    destruct Hcase as [(sha' & date' & message' & Hrem' & _)|(sha' & date' & msg' & _ & _ & ->)];
      [congruence|].
    rewrite Hr, Hr0. reflexivity.
Qed.

Lemma get_update_info_lastCheck_witness :
  read_field psutil_env (snd (get_update_info psutil_env idle_state)) "lastCheck"
    = Ret (JStr (sample_iso 60000)) /\
  read_field psutil_env (snd (get_update_info psutil_env idle_state)) "commitSha"
    = Ret (JStr "aaaaaaa").
Proof.
  destruct (get_update_info_lastCheck psutil_env idle_state
              (check_result (JStr "1.1.0") (JStr "aaaaaaa")
                 "0123456789abcdef0123456789abcdef01234567" "2024-05-01T10:00:00Z"
                 ("fix: installer" +:+ String "010" "details"))
              (snd (get_update_info psutil_env idle_state)))
    as (Hk & Hok & _).
  - vm_compute. reflexivity.
  - split; [exact (Hok _ _ _ eq_refl)|].
    rewrite (Hk "commitSha") by discriminate. reflexivity.
Defined.

(** X7.  The check lets one failure through: it raises exactly when the
    record read from the version store cannot give its [scripts] field (the
    key is missing, or the file holds a list or a string), with the very
    exception of that lookup, before anything is fetched; any failure of
    the fetch is returned in [error] instead. *)
Theorem get_update_info_raises env s e :
  fst (get_update_info env s) = Raise e <-> read_field env s "scripts" = Raise e.
Proof.
  unfold read_field, get_update_info, bind, lift.
  destruct (get_local_version_cases env s) as [(d & Hl & Hh & _)|[(j & Hl & _ & Hj & _)|Hl]];
    rewrite Hl.
  - simpl. unfold dict_has in Hh.
    destruct (dict_get "scripts" d) as [v|];
      [|simpl; split; intros H; injection H as <-; reflexivity].
    destruct (dict_get "commitSha" d) as [c|]; [|discriminate].
    unfold ask, get. simpl. destruct (remote env); simpl; split; discriminate.
  - destruct (Hj "scripts") as [m Hm]. rewrite Hm. simpl.
    split; intros H; injection H as <-; reflexivity.
  - unfold ask, get. simpl. destruct (remote env); simpl; split; discriminate.
Qed.

(** A stored record without [scripts] leaves GET /api/update-info
    unanswered, and the request behind it is served. *)
Lemma update_info_unanswered :
  trace (snd (serve_forever [GetUpdateInfo; GetStatus] psutil_env bare_state)) =
  [EvRequest "GET" "/api/update-info"; EvRespond (NoReply (KeyError "scripts"));
   EvRequest "GET" "/api/status"; EvRespond (Reply 200 (BStatus (status_of None None)))].
Proof. vm_compute. reflexivity. Qed.

(* ===================================================================== *)
(** * More on the installer *)

Lemma truthy_nonempty msg : msg <> "" -> Py.truthy msg = true.
Proof. destruct msg; [contradiction | reflexivity]. Qed.

(** X9.  A check that fails with a message stops the install at once:
    [install_update] answers "Failed to get update info: " followed by
    that message, and the state is the one the check left, with the same
    processes and the same two directories; nothing has been stopped,
    downloaded or copied. *)
Theorem install_update_stops_at_failed_check env s info s1 sha date msg :
  get_update_info env s = (Ret info, s1) ->
  remote env = FetchFail sha date msg -> msg <> "" ->
  install_update env s = (Ret (failure ("Failed to get update info: " +:+ msg)), s1) /\
  same_procs s s1 /\ same_dirs s s1 /\ extends is_version_write s s1.
Proof.
  intros Hc Hr Hmsg.
  pose proof (get_update_info_procs env s) as P. rewrite Hc in P.
  pose proof (get_update_info_dirs env s) as D. rewrite Hc in D.
  pose proof (get_update_info_trace env s) as T. rewrite Hc in T.
  split; [|auto].
  destruct (get_update_info_inv _ _ _ _ Hc) as (d & s0 & scripts & commit & _ & _ & _ & Hcase).
  destruct Hcase as [(sha' & date' & message' & Hr' & _)|(sha' & date' & msg' & Hr' & -> & _)];
    [congruence|].
  rewrite Hr in Hr'. injection Hr' as <- <- <-.
  pose proof (install_update_run env s) as H. rewrite Hc in H. simpl in H.
  rewrite (truthy_nonempty _ Hmsg) in H. exact H.
Qed.

Lemma install_update_stops_at_failed_check_witness :
  install_update offline_env serving_state =
  (Ret (failure ("Failed to get update info: " +:+
                 "<urlopen error [Errno -3] Temporary failure in name resolution>")),
   snd (get_update_info offline_env serving_state)).
Proof.
  refine (proj1 (install_update_stops_at_failed_check offline_env serving_state
                   (check_failed (JStr "1.1.0") (JStr "aaaaaaa") None None
                      "<urlopen error [Errno -3] Temporary failure in name resolution>")
                   _ None None _ _ eq_refl _)).
  - vm_compute. reflexivity.
  - discriminate.
Defined.

(** X10.  The install is stopped by the truth value of the error text, so
    a check that failed with an empty message does not stop it: the
    installer goes on to create its temporary directory, and if the rest
    succeeds it stores as [commitSha] whatever the check had got hold of,
    which is [null] when the commit was never fetched. *)
Theorem install_update_ignores_silent_failure env s info s1 sha date r s' :
  get_update_info env s = (Ret info, s1) ->
  remote env = FetchFail sha date "" ->
  install_update env s = (Ret r, s') ->
  (exists evs, trace s' = trace s1 ++ evs /\ In EvMkdtemp evs) /\
  (succeeded r = true ->
     installedCommit env s' = Ret (json_of_option (option_map (Py.take 7) sha))).
Proof.
  intros Hc Hr Hrun.
  destruct (get_update_info_inv _ _ _ _ Hc) as (d & s0 & scripts & commit & _ & _ & _ & Hcase).
  destruct Hcase as [(sha' & date' & message' & Hr' & _)|(sha' & date' & msg' & Hr' & Hinfo & _)];
    [congruence|].
  rewrite Hr in Hr'. injection Hr' as <- <- <-.
  assert (Ht : Py.truthy (default "" (error info)) = false) by (rewrite Hinfo; reflexivity).
  split.
  - pose proof (install_update_run env s) as H. rewrite Hc, Ht in H. cbv zeta in H.
    pose proof (stop_if_running_trace (is_running env s1) env s1) as (e1 & T1 & _).
    set (s2 := snd (stop_if_running (is_running env s1) env s1)) in *.
    pose proof (install_in_tempdir_trace info env (emit EvMkdtemp s2)) as (e2 & T2 & _).
    destruct (install_in_tempdir info env (emit EvMkdtemp s2)) as [[[r0|]|e] s3];
      simpl in T2; rewrite H in Hrun; injection Hrun as <- <-.
    + exists (e1 ++ [EvMkdtemp] ++ e2 ++ [EvRmtemp]). split.
      * simpl. rewrite T2. simpl. rewrite T1, <- !app_assoc. reflexivity.
      * apply in_or_app. right. left. reflexivity.
    + pose proof (start_if_was_running_trace (is_running env s1) env (emit EvRmtemp s3))
        as (e3 & T3 & _).
      exists (e1 ++ [EvMkdtemp] ++ e2 ++ [EvRmtemp] ++ e3). split.
      * rewrite T3. simpl. rewrite T2. simpl. rewrite T1, <- !app_assoc. reflexivity.
      * apply in_or_app. right. left. reflexivity.
    + exists (e1 ++ [EvMkdtemp] ++ e2 ++ [EvRmtemp]). split.
      * simpl. rewrite T2. simpl. rewrite T1, <- !app_assoc. reflexivity.
      * apply in_or_app. right. left. reflexivity.
  - intros Hok.
    destruct (install_success_inv _ _ _ _ Hrun Hok)
      as (info' & s1' & s3 & Hc' & _ & Hb & -> & _).
    rewrite Hc in Hc'. injection Hc' as <- <-.
    destruct (install_in_tempdir_success _ _ _ _ Hb)
      as (entries & name & folder & rest & t1 & t2 & _ & _ & H1 & H2 & H3).
    destruct (get_update_info_stored _ _ _ _ Hc) as (d1 & Hstored).
    pose proof (stop_if_running_files (is_running env s1) env s1) as (V2 & _).
    pose proof (copy_scripts_version (temp_dir env +:+ "/" +:+ name) folder env
                  (unpacked info
                     (emit EvMkdtemp (snd (stop_if_running (is_running env s1) env s1))))) as V3.
    rewrite H1 in V3.
    pose proof (copy_gui_version (temp_dir env +:+ "/" +:+ name) folder env t1) as V4.
    rewrite H2 in V4. unfold keeps in V3, V4. simpl in V3, V4.
    assert (Hv : version_file t2 = Stored (JDict d1)) by congruence.
    destruct (update_version_file_stored _ _ _ _ _ Hv H3) as (doc & _ & _ & Rw).
    pose proof (start_if_was_running_files (is_running env s1) env (emit EvRmtemp s3)) as (V5 & _).
    simpl in V5. unfold installedCommit.
    rewrite (read_field_same env s3 _ "commitSha" V5), Rw, Hinfo. reflexivity.
Qed.

Lemma install_update_ignores_silent_failure_witness :
  installedCommit silent_env (snd (install_update silent_env serving_state)) = Ret JNull.
Proof.
  refine (proj2 (install_update_ignores_silent_failure silent_env serving_state
                   (check_failed (JStr "1.1.0") (JStr "aaaaaaa") None None "")
                   (snd (get_update_info silent_env serving_state)) None None
                   (install_success (check_failed (JStr "1.1.0") (JStr "aaaaaaa") None None ""))
                   (snd (install_update silent_env serving_state)) _ eq_refl _) eq_refl).
  - vm_compute. reflexivity.
  - vm_compute. reflexivity.
Defined.

Lemma extends_not_temp_version s s' : extends is_version_write s s' -> extends not_temp s s'.
Proof. apply extends_weaken. intros [] H; try discriminate; reflexivity. Qed.

Lemma extends_not_temp_stop s s' : extends is_stop_event s s' -> extends not_temp s s'.
Proof. apply extends_weaken. intros [] H; try discriminate; reflexivity. Qed.

Lemma extends_not_temp_supervisor s s' : extends is_supervisor_event s s' -> extends not_temp s s'.
Proof. apply extends_weaken. intros [] H; try discriminate; reflexivity. Qed.

(** The block under the temporary directory neither creates nor removes
    one itself. *)
Lemma install_in_tempdir_not_temp info : stable (extends not_temp) (install_in_tempdir info).
Proof.
  unfold install_in_tempdir, tell.
  repeat (stable_step (extends_refl not_temp) (extends_trans not_temp));
    try (apply stable_modify; intros ?; apply extends_emit; reflexivity).
  - eapply stable_extends_weaken; [|apply copy_scripts_trace].
    intros [] H; try discriminate; reflexivity.
  - eapply stable_extends_weaken; [|apply copy_gui_trace].
    intros [] H; try discriminate; reflexivity.
  - cbv zeta. unfold write_version, tell.
    repeat (stable_step (extends_refl not_temp) (extends_trans not_temp));
      apply stable_modify; intros ?;
      first [apply extends_emit; reflexivity | apply extends_same; reflexivity].
Qed.

(** X11.  The temporary directory never outlives the call.  Either the
    install stops at its check and creates none, or it creates exactly
    one and removes it, once, later in the same call, however the
    download, the extraction and the copies end. *)
Theorem install_update_removes_tempdir env s r s' :
  install_update env s = (Ret r, s') ->
  (exists a, trace s' = trace s ++ a /\ forallb not_temp a = true) \/
  (exists a b c,
     trace s' = trace s ++ a ++ [EvMkdtemp] ++ b ++ [EvRmtemp] ++ c /\
     forallb not_temp a = true /\ forallb not_temp b = true /\ forallb not_temp c = true).
Proof.
  intros Hrun. pose proof (install_update_run env s) as H.
  pose proof (get_update_info_trace env s) as T0. apply extends_not_temp_version in T0.
  destruct (get_update_info env s) as [[info|e] s1]; simpl in T0.
  2:{ rewrite H in Hrun. injection Hrun as <- <-. left. exact T0. }
  destruct (Py.truthy (default "" (error info))).
  { rewrite H in Hrun. injection Hrun as <- <-. left. exact T0. }
  cbv zeta in H. right.
  pose proof (stop_if_running_trace (is_running env s1) env s1) as T1.
  apply extends_not_temp_stop in T1.
  set (s2 := snd (stop_if_running (is_running env s1) env s1)) in *.
  pose proof (install_in_tempdir_not_temp info env (emit EvMkdtemp s2)) as (b & Tb & Fb).
  assert (Ta : extends not_temp s s2) by (eapply extends_trans; eassumption).
  destruct Ta as (a & Ta & Fa).
  destruct (install_in_tempdir info env (emit EvMkdtemp s2)) as [[[r0|]|e] s3];
    simpl in Tb; rewrite H in Hrun; injection Hrun as <- <-.
  - exists a, b, []. repeat split; try assumption.
    simpl. rewrite Tb. simpl. rewrite Ta, <- !app_assoc. reflexivity.
  - pose proof (start_if_was_running_trace (is_running env s1) env (emit EvRmtemp s3)) as T3.
    apply extends_not_temp_supervisor in T3. destruct T3 as (c & Tc & Fc).
    exists a, b, c. repeat split; try assumption.
    rewrite Tc. simpl. rewrite Tb. simpl. rewrite Ta, <- !app_assoc. reflexivity.
  - exists a, b, []. repeat split; try assumption.
    simpl. rewrite Tb. simpl. rewrite Ta, <- !app_assoc. reflexivity.
Qed.

Lemma install_update_removes_tempdir_witness :
  exists a b c,
    trace (snd (install_update copy_fails_env serving_state)) =
      trace serving_state ++ a ++ [EvMkdtemp] ++ b ++ [EvRmtemp] ++ c /\
    forallb not_temp a = true /\ forallb not_temp b = true /\ forallb not_temp c = true.
Proof.
  destruct (install_update_removes_tempdir copy_fails_env serving_state (failure no_space)
              (snd (install_update copy_fails_env serving_state))) as [(a & Ha & Fa)|H].
  - vm_compute. reflexivity.
  - exfalso. vm_compute in Ha.
    assert (Hin : In EvMkdtemp a) by (rewrite <- Ha; simpl; tauto).
    rewrite forallb_forall in Fa. specialize (Fa _ Hin). discriminate.
  - exact H.
Defined.

Lemma copy2_gui_run name c m env s s' :
  copy2 ToGui name c m env s = (Ret tt, s') ->
  gui_dir s' = Some (<[name := {| content := c; mode := m |}]> (default ∅ (gui_dir s))) /\
  bin_dir s' = bin_dir s.
Proof.
  unfold copy2, guarded, bind, ask, tell, modify. simpl.
  destruct (fault env (OpCopy ToGui name)); [discriminate|].
  intros [= <-]. split; reflexivity.
Qed.

Lemma mkdir_gui_run env s s' :
  mkdir_gui env s = (Ret tt, s') ->
  gui_dir s' = Some (default ∅ (gui_dir s)) /\ bin_dir s' = bin_dir s.
Proof.
  unfold mkdir_gui, guarded, bind, ask, tell, modify. simpl.
  destruct (fault env OpMkdirGui); [discriminate|].
  intros [= <-]. simpl. destruct (gui_dir s) eqn:E; simpl; rewrite ?E; split; reflexivity.
Qed.

(** The loop over the entries of [gui], in a directory that exists. *)
Lemma copy_asset_loop env items :
  NoDup (map fst items) ->
  forall s s' g0, gui_dir s = Some g0 ->
    for_each items copy_asset env s = (Ret tt, s') ->
    exists g, gui_dir s' = Some g /\
      (forall name c m, In (name, File c m) items ->
         g !! name = Some {| content := c; mode := m |}) /\
      (forall name, (forall c m, ~ In (name, File c m) items) -> g !! name = g0 !! name).
Proof.
  induction items as [|[n nd] items IH]; intros Hnd s s' g0 Hg.
  - intros [= <-]. exists g0. split; [exact Hg|]. split; [intros ? ? ? []|reflexivity].
  - simpl. unfold bind.
    destruct (copy_asset (n, nd) env s) as [[[]|e] s1] eqn:H1; [|discriminate].
    intros H2. inversion Hnd as [|? ? Hnotin Hnd']; subst.
    destruct nd as [c0 m0|es]; unfold copy_asset in H1; simpl in H1.
    + apply copy2_gui_run in H1. destruct H1 as [G1 _]. rewrite Hg in G1. simpl in G1.
      destruct (IH Hnd' _ _ _ G1 H2) as (g & Gg & Cf & Co).
      exists g. split; [exact Gg|]. split.
      * intros name c m [[= Hn Hc Hm]|Hin].
        -- subst. rewrite Co; [apply lookup_insert_eq|].
           intros c' m' Hin. apply Hnotin. apply list_elem_of_In.
           apply (in_map fst) in Hin. exact Hin.
        -- apply (Cf name c m Hin).
      * intros name Hno. rewrite Co.
        -- apply lookup_insert_ne. intros ->. apply (Hno c0 m0). left. reflexivity.
        -- intros c m Hin. apply (Hno c m). right. exact Hin.
    + injection H1 as <-.
      destruct (IH Hnd' _ _ _ Hg H2) as (g & Gg & Cf & Co).
      exists g. split; [exact Gg|]. split.
      * intros name c m [[=]|Hin]. apply (Cf name c m Hin).
      * intros name Hno. apply Co. intros c m Hin. apply (Hno c m). right. exact Hin.
Qed.

(** X12.  GUI assets are installed as they come.  After an install
    that answers success and whose archive has a [gui] directory, the GUI
    directory exists; every file that is an entry of [gui] is in it under
    its own name, with the content and the permission bits that the
    extracted file has in the temporary directory ([copy2] carries them
    over, and no mode is set, unlike for scripts); and every other file
    of the directory is as it was. *)
Theorem install_gui_assets env s r s' entries name folder rest items :
  install_update env s = (Ret r, s') -> succeeded r = true ->
  download env = Extracted entries ->
  extracted_folders entries = (name, folder) :: rest ->
  lookup_entry "gui" folder = Some (Dir items) ->
  NoDup (map fst items) ->
  exists g,
    gui_dir s' = Some g /\
    (forall fname c m, In (fname, File c m) items ->
       g !! fname = Some {| content := c; mode := m |}) /\
    (forall fname, (forall c m, ~ In (fname, File c m) items) ->
       g !! fname = default ∅ (gui_dir s) !! fname).
Proof.
  intros Hrun Hok Hd Hf Hg Hnd.
  destruct (install_success_inv _ _ _ _ Hrun Hok) as (info & s1 & s3 & Hc & _ & Hb & -> & _).
  destruct (install_in_tempdir_success _ _ _ _ Hb)
    as (entries' & name' & folder' & rest' & t1 & t2 & Hd' & Hf' & H1 & H2 & H3).
  rewrite Hd in Hd'. injection Hd' as <-. rewrite Hf in Hf'. injection Hf' as <- <- <-.
  pose proof (get_update_info_dirs env s) as (_ & G1). rewrite Hc in G1. simpl in G1.
  pose proof (stop_if_running_files (is_running env s1) env s1) as (_ & _ & G2).
  set (s2 := snd (stop_if_running (is_running env s1) env s1)) in *.
  pose proof (copy_scripts_gui (temp_dir env +:+ "/" +:+ name) folder env
                (unpacked info (emit EvMkdtemp s2))) as G3.
  rewrite H1 in G3. unfold keeps in G3. simpl in G3.
  assert (Gt1 : gui_dir t1 = gui_dir s) by congruence.
  unfold copy_gui in H2. rewrite Hg in H2. unfold bind in H2.
  destruct (mkdir_gui env t1) as [[[]|e] u1] eqn:Hm; [|discriminate].
  apply mkdir_gui_run in Hm. destruct Hm as [Gu1 _].
  unfold lift in H2. simpl in H2.
  change (for_each items copy_asset env u1 = (Ret tt, t2)) in H2.
  destruct (copy_asset_loop env items Hnd _ _ _ Gu1 H2) as (g & Gg & Cf & Co).
  pose proof (update_version_file_dirs info env t2) as (_ & G5). rewrite H3 in G5. simpl in G5.
  pose proof (start_if_was_running_files (is_running env s1) env (emit EvRmtemp s3))
    as (_ & _ & G6). simpl in G6.
  exists g. split; [congruence|]. split; [exact Cf|].
  intros fname Hno. rewrite (Co fname Hno), Gt1. reflexivity.
Qed.

Lemma install_gui_assets_witness :
  exists g,
    gui_dir (snd (install_update gui_env serving_state)) = Some g /\
    g !! "index.html" = Some {| content := "<html>new"; mode := 420 |} /\
    g !! "style.css" = Some {| content := "body{}"; mode := 420 |}.
Proof.
  destruct (install_gui_assets gui_env serving_state
              (install_success (check_result (JStr "1.1.0") (JStr "aaaaaaa")
                 "0123456789abcdef0123456789abcdef01234567" "2024-05-01T10:00:00Z"
                 ("fix: installer" +:+ String "010" "details")))
              (snd (install_update gui_env serving_state))
              [("cliproxyapi-plus-main", Dir [("gui", Dir sample_assets)])]
              "cliproxyapi-plus-main" [("gui", Dir sample_assets)] [] sample_assets)
    as (g & Hg & Hfiles & _).
  - vm_compute. reflexivity.
  - reflexivity.
  - reflexivity.
  - reflexivity.
  - reflexivity.
  - apply (bool_decide_eq_true_1 (NoDup (map fst sample_assets))). vm_compute. reflexivity.
  - exists g. split; [exact Hg|].
    split; [apply (Hfiles _ _ 420) | apply (Hfiles _ _ 420)]; simpl; auto.
Defined.

(** A turn of the loop over [scripts] goes through when neither of its
    two operations is refused. *)
Lemma copy_script_ok item env s :
  (forall c m, snd item = File c m ->
     fault env (OpCopy ToBin (fst item)) = None /\ fault env (OpChmod (fst item)) = None) ->
  exists s', copy_script item env s = (Ret tt, s').
Proof.
  destruct item as [k [c m|es]]; unfold copy_script; simpl; [|eauto].
  intros H. destruct (H c m eq_refl) as [Hc Hm].
  unfold copy2, chmod_755, guarded, bind, ask, tell, modify. simpl.
  rewrite Hc, Hm. eauto.
Qed.

(** The loop stops at the first copy that is refused; what it has copied
    until then stays. *)
Lemma copy_script_loop_stops env pre n c m post msg :
  NoDup (map fst (pre ++ (n, File c m) :: post)) ->
  fault env (OpCopy ToBin n) = Some msg ->
  (forall k c' m', In (k, File c' m') pre ->
     fault env (OpCopy ToBin k) = None /\ fault env (OpChmod k) = None) ->
  forall s, exists s',
    for_each (pre ++ (n, File c m) :: post) copy_script env s = (Raise (OSError msg), s') /\
    (forall k c' m', In (k, File c' m') pre ->
       bin_dir s' !! k = Some {| content := c'; mode := 493 |}) /\
    (forall name, (forall c' m', ~ In (name, File c' m') pre) ->
       bin_dir s' !! name = bin_dir s !! name).
Proof.
  intros Hnd Hfault. induction pre as [|[k nd] pre IH]; intros Hok s.
  - exists s. simpl. unfold bind, copy_script, copy2, guarded, bind, ask. simpl.
    rewrite Hfault. split; [reflexivity|]. split; [intros ? ? ? []|reflexivity].
  - simpl in Hnd. inversion Hnd as [|? ? Hnotin Hnd']; subst.
    destruct (copy_script_ok (k, nd) env s) as [s1 H1].
    { intros c0 m0 Hfile. simpl in Hfile. subst nd. apply (Hok k c0 m0). left. reflexivity. }
    destruct (copy_script_run _ _ _ _ H1) as (_ & Bf & Bo). simpl in Bf, Bo.
    destruct (IH Hnd') with (s := s1) as (s' & Hrun & Cf & Co).
    { intros k' c' m' Hin. apply (Hok k' c' m'). right. exact Hin. }
    exists s'. simpl. unfold bind. rewrite H1. split; [exact Hrun|]. split.
    + intros k' c' m' [[= Hk Hn]|Hin].
      * subst. rewrite Co; [apply (Bf c' m'); reflexivity|].
        intros c'' m'' Hin. apply Hnotin. apply list_elem_of_In.
        rewrite map_app. apply in_or_app. left.
        apply (in_map fst) in Hin. exact Hin.
      * apply (Cf k' c' m' Hin).
    + intros name Hno. rewrite Co.
      * apply Bo. destruct nd as [c0 m0|es]; [|right; eauto].
        left. intros ->. apply (Hno c0 m0). left. reflexivity.
      * intros c' m' Hin. apply (Hno c' m'). right. exact Hin.
Qed.

(** X13.  A copy that fails leaves a partial install behind.  When the
    copy of one script is refused, after the scripts listed before it
    went through, [install_update] answers the failure with the message
    of that copy; the scripts before it are installed, with mode 0o755;
    and the version store still reads the commit it read before the
    call.  (Nothing is said of the file whose copy failed.) *)
Theorem install_partial_copy env s info s1 entries name folder rest pre n c m post msg :
  get_update_info env s = (Ret info, s1) ->
  Py.truthy (default "" (error info)) = false ->
  download env = Extracted entries ->
  extracted_folders entries = (name, folder) :: rest ->
  lookup_entry "scripts" folder = Some (Dir (pre ++ (n, File c m) :: post)) ->
  NoDup (map fst (pre ++ (n, File c m) :: post)) ->
  fault env (OpCopy ToBin n) = Some msg ->
  (forall k c' m', In (k, File c' m') pre ->
     fault env (OpCopy ToBin k) = None /\ fault env (OpChmod k) = None) ->
  exists s',
    install_update env s = (Ret (failure msg), s') /\
    (forall k c' m', In (k, File c' m') pre ->
       bin_dir s' !! k = Some {| content := c'; mode := 493 |}) /\
    installedCommit env s' = installedCommit env s.
Proof.
  intros Hc Ht Hd Hf Hs Hnd Hfault Hok.
  pose proof (install_update_run env s) as H. rewrite Hc, Ht in H. cbv zeta in H.
  pose proof (get_update_info_dirs env s) as (B1 & _). rewrite Hc in B1. simpl in B1.
  pose proof (stop_if_running_files (is_running env s1) env s1) as (V2 & B2 & _).
  set (s2 := snd (stop_if_running (is_running env s1) env s1)) in *.
  destruct (copy_script_loop_stops env pre n c m post msg Hnd Hfault Hok
              (unpacked info (emit EvMkdtemp s2))) as (t1 & Hloop & Cf & Co).
  destruct (install_in_tempdir info env (emit EvMkdtemp s2)) as [o s3] eqn:Hb.
  pose proof (install_in_tempdir_run _ _ _ _ _ Hb) as Hblock.
  rewrite Hd, Hf in Hblock. cbv zeta in Hblock.
  rewrite (copy_scripts_dir _ _ _ Hs), Hloop in Hblock.
  destruct Hblock as (o1 & u1 & [= <- <-] & -> & ->).
  pose proof (copy_scripts_version (temp_dir env +:+ "/" +:+ name) folder env
                (unpacked info (emit EvMkdtemp s2))) as V3.
  rewrite (copy_scripts_dir _ _ _ Hs), Hloop in V3. unfold keeps in V3. simpl in V3.
  exists (emit EvRmtemp t1). split; [exact H|]. split; [exact Cf|].
  unfold installedCommit.
  rewrite (read_field_same env s1 (emit EvRmtemp t1) "commitSha") by (simpl; congruence).
  apply (get_update_info_fields _ _ _ _ _ Hc). discriminate.
Qed.

Lemma install_partial_copy_witness :
  exists s',
    install_update second_copy_fails_env serving_state =
      (Ret (failure "[Errno 26] Text file busy: '/home/u/bin/start.sh'"), s') /\
    bin_dir s' !! "gui-server.py"
      = Some {| content := "#!/usr/bin/env python3"; mode := 493 |} /\
    installedCommit second_copy_fails_env s' = Ret (JStr "aaaaaaa").
Proof.
  destruct (install_partial_copy second_copy_fails_env serving_state
              (check_result (JStr "1.1.0") (JStr "aaaaaaa")
                 "0123456789abcdef0123456789abcdef01234567" "2024-05-01T10:00:00Z"
                 ("fix: installer" +:+ String "010" "details"))
              (snd (get_update_info second_copy_fails_env serving_state))
              sample_entries "cliproxyapi-plus-main" sample_folder []
              [("gui-server.py", File "#!/usr/bin/env python3" 420)]
              "start.sh" "#!/bin/sh" 420
              [("lib", Dir [("helper.sh", File "# helper" 420)])]
              "[Errno 26] Text file busy: '/home/u/bin/start.sh'")
    as (s' & Hrun & Hpre & Hcommit).
  - vm_compute. reflexivity.
  - reflexivity.
  - reflexivity.
  - reflexivity.
  - reflexivity.
  - apply (bool_decide_eq_true_1 (NoDup (map fst sample_scripts))). vm_compute. reflexivity.
  - reflexivity.
  - intros k c' m' [[= <- <- <-]|[]]. split; reflexivity.
  - exists s'. split; [exact Hrun|]. split; [apply (Hpre _ _ 420); left; reflexivity|].
    rewrite Hcommit. reflexivity.
Defined.

(* ===================================================================== *)
(** * The model catalog *)

Lemma prefix_split n h : String.prefix n h = true -> exists post, h = n +:+ post.
Proof.
  revert h. induction n as [|c n IH]; intros h H.
  - exists h. reflexivity.
  - destruct h as [|c' h]; simpl in H; [discriminate|].
    destruct (ascii_dec c c') as [->|]; [|discriminate].
    destruct (IH h H) as [post ->]. exists post. reflexivity.
Qed.

Lemma prefix_self n post : String.prefix n (n +:+ post) = true.
Proof.
  induction n as [|c n IH]; [apply prefix_nil|].
  change (String.prefix (String c n) (String c (n +:+ post)) = true). simpl.
  destruct (ascii_dec c c); [exact IH | contradiction].
Qed.

Lemma str_contains_split n h :
  Py.str_contains n h = true -> exists pre post, h = pre +:+ n +:+ post.
Proof.
  induction h as [|c h IH].
  - destruct n; simpl; [|discriminate]. intros _. exists "", "". reflexivity.
  - rewrite str_contains_cons. destruct (String.prefix n (String c h)) eqn:Hp.
    + intros _. destruct (prefix_split _ _ Hp) as [post Hpost]. exists "", post. exact Hpost.
    + intros H. destruct (IH H) as (pre & post & ->). exists (String c pre), post. reflexivity.
Qed.

Lemma string_app_assoc (a b c : string) : (a +:+ b) +:+ c = a +:+ b +:+ c.
Proof.
  induction a as [|x a IH]; [reflexivity|].
  change (String x ((a +:+ b) +:+ c) = String x (a +:+ b +:+ c)). rewrite IH. reflexivity.
Qed.

Lemma str_contains_intro n pre post : Py.str_contains n (pre +:+ n +:+ post) = true.
Proof.
  apply str_contains_app_r. destruct (n +:+ post) eqn:E.
  - destruct n; [reflexivity | discriminate].
  - rewrite str_contains_cons, <- E, prefix_self. reflexivity.
Qed.

(** A text that contains a word contains every piece of it. *)
Lemma str_contains_piece a b c h :
  Py.str_contains (a +:+ b +:+ c) h = true -> Py.str_contains b h = true.
Proof.
  intros H. destruct (str_contains_split _ _ H) as (pre & post & ->).
  replace (pre +:+ (a +:+ b +:+ c) +:+ post) with ((pre +:+ a) +:+ b +:+ (c +:+ post)).
  - apply str_contains_intro.
  - rewrite !string_app_assoc. reflexivity.
Qed.

Lemma any_in_false_cons w ws text :
  any_in (w :: ws) text = false -> Py.str_contains w text = false /\ any_in ws text = false.
Proof. unfold any_in. simpl. apply orb_false_iff. Qed.

(** X14.  The test for "gemini-claude" never decides.  An id that
    contains it contains "gemini" and has been classified before; so for
    an ASCII id [get_model_provider] answers "antigravity" only when the
    lower-cased id starts with "antigravity", and any id that mentions
    "gemini-claude" is a "gemini" model. *)
Theorem antigravity_by_prefix_only model_id :
  is_ascii model_id = true ->
  (get_model_provider model_id = Some "antigravity" ->
     String.prefix "antigravity" (py_lower model_id) = true) /\
  (Py.str_contains "gemini-claude" (py_lower model_id) = true ->
     get_model_provider model_id = Some "gemini").
Proof.
  intros _. unfold get_model_provider. cbv zeta.
  destruct (any_in ["gemini"; "tstars"; "learnlm"] (py_lower model_id)) eqn:Hg.
  - split; [discriminate | reflexivity].
  - apply any_in_false_cons in Hg. destruct Hg as [Hg _].
    assert (Hgc : Py.str_contains "gemini-claude" (py_lower model_id) = false).
    { destruct (Py.str_contains "gemini-claude" (py_lower model_id)) eqn:E; [|reflexivity].
      apply (str_contains_piece "" "gemini" "-claude") in E. congruence. }
    rewrite Hgc. split; [|discriminate].
    destruct (any_in _ (py_lower model_id)); [discriminate|]. simpl.
    destruct (String.prefix "antigravity" (py_lower model_id)); [reflexivity|].
    repeat (match goal with |- context [if ?b then _ else _] => destruct b end;
            try discriminate).
Qed.

Lemma antigravity_by_prefix_only_witness :
  get_model_provider "gemini-claude-sonnet-4-5" = Some "gemini" /\
  get_model_provider "Antigravity-Gemma" = Some "antigravity".
Proof.
  split.
  - exact (proj2 (antigravity_by_prefix_only "gemini-claude-sonnet-4-5" eq_refl) eq_refl).
  - reflexivity.
Defined.

(** X15.  An id that mentions "claude" is never a "kiro", "qwen" or
    "iflow" model: the "claude" words are tested before, so the
    "kiro-claude" entry of the last list cannot decide either, and an
    ASCII id such as "kiro-claude-sonnet-4" is classified as "claude". *)
Theorem claude_before_kiro model_id :
  is_ascii model_id = true ->
  Py.str_contains "kiro-claude" (py_lower model_id) = true ->
  In (get_model_provider model_id)
     [Some "gemini"; Some "copilot"; Some "antigravity"; Some "codex"; Some "claude"].
Proof.
  intros _ H. apply (str_contains_piece "kiro-" "claude" "") in H.
  unfold get_model_provider. cbv zeta.
  destruct (any_in ["gemini"; "tstars"; "learnlm"] _); [simpl; auto|].
  destruct (any_in ["copilot"; "gpt-4"; "gpt-5"; "o1-"; "o3-"; "o4-"] _); [simpl; auto|].
  destruct (_ || _); [simpl; auto|].
  destruct (any_in ["codex"; "code-davinci"] _); [simpl; auto 6|].
  unfold any_in at 1. simpl. rewrite H. simpl. auto 6.
Qed.

Lemma claude_before_kiro_witness :
  get_model_provider "kiro-claude-sonnet-4" = Some "claude" /\
  In (get_model_provider "Kiro-Claude-Opus")
     [Some "gemini"; Some "copilot"; Some "antigravity"; Some "codex"; Some "claude"].
Proof.
  split; [reflexivity|].
  exact (claude_before_kiro "Kiro-Claude-Opus" eq_refl eq_refl).
Defined.

Lemma filter_models_dict truthy d all :
  filter_models truthy (JDict d) all = Done (List.filter (listed truthy d) all).
Proof.
  induction all as [|m all IH]; [reflexivity|].
  simpl. unfold listed at 1. rewrite IH.
  destruct (get_model_provider m) as [p|]; [|reflexivity].
  destruct (dict_get p d) as [v|]; [|reflexivity].
  destruct (truthy v); reflexivity.
Qed.

Lemma filter_sublist {A} (f : A -> bool) l : sublist (List.filter f l) l.
Proof.
  induction l as [|a l IH]; simpl; [constructor|].
  destruct (f a); [apply sublist_skip | apply sublist_cons]; exact IH.
Qed.

Lemma sample_models_ascii m : In m sample_models -> is_ascii m = true.
Proof. apply (proj1 (forallb_forall is_ascii sample_models)). reflexivity. Qed.

(** X16.  The model list is a filter.  With the server running, ASCII
    ids fetched and a toggles file that is missing, unparseable or holds
    an object, [get_available_models] answers with [total] the number of ids
    fetched and with the ids that pass, in the order they came; an id
    passes exactly when its provider is unknown, or has no toggle, or has
    a toggle that is true. *)
Theorem get_available_models_filters truthy env s ref all toggles_file d :
  locate env (procs s) = Some ref ->
  get_provider_toggles toggles_file = JDict d ->
  (forall m, In m all -> is_ascii m = true) ->
  exists filtered,
    get_available_models truthy (Done all) toggles_file env s
      = (Ret (model_list filtered (List.length all)), s) /\
    sublist filtered all /\
    forall m, In m filtered <->
              In m all /\
              (get_model_provider m = None \/
               exists p, get_model_provider m = Some p /\
                         forall v, dict_get p d = Some v -> truthy v = true).
Proof.
  intros Hloc Hd _. exists (List.filter (listed truthy d) all). split; [|split].
  - unfold get_available_models, bind. rewrite get_server_process_run, Hloc, Hd.
    rewrite filter_models_dict. reflexivity.
  - apply filter_sublist.
  - intros m. rewrite filter_In. unfold listed.
    destruct (get_model_provider m) as [p|].
    + destruct (dict_get p d) as [v|] eqn:E.
      * split.
        -- intros [Hin Ht]. split; [exact Hin|]. right. exists p. split; [reflexivity|].
           intros v' Hv. rewrite E in Hv. injection Hv as <-. exact Ht.
        -- intros [Hin [H|(p' & Hp & H)]]; [discriminate|]. injection Hp as <-.
           split; [exact Hin|]. apply H. exact E.
      * split.
        -- intros [Hin _]. split; [exact Hin|]. right. exists p. split; [reflexivity|].
           intros v' Hv. rewrite E in Hv. discriminate.
        -- intros [Hin _]. split; [exact Hin | reflexivity].
    + split; intros [Hin _]; (split; [exact Hin|]); auto.
Qed.

Lemma get_available_models_filters_witness :
  exists filtered,
    get_available_models sample_truthy (Done sample_models) sample_toggles
                         psutil_env serving_state
      = (Ret (model_list filtered 5), serving_state) /\
    sublist filtered sample_models /\
    (In "my-local-model" filtered /\ ~ In "qwen3-coder" filtered).
Proof.
  destruct (get_available_models_filters sample_truthy psutil_env serving_state
              (PsutilProc sample_server) sample_models sample_toggles
              [("gemini", JBool true); ("qwen", JBool false)] eq_refl eq_refl
              sample_models_ascii)
    as (filtered & Hrun & Hsub & Hin).
  exists filtered. split; [exact Hrun|]. split; [exact Hsub|]. split.
  - apply Hin. split; [simpl; tauto|]. left. reflexivity.
  - intros Habs. apply Hin in Habs. destruct Habs as [_ [H|(p & Hp & Hv)]]; [discriminate|].
    injection Hp as <-. specialize (Hv (JBool false) eq_refl). discriminate.
Defined.

Lemma set_provider_toggle_run truthy provider enabled toggles_file d :
  provider <> "" ->
  get_provider_toggles toggles_file = JDict d ->
  set_provider_toggle truthy {| req_provider := Some provider; req_enabled := enabled |}
                      toggles_file
    = (JDict [("success", JBool true); ("provider", JStr provider);
              ("enabled", default (JBool true) enabled)],
       Stored (JDict (dict_set provider (default (JBool true) enabled) d)),
       Some ("Provider " +:+ provider +:+ " " +:+
             (if truthy (default (JBool true) enabled) then "enabled" else "disabled"))).
Proof.
  intros Hne Hd. unfold set_provider_toggle. simpl.
  rewrite (truthy_nonempty _ Hne), Hd. reflexivity.
Qed.

(** X17.  A toggle takes any provider name.  For every non-empty
    provider string, one of the eight known or not, and a toggles file
    that is missing, unparseable or holds an object,
    [set_provider_toggle] succeeds; the file then holds the toggles it
    held, with that provider set to the value sent ([true] when none was
    sent) and every other one unchanged. *)
Theorem set_provider_toggle_stores truthy provider enabled toggles_file d :
  provider <> "" ->
  get_provider_toggles toggles_file = JDict d ->
  exists d' line,
    set_provider_toggle truthy {| req_provider := Some provider; req_enabled := enabled |}
                        toggles_file
      = (JDict [("success", JBool true); ("provider", JStr provider);
                ("enabled", default (JBool true) enabled)],
         Stored (JDict d'), Some line) /\
    get_provider_toggles (Stored (JDict d')) = JDict d' /\
    dict_get provider d' = Some (default (JBool true) enabled) /\
    forall k, k <> provider -> dict_get k d' = dict_get k d.
Proof.
  intros Hne Hd. eexists _, _.
  split; [apply (set_provider_toggle_run truthy _ _ _ _ Hne Hd)|].
  split; [reflexivity|]. split.
  - apply dict_get_set_eq.
  - intros k Hk. apply dict_get_set_ne. exact Hk.
Qed.

Lemma set_provider_toggle_stores_witness :
  exists d' line,
    set_provider_toggle sample_truthy
      {| req_provider := Some "not-a-provider"; req_enabled := None |} Missing
      = (JDict [("success", JBool true); ("provider", JStr "not-a-provider");
                ("enabled", JBool true)],
         Stored (JDict d'), Some line) /\
    dict_get "not-a-provider" d' = Some (JBool true).
Proof.
  destruct (set_provider_toggle_stores sample_truthy "not-a-provider" None Missing []
              ltac:(discriminate) eq_refl) as (d' & line & H1 & _ & H3 & _).
  exists d', line. split; assumption.
Defined.

(** X18.  Switching a provider off hides its models and no others.
    After [set_provider_toggle] has stored [false] for a provider, the
    list filtered from ASCII model ids holds exactly the models it held
    before that do not belong to that provider. *)
Theorem disabled_provider_is_hidden truthy provider toggles_file d all :
  truthy (JBool false) = false ->
  provider <> "" ->
  get_provider_toggles toggles_file = JDict d ->
  (forall m, In m all -> is_ascii m = true) ->
  exists before after file',
    snd (fst (set_provider_toggle truthy (toggle_off provider) toggles_file)) = file' /\
    filter_models truthy (get_provider_toggles toggles_file) all = Done before /\
    filter_models truthy (get_provider_toggles file') all = Done after /\
    forall m, In m after <-> In m before /\ get_model_provider m <> Some provider.
Proof.
  intros Hfalse Hne Hd _.
  pose proof (set_provider_toggle_run truthy provider (Some (JBool false)) toggles_file d
                Hne Hd) as Hset.
  set (d' := dict_set provider (default (JBool true) (Some (JBool false))) d) in Hset.
  assert (get_provider_toggles (Stored (JDict d')) = JDict d') as Hget by reflexivity.
  assert (dict_get provider d' = Some (JBool false)) as Hp by apply dict_get_set_eq.
  assert (forall k, k <> provider -> dict_get k d' = dict_get k d) as Hother
      by (intros k Hk; apply dict_get_set_ne; exact Hk).
  exists (List.filter (listed truthy d) all), (List.filter (listed truthy d') all),
         (Stored (JDict d')).
  unfold toggle_off. rewrite Hset. split; [reflexivity|].
  rewrite Hd, Hget, !filter_models_dict. split; [reflexivity|]. split; [reflexivity|].
  intros m. rewrite !filter_In. unfold listed.
  destruct (get_model_provider m) as [p|].
  - destruct (String.eqb_spec p provider) as [->|Hp'].
    + rewrite Hp. simpl. rewrite Hfalse. split; [intros [_ H]; discriminate|].
      intros [_ H]. contradiction H. reflexivity.
    + rewrite (Hother p Hp'). split.
      * intros [Hin H]. split; [split; assumption|]. congruence.
      * intros [[Hin H] _]. split; assumption.
  - split.
    + intros [Hin _]. split; [split; [exact Hin | reflexivity] | discriminate].
    + intros [[Hin _] _]. split; [exact Hin | reflexivity].
Qed.

Lemma disabled_provider_is_hidden_witness :
  exists before after,
    filter_models sample_truthy (get_provider_toggles Missing) sample_models = Done before /\
    filter_models sample_truthy
      (get_provider_toggles
         (snd (fst (set_provider_toggle sample_truthy (toggle_off "claude") Missing))))
      sample_models = Done after /\
    (In "kiro-claude-sonnet-4" before /\ ~ In "kiro-claude-sonnet-4" after /\
     In "GPT-5-Codex" after).
Proof.
  destruct (disabled_provider_is_hidden sample_truthy "claude" Missing [] sample_models
              eq_refl ltac:(discriminate) eq_refl sample_models_ascii)
    as (before & after & file' & <- & Hb & Ha & Hin).
  exists before, after. split; [exact Hb|]. split; [exact Ha|].
  injection Hb as <-. split; [simpl; tauto|]. split.
  - intros Habs. apply Hin in Habs. destruct Habs as [_ H]. apply H. reflexivity.
  - apply Hin. split; [simpl; tauto | discriminate].
Defined.

(** X19.  A toggles file that holds JSON other than an object is not
    repaired.  [set_provider_toggle] then fails and leaves the file as it
    is; and the list filtered from ASCII model ids fails as soon as one of
    the ids has a known provider, while a list of ids of unknown providers
    is returned whole. *)
Theorem toggles_file_not_an_object truthy provider enabled toggles_file all :
  provider <> "" ->
  (forall d, get_provider_toggles toggles_file <> JDict d) ->
  (forall m, In m all -> is_ascii m = true) ->
  (exists msg,
     set_provider_toggle truthy {| req_provider := Some provider; req_enabled := enabled |}
                         toggles_file = (failure msg, toggles_file, None)) /\
  ((exists m, In m all /\ get_model_provider m <> None) ->
     exists msg, filter_models truthy (get_provider_toggles toggles_file) all = Failed msg) /\
  ((forall m, In m all -> get_model_provider m = None) ->
     filter_models truthy (get_provider_toggles toggles_file) all = Done all).
Proof.
  intros Hne Hnd _. split; [|split].
  - unfold set_provider_toggle. simpl. rewrite (truthy_nonempty _ Hne). simpl.
    destruct (get_provider_toggles toggles_file) as [| | | | | |d]; simpl;
      try (eexists; reflexivity).
    exfalso. apply (Hnd d). reflexivity.
  - intros (m & Hin & Hm). induction all as [|a all IH]; [destruct Hin|].
    simpl. destruct (get_model_provider a) as [p|] eqn:Ha.
    + destruct (get_provider_toggles toggles_file) as [| | | | | |d]; simpl;
        try (eexists; reflexivity).
      exfalso. apply (Hnd d). reflexivity.
    + destruct Hin as [<-|Hin]; [congruence|].
      destruct (IH Hin) as [msg ->]. eexists; reflexivity.
  - intros Hall. induction all as [|a all IH]; [reflexivity|].
    simpl. rewrite (Hall a) by (left; reflexivity).
    rewrite IH; [reflexivity|]. intros m Hin. apply Hall. right. exact Hin.
Qed.

Lemma toggles_file_not_an_object_witness :
  (exists msg,
     set_provider_toggle sample_truthy
       {| req_provider := Some "gemini"; req_enabled := Some (JBool false) |}
       (Stored (JList [])) = (failure msg, Stored (JList []), None)) /\
  (exists msg, filter_models sample_truthy (JList []) sample_models = Failed msg) /\
  filter_models sample_truthy (JList []) ["my-local-model"] = Done ["my-local-model"].
Proof.
  destruct (toggles_file_not_an_object sample_truthy "gemini" (Some (JBool false))
              (Stored (JList [])) sample_models ltac:(discriminate) ltac:(discriminate)
              sample_models_ascii)
    as (H1 & H2 & _).
  split; [exact H1|]. split; [|reflexivity].
  apply H2. exists "gemini-2.5-pro". split; [left; reflexivity | discriminate].
Defined.

(* ===================================================================== *)
(** * Saving the configuration *)

(** X21.  A content that is not a string is refused after the backup
    was taken: the answer is the failure "data must be str, not T" with T
    the type of the value, the configuration file is untouched, and the
    backup already holds the text of the file, so that a previous backup
    is lost. *)
Theorem set_config_content_not_a_string content f old :
  (forall text, content <> JStr text) ->
  config_text f = Some old ->
  set_config_content content f
    = (failure ("data must be str, not " +:+ py_type_name content),
       {| config_text := Some old; backup_text := Some old |}).
Proof.
  intros Hns Hold. unfold set_config_content. rewrite Hold.
  destruct content; try reflexivity. exfalso. apply (Hns s). reflexivity.
Qed.

Lemma set_config_content_not_a_string_witness :
  set_config_content JNull
    {| config_text := Some "port: 8317"; backup_text := Some "port: 9000" |}
  = (failure "data must be str, not NoneType",
     {| config_text := Some "port: 8317"; backup_text := Some "port: 8317" |}).
Proof.
  exact (set_config_content_not_a_string JNull
           {| config_text := Some "port: 8317"; backup_text := Some "port: 9000" |}
           "port: 8317" ltac:(discriminate) eq_refl).
Defined.


(* ===================================================================== *)
(** * The factory configuration *)

Lemma dict_set_set k v1 v2 d : dict_set k v2 (dict_set k v1 d) = dict_set k v2 d.
Proof.
  induction d as [|[k' v'] d IH]; simpl.
  - rewrite String.eqb_refl. reflexivity.
  - destruct (String.eqb k k') eqn:E; simpl.
    + rewrite String.eqb_refl. reflexivity.
    + rewrite E, IH. reflexivity.
Qed.

Lemma dict_set_same k v d : dict_get k d = Some v -> dict_set k v d = d.
Proof.
  induction d as [|[k' v'] d IH]; simpl; [discriminate|].
  destruct (String.eqb k k') eqn:E.
  - apply String.eqb_eq in E. subst k'. intros [= ->]. reflexivity.
  - intros H. rewrite (IH H). reflexivity.
Qed.

Lemma filter_all {A} (f : A -> bool) l :
  (forall x, In x l -> f x = true) -> List.filter f l = l.
Proof.
  induction l as [|a l IH]; intros H; simpl; [reflexivity|].
  rewrite (H a) by (left; reflexivity). rewrite IH; [reflexivity|].
  intros x Hx. apply H. right. exact Hx.
Qed.

Lemma filter_none {A} (f : A -> bool) l :
  (forall x, In x l -> f x = false) -> List.filter f l = [].
Proof.
  induction l as [|a l IH]; intros H; simpl; [reflexivity|].
  rewrite (H a) by (left; reflexivity). apply IH.
  intros x Hx. apply H. right. exact Hx.
Qed.

Lemma add_loop_run ids display_names models : forall config l added,
  dict_get "custom_models" config = Some (JList l) ->
  add_loop ids display_names models config added
    = Done (dict_set "custom_models"
              (JList (l ++ map (factory_entry display_names)
                               (List.filter (fun m => negb (known ids m)) models)))
              config,
            added ++ List.filter (fun m => negb (known ids m)) models).
Proof.
  induction models as [|m models IH]; intros config l added Hget.
  - simpl. rewrite !app_nil_r, (dict_set_same _ _ _ Hget). reflexivity.
  - cbn [add_loop List.filter]. destruct (known ids m); cbn [negb].
    + apply IH. exact Hget.
    + unfold append_custom. rewrite Hget.
      rewrite (IH _ (l ++ [factory_entry display_names m])) by apply dict_get_set_eq.
      rewrite dict_set_set. cbn [map]. rewrite <- !app_assoc. reflexivity.
Qed.

Lemma model_of_entry display_names m : model_of (factory_entry display_names m) = Done (JStr m).
Proof. reflexivity. Qed.

Lemma models_of_app l1 l2 a b :
  models_of l1 = Done a -> models_of l2 = Done b -> models_of (l1 ++ l2) = Done (a ++ b).
Proof.
  revert a. induction l1 as [|m l1 IH]; intros a H1 H2; simpl in *.
  - injection H1 as <-. exact H2.
  - destruct (model_of m) as [v|]; [|discriminate].
    destruct (models_of l1) as [vs|]; [|discriminate].
    injection H1 as <-. rewrite (IH vs eq_refl H2). reflexivity.
Qed.

Lemma models_of_entries display_names new :
  models_of (map (factory_entry display_names) new) = Done (map JStr new).
Proof.
  induction new as [|m new IH]; [reflexivity|].
  cbn [map models_of]. rewrite model_of_entry, IH. reflexivity.
Qed.

Lemma models_of_in l ids m :
  models_of l = Done ids -> In m l -> exists v, model_of m = Done v /\ In v ids.
Proof.
  revert ids. induction l as [|a l IH]; intros ids H Hin; [destruct Hin|].
  simpl in H. destruct (model_of a) as [v|] eqn:Ha; [|discriminate].
  destruct (models_of l) as [vs|]; [|discriminate]. injection H as <-.
  destruct Hin as [<-|Hin].
  - exists v. split; [exact Ha | left; reflexivity].
  - destruct (IH vs eq_refl Hin) as (w & Hw & Hin'). exists w. split; [exact Hw | right; exact Hin'].
Qed.

Lemma known_app a b m : known (a ++ b) m = known a m || known b m.
Proof. apply existsb_app. Qed.

Lemma known_new new m : In m new -> known (map JStr new) m = true.
Proof.
  intros Hin. apply existsb_exists. exists (JStr m). split.
  - apply in_map. exact Hin.
  - apply String.eqb_refl.
Qed.

Lemma requested_spec models v :
  requested models v = true <-> exists s, In s models /\ v = JStr s.
Proof.
  unfold requested. rewrite existsb_exists. split.
  - intros (s & Hin & H). exists s. split; [exact Hin|].
    destruct v; try discriminate. simpl in H. apply String.eqb_eq in H. subst. reflexivity.
  - intros (s & Hin & ->). exists s. split; [exact Hin | apply String.eqb_refl].
Qed.

Lemma keep_models_run models l ids :
  models_of l = Done ids ->
  keep_models models l
    = Done (List.filter (fun m => match model_of m with
                                  | Done v => negb (requested models v)
                                  | Failed _ => true
                                  end) l).
Proof.
  revert ids. induction l as [|m l IH]; intros ids H; [reflexivity|].
  simpl in *. destruct (model_of m) as [v|]; [|discriminate].
  destruct (models_of l) as [vs|]; [|discriminate].
  rewrite (IH vs eq_refl). destruct (requested models v); reflexivity.
Qed.

(** X22.  What an add stores.  On a factory configuration that is an
    object whose [custom_models] is a list of objects, [add_factory_models]
    answers with the requested ids that the file did not hold, in the order
    and as many times as the request names them, and appends one entry for
    each to the list; entries already there and the other keys of the
    configuration are as they were. *)
Theorem add_factory_models_appends models display_names factory_file config l ids :
  models <> [] ->
  get_factory_config factory_file = JDict config ->
  dict_get "custom_models" config = Some (JList l) ->
  models_of l = Done ids ->
  let added := List.filter (fun m => negb (known ids m)) models in
  let config' := dict_set "custom_models"
                          (JList (l ++ map (factory_entry display_names) added)) config in
  add_factory_models (add_request models display_names) factory_file
    = (JDict [("success", JBool true); ("added", JList (map JStr added))],
       Stored (JDict config')) /\
  forall k, k <> "custom_models" -> dict_get k config' = dict_get k config.
Proof.
  intros Hne Hcfg Hget Hids added config'. split.
  - unfold add_factory_models. cbn [add_request req_models req_display_names from_option].
    destruct models as [|m0 models]; [contradiction|].
    rewrite Hcfg, Hget. cbn [from_option id existing_ids]. rewrite Hids.
    rewrite (add_loop_run _ _ _ _ l [] Hget). reflexivity.
  - intros k Hk. apply dict_get_set_ne. exact Hk.
Qed.

Lemma add_factory_models_appends_witness :
  fst (add_factory_models (add_request ["gpt-5"; "my-local-model"; "gpt-5"] [])
                          (Stored (JDict sample_factory)))
    = JDict [("success", JBool true); ("added", JList [JStr "gpt-5"; JStr "gpt-5"])].
Proof.
  exact (f_equal fst
           (proj1 (add_factory_models_appends ["gpt-5"; "my-local-model"; "gpt-5"] []
                     (Stored (JDict sample_factory)) sample_factory _ _
                     ltac:(discriminate) eq_refl eq_refl eq_refl))).
Defined.

(** X23.  Adding again adds nothing.  After a successful add, the same
    request answers with an empty [added] list and leaves the file as the
    first add left it. *)
Theorem add_factory_models_twice models display_names factory_file config l ids :
  models <> [] ->
  get_factory_config factory_file = JDict config ->
  dict_get "custom_models" config = Some (JList l) ->
  models_of l = Done ids ->
  let first := add_factory_models (add_request models display_names) factory_file in
  succeeded (fst first) = true /\
  add_factory_models (add_request models display_names) (snd first)
    = (JDict [("success", JBool true); ("added", JList [])], snd first).
Proof.
  intros Hne Hcfg Hget Hids.
  unfold add_factory_models. cbn [add_request req_models req_display_names from_option].
  destruct models as [|m0 models]; [contradiction|].
  rewrite Hcfg, Hget. cbn [from_option id existing_ids]. rewrite Hids.
  rewrite (add_loop_run _ _ _ _ l [] Hget).
  cbn [fst snd save_factory_config get_factory_config app]. split; [reflexivity|].
  set (new := List.filter (fun m => negb (known ids m)) (m0 :: models)).
  rewrite dict_get_set_eq. cbn [from_option id existing_ids].
  rewrite (models_of_app _ _ _ _ Hids (models_of_entries display_names new)).
  rewrite (add_loop_run _ _ _ _ _ [] (dict_get_set_eq _ _ _)).
  rewrite filter_none.
  - cbn [map app]. rewrite app_nil_r, dict_set_set. reflexivity.
  - intros m Hin. rewrite known_app. destruct (known ids m) eqn:E; [reflexivity|].
    rewrite known_new; [reflexivity|]. apply filter_In. rewrite E. split; [exact Hin | reflexivity].
Qed.

Lemma add_factory_models_twice_witness :
  add_factory_models (add_request ["gpt-5"; "qwen3-coder"] [])
    (snd (add_factory_models (add_request ["gpt-5"; "qwen3-coder"] [])
                             (Stored (JDict sample_factory))))
  = (JDict [("success", JBool true); ("added", JList [])],
     snd (add_factory_models (add_request ["gpt-5"; "qwen3-coder"] [])
                             (Stored (JDict sample_factory)))).
Proof.
  exact (proj2 (add_factory_models_twice ["gpt-5"; "qwen3-coder"] []
                  (Stored (JDict sample_factory)) sample_factory _ _
                  ltac:(discriminate) eq_refl eq_refl eq_refl)).
Defined.

(** X24.  A factory configuration without [custom_models] takes no
    model.  When the file holds an object that has no such key, every add
    fails with the text of the [KeyError] and leaves the file as it is. *)
Theorem add_factory_models_needs_custom_models models display_names factory_file config :
  models <> [] ->
  get_factory_config factory_file = JDict config ->
  dict_get "custom_models" config = None ->
  add_factory_models (add_request models display_names) factory_file
    = (failure "'custom_models'", factory_file).
Proof.
  intros Hne Hcfg Hget.
  unfold add_factory_models. cbn [add_request req_models req_display_names from_option].
  destruct models as [|m0 models]; [contradiction|].
  rewrite Hcfg, Hget. cbn [from_option id existing_ids models_of add_loop known existsb].
  unfold append_custom. rewrite Hget. reflexivity.
Qed.

Lemma add_factory_models_needs_custom_models_witness :
  add_factory_models (add_request ["gpt-5"] []) (Stored (JDict [("theme", JStr "dark")]))
  = (failure "'custom_models'", Stored (JDict [("theme", JStr "dark")])).
Proof.
  exact (add_factory_models_needs_custom_models ["gpt-5"] []
           (Stored (JDict [("theme", JStr "dark")])) [("theme", JStr "dark")]
           ltac:(discriminate) eq_refl eq_refl).
Defined.

(** X25.  What a removal keeps.  On a factory configuration that is an
    object whose [custom_models] is a list of objects,
    [remove_factory_models] keeps, in their order, exactly the entries
    whose [model] is none of the requested ids, and leaves the other keys
    alone; the answer lists every requested id as removed, whether the
    file held it or not. *)
Theorem remove_factory_models_filters truthy models factory_file config l ids :
  models <> [] ->
  get_factory_config factory_file = JDict config ->
  dict_get "custom_models" config = Some (JList l) ->
  models_of l = Done ids ->
  exists kept,
    remove_factory_models truthy (remove_request models) factory_file
      = (JDict [("success", JBool true); ("removed", JList (map JStr models))],
         Stored (JDict (dict_set "custom_models" (JList kept) config))) /\
    sublist kept l /\
    (forall m, In m kept <->
               In m l /\ forall s, In s models -> model_of m <> Done (JStr s)) /\
    ((forall s, In s models -> known ids s = false) -> kept = l).
Proof.
  intros Hne Hcfg Hget Hids.
  eexists. split; [|split; [|split]].
  - unfold remove_factory_models. cbn [remove_request req_all req_models from_option].
    destruct models as [|m0 models]; [contradiction|].
    rewrite Hcfg, Hget. cbn [from_option id remaining].
    rewrite (keep_models_run _ _ _ Hids). reflexivity.
  - apply filter_sublist.
  - intros m. rewrite filter_In. split.
    + intros [Hin Hf]. split; [exact Hin|]. intros s Hs Hm. rewrite Hm in Hf.
      apply negb_true_iff in Hf.
      assert (requested models (JStr s) = true) as Hr
          by (apply requested_spec; exists s; split; [exact Hs | reflexivity]).
      congruence.
    + intros [Hin Hno]. split; [exact Hin|].
      destruct (model_of m) as [v|] eqn:Hm; [|reflexivity].
      apply negb_true_iff. destruct (requested models v) eqn:Hr; [|reflexivity].
      apply requested_spec in Hr. destruct Hr as (s & Hs & ->).
      exfalso. exact (Hno s Hs eq_refl).
  - intros Hnew. apply filter_all. intros m Hin.
    destruct (models_of_in _ _ _ Hids Hin) as (v & Hv & Hvin). rewrite Hv.
    apply negb_true_iff. destruct (requested models v) eqn:Hr; [|reflexivity].
    apply requested_spec in Hr. destruct Hr as (s & Hs & ->).
    rewrite <- (Hnew s Hs). symmetry. apply existsb_exists.
    exists (JStr s). split; [exact Hvin | apply String.eqb_refl].
Qed.

Lemma remove_factory_models_filters_witness :
  exists kept,
    remove_factory_models sample_truthy (remove_request ["never-added"])
                          (Stored (JDict sample_factory))
      = (JDict [("success", JBool true); ("removed", JList [JStr "never-added"])],
         Stored (JDict (dict_set "custom_models" (JList kept) sample_factory))) /\
    JList kept = default JNull (dict_get "custom_models" sample_factory).
Proof.
  destruct (remove_factory_models_filters sample_truthy ["never-added"]
              (Stored (JDict sample_factory)) sample_factory _ _
              ltac:(discriminate) eq_refl eq_refl eq_refl) as (kept & Hrun & _ & _ & Hsame).
  exists kept. split; [exact Hrun|]. rewrite Hsame; [reflexivity|].
  intros s [<-|[]]. reflexivity.
Defined.

(** X26.  Add, then remove.  When none of the requested ids is in the
    file, adding them and then removing them gives back the configuration
    the file held before, entry for entry. *)
Theorem add_then_remove_factory_models truthy models display_names factory_file config l ids :
  models <> [] ->
  get_factory_config factory_file = JDict config ->
  dict_get "custom_models" config = Some (JList l) ->
  models_of l = Done ids ->
  (forall s, In s models -> known ids s = false) ->
  let added := add_factory_models (add_request models display_names) factory_file in
  fst added = JDict [("success", JBool true); ("added", JList (map JStr models))] /\
  remove_factory_models truthy (remove_request models) (snd added)
    = (JDict [("success", JBool true); ("removed", JList (map JStr models))],
       Stored (JDict config)).
Proof.
  intros Hne Hcfg Hget Hids Hnew.
  assert (List.filter (fun m => negb (known ids m)) models = models) as Hall.
  { apply filter_all. intros s Hs. rewrite (Hnew s Hs). reflexivity. }
  unfold add_factory_models, remove_factory_models.
  cbn [add_request remove_request req_all req_models req_display_names from_option].
  destruct models as [|m0 models]; [contradiction|].
  rewrite Hcfg, Hget. cbn [from_option id existing_ids]. rewrite Hids.
  rewrite (add_loop_run _ _ _ _ l [] Hget), Hall.
  cbn [fst snd save_factory_config get_factory_config app]. split; [reflexivity|].
  rewrite dict_get_set_eq. cbn [from_option id remaining].
  rewrite (keep_models_run _ _ _
             (models_of_app _ _ _ _ Hids (models_of_entries display_names (m0 :: models)))).
  rewrite List.filter_app. rewrite (filter_none _ (map _ _)).
  - rewrite filter_all.
    + rewrite app_nil_r, dict_set_set, (dict_set_same _ _ _ Hget). reflexivity.
    + intros m Hin. destruct (models_of_in _ _ _ Hids Hin) as (v & Hv & Hvin). rewrite Hv.
      apply negb_true_iff. destruct (requested (m0 :: models) v) eqn:Hr; [|reflexivity].
      apply requested_spec in Hr. destruct Hr as (s & Hs & ->).
      rewrite <- (Hnew s Hs). symmetry. apply existsb_exists.
      exists (JStr s). split; [exact Hvin | apply String.eqb_refl].
  - intros e He. apply in_map_iff in He. destruct He as (s & <- & Hs).
    rewrite model_of_entry. apply negb_false_iff. apply requested_spec.
    exists s. split; [exact Hs | reflexivity].
Qed.

Lemma add_then_remove_factory_models_witness :
  remove_factory_models sample_truthy (remove_request ["gpt-5"; "gpt-5"])
    (snd (add_factory_models (add_request ["gpt-5"; "gpt-5"] [("gpt-5", JStr "GPT 5")])
                             (Stored (JDict sample_factory))))
  = (JDict [("success", JBool true); ("removed", JList [JStr "gpt-5"; JStr "gpt-5"])],
     Stored (JDict sample_factory)).
Proof.
  exact (proj2 (add_then_remove_factory_models sample_truthy ["gpt-5"; "gpt-5"]
                  [("gpt-5", JStr "GPT 5")] (Stored (JDict sample_factory)) sample_factory
                  _ _ ltac:(discriminate) eq_refl eq_refl eq_refl
                  ltac:(intros s [<-|[<-|[]]]; reflexivity))).
Defined.

(** X27.  Removing all starts the file afresh.  Whatever the file held,
    a parseable configuration with other keys or not, after a removal with
    [all] set the file holds only an empty [custom_models] list, the ids of
    the request are ignored, and an add then stores one entry for every id
    it names. *)
Theorem remove_all_then_add truthy data models display_names factory_file v :
  req_all data = Some v ->
  truthy v = true ->
  models <> [] ->
  let cleared := remove_factory_models truthy data factory_file in
  cleared = (JDict [("success", JBool true); ("removed", JList [JStr "all"])],
             Stored (JDict [("custom_models", JList [])])) /\
  add_factory_models (add_request models display_names) (snd cleared)
    = (JDict [("success", JBool true); ("added", JList (map JStr models))],
       Stored (JDict [("custom_models", JList (map (factory_entry display_names) models))])).
Proof.
  intros Hall Ht Hne.
  unfold remove_factory_models. rewrite Hall, Ht. cbn zeta. split; [reflexivity|].
  unfold add_factory_models. cbn [add_request req_models req_display_names from_option snd].
  destruct models as [|m0 models]; [contradiction|].
  cbn [save_factory_config get_factory_config].
  change (dict_get "custom_models" [("custom_models", JList [])]) with (Some (JList [])).
  cbn [from_option id existing_ids models_of].
  rewrite (add_loop_run [] display_names (m0 :: models) [("custom_models", JList [])] [] []
             eq_refl).
  rewrite filter_all by reflexivity. reflexivity.
Qed.

Lemma remove_all_then_add_witness :
  add_factory_models (add_request ["gpt-5"] [])
    (snd (remove_factory_models sample_truthy (remove_all_request (Some ["my-local-model"]))
                                (Unparseable "{custom_models: ")))
  = (JDict [("success", JBool true); ("added", JList [JStr "gpt-5"])],
     Stored (JDict [("custom_models", JList [factory_entry [] "gpt-5"])])).
Proof.
  exact (proj2 (remove_all_then_add sample_truthy (remove_all_request (Some ["my-local-model"]))
                  ["gpt-5"] [] (Unparseable "{custom_models: ") (JBool true)
                  eq_refl eq_refl ltac:(discriminate))).
Defined.


(* ===================================================================== *)
(** * Logging in to a provider *)

Lemma get_model_provider_range model_id p :
  get_model_provider model_id = Some p ->
  In p ["gemini"; "copilot"; "antigravity"; "codex"; "claude"; "qwen"; "iflow"; "kiro"].
Proof.
  unfold get_model_provider. intros H.
  repeat match type of H with
         | (if ?c then _ else _) = _ => destruct c
         end;
    try discriminate; injection H as <-; simpl; tauto.
Qed.

Lemma glob_match_plain c pattern name :
  c <> "*"%char ->
  glob_match (String c pattern) name = true ->
  exists name', name = String c name' /\ glob_match pattern name' = true.
Proof.
  intros Hc H. cbn [glob_match] in H.
  destruct (Ascii.eqb_spec c "*") as [->|_]; [contradiction|].
  destruct name as [|c' name']; [discriminate|].
  apply andb_true_iff in H. destruct H as [Hcc H].
  apply Ascii.eqb_eq in Hcc. subst c'. exists name'. split; [reflexivity | exact H].
Qed.

Lemma auth_status_true (table : list (string * string)) names p :
  dict_get p (map (fun entry => (fst entry, JBool (existsb (glob_match (snd entry)) names)))
                  table) = Some (JBool true) ->
  exists pattern, In (p, pattern) table /\ existsb (glob_match pattern) names = true.
Proof.
  induction table as [|[k pattern] table IH]; simpl; [discriminate|].
  destruct (String.eqb_spec p k) as [->|Hne].
  - intros [= H]. exists pattern. split; [left; reflexivity | exact H].
  - intros H. destruct (IH H) as (pat & Hin & Hm). exists pat. split; [right; exact Hin | exact Hm].
Qed.

Ltac plain_prefix H :=
  repeat (apply glob_match_plain in H; [|discriminate];
          let n := fresh "name" in
          let E := fresh "E" in
          destruct H as (n & E & H); try subst).

(** X28.  The three tables of providers agree.  Whatever provider
    [get_model_provider] gives to a model id, [start_oauth_login] knows it,
    and goes on to start the login with that provider's flag, and
    [get_auth_status] reports on it. *)
Theorem catalog_providers_can_log_in spawn names model_id p :
  is_ascii model_id = true ->
  get_model_provider model_id = Some p ->
  (exists flag,
     In (p, flag) oauth_flags /\
     start_oauth_login spawn p
       = match spawn p flag with
         | Done _ => JDict [("success", JBool true);
                            ("message", JStr ("OAuth login started for " +:+ p))]
         | Failed msg => failure msg
         end) /\
  exists d b, get_auth_status names = JDict d /\ dict_get p d = Some (JBool b).
Proof.
  intros _ H. apply get_model_provider_range in H. simpl in H.
  repeat (destruct H as [<-|H]); try contradiction;
    (split; [eexists; split; [|reflexivity]; simpl; tauto
            | eexists _, _; split; reflexivity]).
Qed.

Lemma catalog_providers_can_log_in_witness :
  (exists flag,
     In ("kiro", flag) oauth_flags /\
     start_oauth_login sample_spawn "kiro"
       = match sample_spawn "kiro" flag with
         | Done _ => JDict [("success", JBool true);
                            ("message", JStr ("OAuth login started for " +:+ "kiro"))]
         | Failed msg => failure msg
         end) /\
  exists d b, get_auth_status ["kiro-aws.json"] = JDict d /\ dict_get "kiro" d = Some (JBool b).
Proof.
  exact (catalog_providers_can_log_in sample_spawn ["kiro-aws.json"] "Kimi-K2" "kiro"
           eq_refl eq_refl).
Defined.

(** X29.  One credentials file, one provider.  When the configuration
    directory holds a single entry and [get_auth_status] reports a
    provider as logged in, it reports every other provider as not logged
    in. *)
Theorem auth_file_counts_once name d p q :
  get_auth_status [name] = JDict d ->
  dict_get p d = Some (JBool true) ->
  q <> p ->
  dict_get q d <> Some (JBool true).
Proof.
  intros Hd Hp Hne Hq.
  assert (d = map (fun entry => (fst entry, JBool (existsb (glob_match (snd entry)) [name])))
                  auth_patterns) as ->
      by (unfold get_auth_status in Hd; congruence).
  apply auth_status_true in Hp. apply auth_status_true in Hq.
  destruct Hp as (pp & Hpin & Hp). destruct Hq as (pq & Hqin & Hq).
  cbn [existsb] in Hp, Hq. rewrite orb_false_r in Hp, Hq.
  unfold auth_patterns in Hpin, Hqin. cbn [In] in Hpin, Hqin.
  repeat (destruct Hpin as [Hpin|Hpin]); try contradiction; injection Hpin as <- <-;
    repeat (destruct Hqin as [Hqin|Hqin]); try contradiction; injection Hqin as <- <-;
    try (contradiction Hne; reflexivity);
    plain_prefix Hp; cbn in Hq; discriminate.
Qed.

Lemma auth_file_counts_once_witness :
  dict_get "claude"
    (map (fun entry => (fst entry,
                        JBool (existsb (glob_match (snd entry)) ["kiro-claude-token.json"])))
         auth_patterns)
  <> Some (JBool true).
Proof.
  exact (auth_file_counts_once "kiro-claude-token.json" _ "kiro" "claude"
           eq_refl eq_refl ltac:(discriminate)).
Defined.
